(** * Python_API: the retrying request wrapper and the menu loops

    A shallow embedding of the tutorial scripts

      - [part3_user_input.py]     (the five actions and [main]),
      - [part4_error_handling.py] ([safe_api_request], the validations and
                                   the demos),
      - [part5_real_api.py]       (module start-up, the actions and [dashboard]),

    followed by the properties of the specification that concern them.

    The scripts talk to three collaborators that are not part of the
    repository: the console ([input], [print]), the [requests] library and
    the local file system.  They are modelled by an explicit world that is
    threaded through every function, and by an environment [Env] holding the
    oracles that decide what the outside answers. *)

From Stdlib Require Import ZArith QArith Ascii.
From stdpp Require Import gmap strings pretty list.

Local Open Scope Z_scope.

(** ** Python strings

    A Python [str] whose code points lie below U+0100 is a [string]: one
    [ascii] per code point (Latin-1).  Code points above U+00FF are outside
    the model. *)

Module PyStr.

Definition code (c : ascii) : N := N_of_ascii c.

Definition between (lo hi : N) (c : ascii) : bool :=
  ((lo <=? code c) && (code c <=? hi))%N.

(** [str.isspace] on one code point of Latin-1. *)
Definition is_space (c : ascii) : bool :=
  between 9 13 c || between 28 32 c || (code c =? 133)%N || (code c =? 160)%N.

(** The characters [int()] accepts as digits: Unicode category Nd. *)
Definition is_decimal (c : ascii) : bool := between 48 57 c.

(** [str.isdigit] on one code point: category Nd, or Numeric_Type=Digit,
    which in Latin-1 adds the superscripts U+00B2, U+00B3 and U+00B9. *)
Definition is_digit (c : ascii) : bool :=
  is_decimal c || (code c =? 178)%N || (code c =? 179)%N || (code c =? 185)%N.

Fixpoint all_chars (p : ascii -> bool) (s : string) : bool :=
  match s with
  | EmptyString => true
  | String c r => p c && all_chars p r
  end.

(** [s.isdigit()]: every character is a digit and there is at least one. *)
Definition isdigit (s : string) : bool :=
  match s with
  | EmptyString => false
  | _ => all_chars is_digit s
  end.

Fixpoint lstrip (s : string) : string :=
  match s with
  | EmptyString => EmptyString
  | String c r => if is_space c then lstrip r else s
  end.

Fixpoint rstrip (s : string) : string :=
  match s with
  | EmptyString => EmptyString
  | String c r =>
      match rstrip r with
      | EmptyString => if is_space c then EmptyString else String c EmptyString
      | r' => String c r'
      end
  end.

(** [s.strip()] *)
Definition strip (s : string) : string := rstrip (lstrip s).

Definition lower_char (c : ascii) : ascii :=
  if between 65 90 c || (between 192 222 c && negb (code c =? 215)%N)
  then ascii_of_N (code c + 32) else c.

(** [s.lower()] *)
Fixpoint lower (s : string) : string :=
  match s with
  | EmptyString => EmptyString
  | String c r => String (lower_char c) (lower r)
  end.

(** [sep.join(parts)] *)
Fixpoint join (sep : string) (parts : list string) : string :=
  match parts with
  | [] => ""
  | [p] => p
  | p :: rest => p +:+ sep +:+ join sep rest
  end.

(** [c * n] for a one-character string [c] *)
Fixpoint times (c : string) (n : nat) : string :=
  match n with
  | O => ""
  | S n' => c +:+ times c n'
  end.

(** [format(s, "<w")] and [format(s, ">w")] on a [str]: pad with spaces. *)
Definition ljust (w : nat) (s : string) : string :=
  s +:+ times " " (w - String.length s).
Definition rjust (w : nat) (s : string) : string :=
  times " " (w - String.length s) +:+ s.

(** [s.split(",")]: never empty, splits at every comma. *)
Fixpoint split_comma (s : string) : list string :=
  match s with
  | EmptyString => [""]
  | String c r =>
      if (code c =? 44)%N then "" :: split_comma r
      else match split_comma r with
           | [] => [String c ""]
           | p :: ps => String c p :: ps
           end
  end.

Definition is_empty (s : string) : bool :=
  match s with EmptyString => true | _ => false end.

(** The white space [int()] skips around a literal: the ASCII white space
    and, of the other code points of Latin-1, U+0085 and U+00A0.  The
    separators U+001C to U+001F, which [str.strip] removes, are not among
    them. *)
Definition is_int_space (c : ascii) : bool :=
  between 9 13 c || (code c =? 32)%N || (code c =? 133)%N || (code c =? 160)%N.

Fixpoint lstrip_int (s : string) : string :=
  match s with
  | EmptyString => EmptyString
  | String c r => if is_int_space c then lstrip_int r else s
  end.

(** The digits at the head of a literal handed to [int()]: decimal digits,
    with single underscores allowed between two of them.  Returns the
    value, the number of digits and what follows them; [None] where an
    underscore comes first, last or twice in a row, or no digit is there.
    [barred] says that a digit has to come next. *)
Fixpoint scan_digits (s : string) (acc : Z) (n : N) (barred : bool)
  : option (Z * N * string) :=
  match s with
  | EmptyString => if barred then None else Some (acc, n, EmptyString)
  | String c r =>
      if is_decimal c
      then scan_digits r (10 * acc + (Z.of_N (code c) - 48)) (n + 1)%N false
      else if barred then None
      else if (code c =? 95)%N then scan_digits r acc n true
      else Some (acc, n, s)
  end.

(** What [int(s)] does in base 10. *)
Inductive int_outcome : Type :=
| IntValue (z : Z)
| IntInvalid               (* ValueError: invalid literal *)
| IntTooLong (digits : N). (* ValueError: exceeds the limit *)

(** [int(s)]: leading white space, an optional sign, the digits, trailing
    white space.  The number of digits is held against [limit],
    [sys.get_int_max_str_digits()] (0: no limit; literals of up to 640
    digits are never refused), as soon as the digits are read, before what
    follows them is looked at. *)
Definition int_parse (limit : N) (s : string) : int_outcome :=
  let t := lstrip_int s in
  let '(sign, body) :=
    match t with
    | String c r =>
        if (code c =? 43)%N then (1, r)
        else if (code c =? 45)%N then (-1, r)
        else (1, t)
    | EmptyString => (1, t)
    end in
  match scan_digits body 0 0%N true with
  | Some (v, n, rest) =>
      if (640 <? n)%N && negb (limit =? 0)%N && (limit <? n)%N
      then IntTooLong n
      else if all_chars is_int_space rest then IntValue (sign * v)
      else IntInvalid
  | None => IntInvalid
  end.

(** [int(s)], [None] standing for [ValueError]. *)
Definition int (limit : N) (s : string) : option Z :=
  match int_parse limit s with
  | IntValue z => Some z
  | _ => None
  end.

(** [repr(s)] of a string of printable characters that holds neither a
    quote nor a backslash. *)
Definition repr (s : string) : string := "'" +:+ s +:+ "'".

(** [s.startswith(p)] *)
Fixpoint startswith (p s : string) : bool :=
  match p with
  | EmptyString => true
  | String c p' =>
      match s with
      | EmptyString => false
      | String d s' => Ascii.eqb c d && startswith p' s'
      end
  end.

(** [needle in s] for two strings: [needle] occurs somewhere in [s]. *)
Fixpoint occurs (needle s : string) : bool :=
  startswith needle s
  || match s with
     | EmptyString => false
     | String _ s' => occurs needle s'
     end.

(** [s[:n]] *)
Fixpoint take (n : nat) (s : string) : string :=
  match n, s with
  | S n', String c r => String c (take n' r)
  | _, _ => EmptyString
  end.

(** [str(e)] of the [ValueError] that [int(s)] raises; the literal is
    shown through [%.200R]. *)
Definition int_error_text (limit : N) (s : string) : string :=
  match int_parse limit s with
  | IntTooLong n =>
      "Exceeds the limit (" +:+ pretty limit +:+
      " digits) for integer string conversion: value has " +:+ pretty n +:+
      " digits; use sys.set_int_max_str_digits() to increase the limit"
  | _ => "invalid literal for int() with base 10: " +:+ take 200 (repr s)
  end.

End PyStr.

(** ** Python values and exceptions *)

(** The values [response.json()] can return. A dict keeps its items in
    order, as Python does. *)
#[warnings="-register-all"]
Inductive pyval : Type :=
| PNone
| PBool (b : bool)
| PInt (z : Z)
| PFloat (q : Q)
| PStr (s : string)
| PList (items : list pyval)
| PDict (items : list (string * pyval)).

(** [bool(v)], the test behind [if not data]. *)
Definition truthy (v : pyval) : bool :=
  match v with
  | PNone => false
  | PBool b => b
  | PInt z => negb (z =? 0)
  | PFloat q => negb (Qnum q =? 0)
  | PStr s => negb (PyStr.is_empty s)
  | PList l => match l with [] => false | _ => true end
  | PDict l => match l with [] => false | _ => true end
  end.

(** Exception classes: the part of [requests.exceptions] the scripts can
    meet, and the builtins raised by the operations they perform. *)
Inductive ExnClass : Type :=
| RequestException | HTTPError
| ConnectionError | ProxyError | SSLError
| Timeout | ConnectTimeout | ReadTimeout
| InvalidJSONError | JSONDecodeError
| TooManyRedirects | InvalidURL | MissingSchema | ChunkedEncodingError
| KeyError | IndexError | TypeError | ValueError | AttributeError
| EOFError | OSError.

(** An exception instance: its class, [str(e)], and for an [HTTPError] the
    status code of [e.response] when a response is attached. *)
Record Exn : Type := mkExn {
  exn_class : ExnClass;
  exn_msg : string;
  exn_response : option Z
}.

(** [isinstance(e, (ConnectionError, Timeout))] with the names imported from
    [requests.exceptions]. *)
Definition is_ConnectionError_or_Timeout (c : ExnClass) : bool :=
  match c with
  | ConnectionError | ProxyError | SSLError
  | Timeout | ConnectTimeout | ReadTimeout => true
  | _ => false
  end.

Definition is_HTTPError (c : ExnClass) : bool :=
  match c with HTTPError => true | _ => false end.

(** [isinstance(e, requests.RequestException)] *)
Definition is_RequestException (c : ExnClass) : bool :=
  match c with
  | RequestException | HTTPError
  | ConnectionError | ProxyError | SSLError
  | Timeout | ConnectTimeout | ReadTimeout
  | InvalidJSONError | JSONDecodeError
  | TooManyRedirects | InvalidURL | MissingSchema | ChunkedEncodingError => true
  | _ => false
  end.

(** ** The outside world *)

(** The body of a response, as [response.json()] sees it: a JSON document,
    text it rejects with a [JSONDecodeError] of the given message, or
    content on which it raises an exception of another class (a
    [ValueError] for an integer literal beyond the digit limit, a
    [RecursionError] for a nesting too deep), which [requests] passes on
    as it is. *)
Inductive Body : Type :=
| Json (v : pyval)
| NotJson (msg : string)
| JsonRaises (e : Exn).

(** What one call of [requests.get] or [requests.post] meets: the call
    itself raises, or a response arrives with a status code and a body. *)
Inductive Reply : Type :=
| Raises (e : Exn)
| Responds (status : Z) (body : Body).

Inductive LogLevel : Type := INFO | WARNING | ERROR.

(** The observable actions, in the order they happen. *)
Inductive Event : Type :=
| EvPrint (line : string)
| EvPrompt (text : string)
| EvLog (level : LogLevel) (msg : string)
| EvGet (url : string) (params : list (string * pyval)) (timeout : option Z)
| EvPost (url : string) (payload : pyval) (timeout : option Z)
| EvSleep (seconds : Z)
| EvOpenW (filename : string).

(** The oracles and the runtime facilities the scripts rely on. *)
Record Env : Type := mkEnv {
  (** the reply to the n-th HTTP call of the run *)
  net : nat -> Reply;
  (** [open(filename, "w")]: [Some msg] when it raises [OSError] *)
  open_error : string -> option string;
  (** [str(e)] of the [HTTPError] that [raise_for_status] raises for a
      status code *)
  status_text : Z -> string;
  (** [os.environ.get] *)
  environ : string -> option string;
  (** [datetime.now().strftime(...)] at the start of the dashboard *)
  now : string;
  (** [sys.get_int_max_str_digits()] *)
  int_max_str_digits : N;
  (** [str(v)], as an f-string without format spec renders a value *)
  py_str : pyval -> string;
  (** [format(v, spec)]; [inl e] when it raises *)
  py_format : pyval -> string -> Exn + string;
  (** [s.title()] *)
  str_title : string -> string
}.

(** The state a run carries along. *)
Record World : Type := mkWorld {
  (** the lines [input()] has still to return *)
  stdin : list string;
  (** the number of HTTP calls issued so far *)
  calls : nat;
  (** everything observable that happened, oldest first *)
  trace : list Event;
  (** the files written so far: name to the value dumped as JSON *)
  fs : gmap string pyval;
  (** part5's module global [OPENWEATHER_API_KEY] *)
  OPENWEATHER_API_KEY : option string;
  (** part5's module global [last_post_data]; [None] while the name is not
      in [globals()] *)
  last_post_data : option pyval
}.

(** ** Computations: state and exceptions *)

Inductive Outcome (A : Type) : Type :=
| Ret (a : A)
| Raise (e : Exn).
Arguments Ret {A} a.
Arguments Raise {A} e.

Definition M (A : Type) : Type := World -> Outcome A * World.

Definition ret {A} (a : A) : M A := fun w => (Ret a, w).
Definition raise {A} (e : Exn) : M A := fun w => (Raise e, w).

Definition bind {A B} (m : M A) (k : A -> M B) : M B :=
  fun w =>
    match m w with
    | (Ret a, w') => k a w'
    | (Raise e, w') => (Raise e, w')
    end.

(** [try: body / except ...: handler]: the handler sees the exception and
    either deals with it or raises it again. *)
Definition try_except {A} (body : M A) (handler : Exn -> M A) : M A :=
  fun w =>
    match body w with
    | (Ret a, w') => (Ret a, w')
    | (Raise e, w') => handler e w'
    end.

Notation "x <- m ;; k" := (bind m (fun x => k))
  (at level 100, m at next level, right associativity).
Notation "m ;;; k" := (bind m (fun _ => k))
  (at level 100, right associativity).

Definition emit (e : Event) : M unit :=
  fun w => (Ret tt,
            mkWorld (stdin w) (calls w) (trace w ++ [e]) (fs w)
                    (OPENWEATHER_API_KEY w) (last_post_data w)).

Definition print (line : string) : M unit := emit (EvPrint line).
Definition logging (level : LogLevel) (msg : string) : M unit :=
  emit (EvLog level msg).
Definition sleep (seconds : Z) : M unit := emit (EvSleep seconds).

(** [input(prompt)]: shows the prompt, returns the next line, raises
    [EOFError] at the end of the input. *)
Definition input (prompt : string) : M string :=
  fun w =>
    let tr := trace w ++ [EvPrompt prompt] in
    match stdin w with
    | [] => (Raise (mkExn EOFError "EOF when reading a line" None),
             mkWorld [] (calls w) tr (fs w)
                     (OPENWEATHER_API_KEY w) (last_post_data w))
    | l :: rest => (Ret l,
                    mkWorld rest (calls w) tr (fs w)
                            (OPENWEATHER_API_KEY w) (last_post_data w))
    end.

(** A response object: [status_code] and what [json()] gives. *)
Record Response : Type := mkResponse {
  status_code : Z;
  json_body : Body
}.

(** One HTTP call: recorded in the trace, answered by the oracle. *)
Definition http_call (env : Env) (ev : Event) : M Response :=
  fun w =>
    let w' := mkWorld (stdin w) (S (calls w)) (trace w ++ [ev]) (fs w)
                      (OPENWEATHER_API_KEY w) (last_post_data w) in
    match net env (calls w) with
    | Raises e => (Raise e, w')
    | Responds st body => (Ret (mkResponse st body), w')
    end.

Definition requests_get (env : Env) (url : string)
    (params : list (string * pyval)) (timeout : option Z) : M Response :=
  http_call env (EvGet url params timeout).

Definition requests_post (env : Env) (url : string) (payload : pyval)
    (timeout : option Z) : M Response :=
  http_call env (EvPost url payload timeout).

(** [requests] raises [HTTPError] for the codes 400 to 599. *)
Definition is_error_status (st : Z) : bool := (400 <=? st) && (st <? 600).

(** [response.raise_for_status()] *)
Definition raise_for_status (env : Env) (r : Response) : M unit :=
  if is_error_status (status_code r)
  then raise (mkExn HTTPError
                (status_text env (status_code r)) (Some (status_code r)))
  else ret tt.

(** [response.json()] *)
Definition response_json (r : Response) : M pyval :=
  match json_body r with
  | Json v => ret v
  | NotJson msg => raise (mkExn JSONDecodeError msg None)
  | JsonRaises e => raise e
  end.

(** ** part4_error_handling.py *)

Module Part4.

(** The dict [safe_api_request] returns, or [None] when the function
    falls off its end. *)
Inductive api_result : Type :=
| ApiSuccess (data : pyval)      (* {"success": True, "data": data} *)
| ApiFailure (error : string)    (* {"success": False, "error": error} *)
| ApiNone.

Section SafeApiRequest.
Variable env : Env.
Variables (url : string) (timeout : Z) (retries : Z).

(** The [except] clauses of the loop body, in source order.  [None]
    means the body ended without [return] and the loop goes on. *)
Definition on_error (attempt : Z) (e : Exn) : M (option api_result) :=
  if is_ConnectionError_or_Timeout (exn_class e) then
    logging WARNING
      ("Attempt " +:+ pretty attempt +:+
       " failed due to network issue: " +:+ exn_msg e) ;;;
    if attempt =? retries then
      logging ERROR
        ("Request failed after " +:+ pretty retries +:+
         " attempts: " +:+ url) ;;;
      ret (Some (ApiFailure
                   ("Failed after " +:+ pretty retries +:+ " attempts")))
    else
      sleep 2 ;;;
      ret None
  else if is_HTTPError (exn_class e) then
    match exn_response e with
    | None =>
        raise (mkExn AttributeError
                 "'NoneType' object has no attribute 'status_code'" None)
    | Some status =>
        logging ERROR
          ("HTTP error " +:+ pretty status +:+ " for " +:+ url) ;;;
        ret (Some (ApiFailure ("HTTP Error: " +:+ pretty status)))
    end
  else if is_RequestException (exn_class e) then
    logging ERROR
      ("Request exception for " +:+ url +:+ ": " +:+ exn_msg e) ;;;
    ret (Some (ApiFailure ("Request failed: " +:+ exn_msg e)))
  else raise e.

(** One pass through the body of the [for] loop. *)
Definition attempt_body (attempt : Z) : M (option api_result) :=
  try_except
    (logging INFO ("Attempt " +:+ pretty attempt +:+ " for " +:+ url) ;;;
     response <- requests_get env url [] (Some timeout) ;;
     raise_for_status env response ;;;
     logging INFO
       ("Request successful (" +:+ pretty (status_code response) +:+
        ") for " +:+ url) ;;;
     data <- response_json response ;;
     ret (Some (ApiSuccess data)))
    (on_error attempt).

(** [for attempt in range(first, first + n)] *)
Fixpoint attempts (n : nat) (attempt : Z) : M api_result :=
  match n with
  | O => ret ApiNone
  | S n' =>
      r <- attempt_body attempt ;;
      match r with
      | Some res => ret res
      | None => attempts n' (attempt + 1)
      end
  end.

(** [range(1, retries + 1)] has [max 0 retries] elements. *)
Definition safe_api_request : M api_result :=
  logging INFO ("Request started: " +:+ url) ;;;
  attempts (Z.to_nat retries) 1.

End SafeApiRequest.

End Part4.

(** ** Operations on values *)

(** The line feed of ["\n"] and the degree sign, U+00B0. *)
Definition nl : string := String (ascii_of_N 10) EmptyString.
Definition deg : string := String (ascii_of_N 176) EmptyString.

Definition type_name (v : pyval) : string :=
  match v with
  | PNone => "NoneType"
  | PBool _ => "bool"
  | PInt _ => "int"
  | PFloat _ => "float"
  | PStr _ => "str"
  | PList _ => "list"
  | PDict _ => "dict"
  end.

Fixpoint assoc {A} (key : string) (items : list (string * A)) : option A :=
  match items with
  | [] => None
  | (k, v) :: rest => if String.eqb k key then Some v else assoc key rest
  end.

(** [v[key]] for a [str] key. *)
Definition subscript (v : pyval) (key : string) : M pyval :=
  match v with
  | PDict items =>
      match assoc key items with
      | Some x => ret x
      | None => raise (mkExn KeyError ("'" +:+ key +:+ "'") None)
      end
  | PList _ =>
      raise (mkExn TypeError
               "list indices must be integers or slices, not str" None)
  | PStr _ =>
      raise (mkExn TypeError "string indices must be integers, not 'str'" None)
  | _ =>
      raise (mkExn TypeError
               ("'" +:+ type_name v +:+ "' object is not subscriptable") None)
  end.

(** [v[0]] *)
Definition subscript0 (v : pyval) : M pyval :=
  match v with
  | PList (x :: _) => ret x
  | PList [] => raise (mkExn IndexError "list index out of range" None)
  | PStr (String c _) => ret (PStr (String c EmptyString))
  | PStr EmptyString => raise (mkExn IndexError "string index out of range" None)
  | PDict _ => raise (mkExn KeyError "0" None)
  | _ =>
      raise (mkExn TypeError
               ("'" +:+ type_name v +:+ "' object is not subscriptable") None)
  end.

(** [v.get(key, default)]: a method of dicts only. *)
Definition get_method (v : pyval) (key : string) (default : pyval) : M pyval :=
  match v with
  | PDict items =>
      match assoc key items with
      | Some x => ret x
      | None => ret default
      end
  | _ =>
      raise (mkExn AttributeError
               ("'" +:+ type_name v +:+ "' object has no attribute 'get'") None)
  end.

Fixpoint chars (s : string) : list pyval :=
  match s with
  | EmptyString => []
  | String c r => PStr (String c EmptyString) :: chars r
  end.

(** What [for x in v] goes through. *)
Definition iterate (v : pyval) : M (list pyval) :=
  match v with
  | PList items => ret items
  | PDict items => ret (map (fun kv => PStr (fst kv)) items)
  | PStr s => ret (chars s)
  | _ =>
      raise (mkExn TypeError
               ("'" +:+ type_name v +:+ "' object is not iterable") None)
  end.

(** [item in container] for a [str] item: a key of a dict, an element of
    a list, a substring of a string; other values cannot be searched. *)
Definition contains (item : string) (container : pyval) : M bool :=
  match container with
  | PDict items =>
      ret (match assoc item items with Some _ => true | None => false end)
  | PList items =>
      ret (existsb (fun v => match v with
                             | PStr s => String.eqb s item
                             | _ => false
                             end) items)
  | PStr s => ret (PyStr.occurs item s)
  | _ =>
      raise (mkExn TypeError
               ("argument of type '" +:+ type_name container +:+
                "' is not iterable") None)
  end.

(** [len(v)] *)
Definition len (v : pyval) : M Z :=
  match v with
  | PList items => ret (Z.of_nat (length items))
  | PDict items => ret (Z.of_nat (length items))
  | PStr s => ret (Z.of_nat (String.length s))
  | _ =>
      raise (mkExn TypeError
               ("object of type '" +:+ type_name v +:+ "' has no len()") None)
  end.

(** [v[:n]]: lists and strings can be sliced; a dict cannot (a [TypeError]
    for the unhashable slice, a [KeyError] from Python 3.12 on). *)
Definition slice_to (n : nat) (v : pyval) : M pyval :=
  match v with
  | PList items => ret (PList (firstn n items))
  | PStr s => ret (PStr (PyStr.take n s))
  | PDict _ => raise (mkExn TypeError "unhashable type: 'slice'" None)
  | _ =>
      raise (mkExn TypeError
               ("'" +:+ type_name v +:+ "' object is not subscriptable") None)
  end.

(** [str(names)] for a list of strings: ['a', 'b']. *)
Definition str_of_names (names : list string) : string :=
  "[" +:+ PyStr.join ", " (map (fun f => "'" +:+ f +:+ "'") names) +:+ "]".

(** [format(v, spec)] inside an f-string. *)
Definition format (env : Env) (v : pyval) (spec : string) : M string :=
  match py_format env v spec with
  | inl e => raise e
  | inr s => ret s
  end.

(** The [try]/[except requests.RequestException as e] block shared by the
    functions that fetch a document: the call, [raise_for_status()],
    [response.json()]; on a request exception [print(f"<label>{e}")] and
    the value [None]. *)
Definition fetch_json (env : Env) (call : M Response) (label : string)
  : M pyval :=
  try_except
    (response <- call ;;
     raise_for_status env response ;;;
     response_json response)
    (fun e =>
       if is_RequestException (exn_class e)
       then print (label +:+ exn_msg e) ;;; ret PNone
       else raise e).

(** ** part3_user_input.py *)

Module Part3.

Section Actions.
Variable env : Env.

(** The test [not user_id.isdigit() or not (1 <= int(user_id) <= 10)];
    [or] evaluates [int] only when [isdigit] holds. *)
Definition invalid_user_id (user_id : string) : M bool :=
  if negb (PyStr.isdigit user_id) then ret true
  else
    match PyStr.int (int_max_str_digits env) user_id with
    | None =>
        raise (mkExn ValueError
                 (PyStr.int_error_text (int_max_str_digits env) user_id) None)
    | Some n => ret (negb ((1 <=? n) && (n <=? 10)))
    end.

Definition get_user_info : M unit :=
  print ("=== User Information Lookup ===" +:+ nl) ;;;
  user_id <- input "Enter user ID (1-10): " ;;
  bad <- invalid_user_id user_id ;;
  if bad then print "User ID must be a number!"
  else
    let url := "https://jsonplaceholder.typicode.com/users/" +:+ user_id in
    try_except
      (response <- requests_get env url [] None ;;
       raise_for_status env response ;;;
       data <- response_json response ;;
       print (nl +:+ "--- User #" +:+ user_id +:+ " Info ---") ;;;
       name <- subscript data "name" ;;
       print ("Name: " +:+ py_str env name) ;;;
       email <- subscript data "email" ;;
       print ("Email: " +:+ py_str env email) ;;;
       phone <- subscript data "phone" ;;
       print ("Phone: " +:+ py_str env phone) ;;;
       website <- subscript data "website" ;;
       print ("Website: " +:+ py_str env website))
      (fun e =>
         if is_RequestException (exn_class e)
         then print (nl +:+ "User with ID " +:+ user_id +:+ " not found!")
         else raise e).

(** [for i, post in enumerate(posts, 1): print(f"{i}. {post['title']}")] *)
Fixpoint print_titles (i : Z) (posts : list pyval) : M unit :=
  match posts with
  | [] => ret tt
  | post :: rest =>
      title <- subscript post "title" ;;
      print (pretty i +:+ ". " +:+ py_str env title) ;;;
      print_titles (i + 1) rest
  end.

Definition search_posts : M unit :=
  print (nl +:+ "=== Post Search ===" +:+ nl) ;;;
  line <- input "Enter user ID to see their posts (1-10): " ;;
  let user_id := PyStr.strip line in
  bad <- invalid_user_id user_id ;;
  if bad then print "User ID must be numeric!"
  else
    let url := "https://jsonplaceholder.typicode.com/posts" in
    try_except
      (response <- requests_get env url [("userId", PStr user_id)] None ;;
       raise_for_status env response ;;;
       posts <- response_json response ;;
       if truthy posts then
         print (nl +:+ "--- Posts by User #" +:+ user_id +:+ " ---") ;;;
         items <- iterate posts ;;
         print_titles 1 items
       else print "No posts found for this user.")
      (fun e =>
         if is_RequestException (exn_class e)
         then print "Error fetching posts."
         else raise e).

(** [get_crypto_price] of part 3: no validation, the whole display inside
    the [try]. *)
Definition get_crypto_price : M unit :=
  print (nl +:+ "=== Cryptocurrency Price Checker ===" +:+ nl) ;;;
  print "Available coins: btc-bitcoin, eth-ethereum, doge-dogecoin" ;;;
  line <- input "Enter coin ID (e.g., btc-bitcoin): " ;;
  let coin_id := PyStr.strip (PyStr.lower line) in
  let url := "https://api.coinpaprika.com/v1/tickers/" +:+ coin_id in
  try_except
    (response <- requests_get env url [] None ;;
     raise_for_status env response ;;;
     data <- response_json response ;;
     quotes <- subscript data "quotes" ;;
     usd <- subscript quotes "USD" ;;
     price_usd <- subscript usd "price" ;;
     quotes' <- subscript data "quotes" ;;
     usd' <- subscript quotes' "USD" ;;
     change_24h <- subscript usd' "percent_change_24h" ;;
     name <- subscript data "name" ;;
     symbol <- subscript data "symbol" ;;
     print (nl +:+ "--- " +:+ py_str env name +:+ " (" +:+
            py_str env symbol +:+ ") ---") ;;;
     f1 <- format env price_usd ",.2f" ;;
     print ("Price: $" +:+ f1) ;;;
     f2 <- format env change_24h "+.2f" ;;
     print ("24h Change: " +:+ f2 +:+ "%"))
    (fun e =>
       if is_RequestException (exn_class e)
       then print (nl +:+ "Coin '" +:+ coin_id +:+
                   "' not found! Try: btc-bitcoin, eth-ethereum, doge-dogecoin")
       else raise e).

(** The table [city_coords] of part 3's [get_weather]. *)
Definition city_coords : list (string * (Q * Q)) :=
  [ ("delhi", (2861 # 100, 7723 # 100));
    ("mumbai", (1907 # 100, 7287 # 100));
    ("london", (5150 # 100, -12 # 100));
    ("new york", (4071 # 100, -7400 # 100)) ].

Definition get_weather : M unit :=
  print (nl +:+ "=== Weather Checker ===" +:+ nl) ;;;
  line <- input "Enter city name: " ;;
  let city := PyStr.strip (PyStr.lower line) in
  match assoc city city_coords with
  | None => print "City not available!"
  | Some (lat, lon) =>
      let url := "https://api.open-meteo.com/v1/forecast" in
      let params :=
        [ ("latitude", PFloat lat);
          ("longitude", PFloat lon);
          ("current_weather", PStr "true") ] in
      try_except
        (response <- requests_get env url params None ;;
         raise_for_status env response ;;;
         data <- response_json response ;;
         weather <- subscript data "current_weather" ;;
         print (nl +:+ "City: " +:+ str_title env city) ;;;
         temperature <- subscript weather "temperature" ;;
         print ("Temperature: " +:+ py_str env temperature +:+ deg +:+ "C") ;;;
         windspeed <- subscript weather "windspeed" ;;
         print ("Wind Speed: " +:+ py_str env windspeed +:+ " km/h"))
        (fun e =>
           if is_RequestException (exn_class e)
           then print "Could not fetch weather data."
           else raise e)
  end.

(** [for todo in todos[:5]: print("-", todo["title"])] *)
Fixpoint print_todos (todos : list pyval) : M unit :=
  match todos with
  | [] => ret tt
  | todo :: rest =>
      title <- subscript todo "title" ;;
      print ("- " +:+ py_str env title) ;;;
      print_todos rest
  end.

Definition search_todos : M unit :=
  print (nl +:+ "=== Todo Search ===" +:+ nl) ;;;
  line <- input "Enter status (true/false): " ;;
  let status := PyStr.strip (PyStr.lower line) in
  if negb (String.eqb status "true" || String.eqb status "false")
  then print "Invalid status!"
  else
    let url := "https://jsonplaceholder.typicode.com/todos" in
    try_except
      (response <- requests_get env url [("completed", PStr status)] None ;;
       raise_for_status env response ;;;
       todos <- response_json response ;;
       n <- len todos ;;
       print (nl +:+ "Total todos found: " +:+ pretty n) ;;;
       first <- slice_to 5 todos ;;
       items <- iterate first ;;
       print_todos items)
      (fun e =>
         if is_RequestException (exn_class e)
         then print "Could not fetch todos."
         else raise e).

(** What the [if]/[elif] chain of [main] does with a choice.  [true]: the
    loop goes on; [false]: [break]. *)
Definition main_dispatch (choice : string) : M bool :=
  if String.eqb choice "1" then get_user_info ;;; ret true
  else if String.eqb choice "2" then search_posts ;;; ret true
  else if String.eqb choice "3" then get_crypto_price ;;; ret true
  else if String.eqb choice "4" then search_todos ;;; ret true
  else if String.eqb choice "5" then get_weather ;;; ret true
  else if String.eqb choice "6" then
    print (nl +:+ "Goodbye!") ;;; ret false
  else
    print "Invalid choice. Please try again." ;;; ret true.

(** One pass through the body of [while True] in [main]. *)
Definition main_iteration : M bool :=
  print (nl +:+ "Choose an option:") ;;;
  print "1. Look up user info" ;;;
  print "2. Search posts by user" ;;;
  print "3. Check crypto price" ;;;
  print "4. Search todos" ;;;
  print "5. Check weather" ;;;
  print "6. Exit" ;;;
  line <- input (nl +:+ "Enter choice (1-6): ") ;;
  main_dispatch (PyStr.strip line).

(** [while True], run for at most [fuel] passes; [None]: the passes allowed
    did not suffice. *)
Fixpoint main_loop (fuel : nat) : M (option unit) :=
  match fuel with
  | O => ret None
  | S fuel' =>
      again <- main_iteration ;;
      if again then main_loop fuel' else ret (Some tt)
  end.

(** [main()] of part 3. *)
Definition main : M (option unit) :=
  print (PyStr.times "=" 40) ;;;
  print "  Dynamic API Query Demo" ;;;
  print (PyStr.times "=" 40) ;;;
  fun w => main_loop (S (length (stdin w))) w.

End Actions.

End Part3.

(** ** part4_error_handling.py, the functions around the wrapper *)

Module Part4Demos.
Import Part4.

(** [validate_crypto_response]: the pair it returns. *)
Definition validate_crypto_response (data : pyval)
  : M (bool * option string) :=
  try_except
    (has_quotes <- contains "quotes" data ;;
     missing <-
       (if negb has_quotes then ret true
        else quotes <- subscript data "quotes" ;;
             has_usd <- contains "USD" quotes ;;
             ret (negb has_usd)) ;;
     if (missing : bool) then ret (false, Some "Missing quotes/USD data")
     else
       quotes <- subscript data "quotes" ;;
       usd <- subscript quotes "USD" ;;
       has_price <- contains "price" usd ;;
       if negb has_price
       then ret (false, Some "Missing field 'price' in USD data")
       else
         has_change <- contains "percent_change_24h" usd ;;
         if negb has_change
         then ret (false,
                   Some "Missing field 'percent_change_24h' in USD data")
         else ret (true, None))
    (fun e =>
       match exn_class e with
       | TypeError => ret (false, Some "Invalid response format")
       | _ => raise e
       end).

Section Demos.
Variable env : Env.

(** The tests of [demo_error_handling]. *)
Definition tests : list (string * string) :=
  [ ("Valid URL", "https://jsonplaceholder.typicode.com/posts/1");
    ("Non-existent Resource (404)",
     "https://jsonplaceholder.typicode.com/posts/99999");
    ("Invalid Domain", "https://this-domain-does-not-exist-12345.com/api");
    ("Timeout Simulation", "https://httpstat.us/200?sleep=5000") ].

(** The body of the [for] loop of [demo_error_handling]. *)
Definition demo_one (desc url : string) : M unit :=
  print (nl +:+ "--- Test: " +:+ desc +:+ " ---") ;;;
  let timeout := if PyStr.occurs "Timeout" desc then 1 else 5 in
  result <- safe_api_request env url timeout 3 ;;
  match result with
  | ApiSuccess data =>
      print ("Success! Data preview: " +:+
             PyStr.take 60 (py_str env data) +:+ "...")
  | ApiFailure error => print ("Failed: " +:+ error)
  | ApiNone =>
      raise (mkExn TypeError "'NoneType' object is not subscriptable" None)
  end.

Fixpoint demo_each (ts : list (string * string)) : M unit :=
  match ts with
  | [] => ret tt
  | (desc, url) :: rest => demo_one desc url ;;; demo_each rest
  end.

Definition demo_error_handling : M unit :=
  print ("=== Error Handling Demo ===" +:+ nl) ;;;
  demo_each tests.

Definition fetch_crypto_safely : M unit :=
  print (nl +:+ "=== Safe Crypto Price Checker ===" +:+ nl) ;;;
  line <- input "Enter coin (btc-bitcoin, eth-ethereum): " ;;
  let coin := PyStr.lower (PyStr.strip line) in
  if PyStr.is_empty coin then print "Error: Please enter a coin name."
  else
    let url := "https://api.coinpaprika.com/v1/tickers/" +:+ coin in
    result <- safe_api_request env url 5 3 ;;
    match result with
    | ApiNone =>
        raise (mkExn TypeError "'NoneType' object is not subscriptable" None)
    | ApiFailure error =>
        print (nl +:+ "Error: " +:+ error) ;;;
        print "Tip: Try 'btc-bitcoin' or 'eth-ethereum'"
    | ApiSuccess data =>
        verdict <- validate_crypto_response data ;;
        let '(is_valid, error) := verdict in
        if negb is_valid
        then print (nl +:+ "Invalid crypto data: " +:+
                    default "None" error)
        else
          quotes <- subscript data "quotes" ;;
          usd <- subscript quotes "USD" ;;
          name <- subscript data "name" ;;
          symbol <- subscript data "symbol" ;;
          print (nl +:+ py_str env name +:+ " (" +:+
                 py_str env symbol +:+ ")") ;;;
          price <- subscript usd "price" ;;
          f1 <- format env price ",.2f" ;;
          print ("Price: $" +:+ f1) ;;;
          change <- subscript usd "percent_change_24h" ;;
          f2 <- format env change "+.2f" ;;
          print ("24h Change: " +:+ f2 +:+ "%")
    end.

(** [[f for f in required_fields if f not in data]] *)
Fixpoint missing_fields (fields : list string) (data : pyval)
  : M (list string) :=
  match fields with
  | [] => ret []
  | f :: rest =>
      present <- contains f data ;;
      others <- missing_fields rest data ;;
      ret (if present then others else f :: others)
  end.

Definition validate_json_response : M unit :=
  print (nl +:+ "=== JSON Validation Demo ===" +:+ nl) ;;;
  let url := "https://jsonplaceholder.typicode.com/users/1" in
  try_except
    (response <- requests_get env url [] (Some 5) ;;
     raise_for_status env response ;;;
     data <- response_json response ;;
     missing <- missing_fields ["name"; "email"; "phone"] data ;;
     match missing with
     | _ :: _ => print ("Warning: Missing fields: " +:+ str_of_names missing)
     | [] =>
         print "All required fields present!" ;;;
         name <- subscript data "name" ;;
         print ("Name: " +:+ py_str env name) ;;;
         email <- subscript data "email" ;;
         print ("Email: " +:+ py_str env email) ;;;
         phone <- subscript data "phone" ;;
         print ("Phone: " +:+ py_str env phone)
     end)
    (fun e =>
       match exn_class e with
       | JSONDecodeError => print "Error: Response is not valid JSON"
       | _ => print ("Error: " +:+ exn_msg e)
       end).

(** [main()] of part 4. *)
Definition main : M unit :=
  demo_error_handling ;;;
  print (nl +:+ PyStr.times "=" 40 +:+ nl) ;;;
  validate_json_response ;;;
  print (nl +:+ PyStr.times "=" 40 +:+ nl) ;;;
  fetch_crypto_safely.

End Demos.

End Part4Demos.

(** ** part5_real_api.py *)

Module Part5.

(** [CITIES]: name to (latitude, longitude). *)
Definition CITIES : list (string * (Q * Q)) :=
  [ ("delhi", (286139 # 10000, 772090 # 10000));
    ("mumbai", (190760 # 10000, 728777 # 10000));
    ("bangalore", (129716 # 10000, 775946 # 10000));
    ("chennai", (130827 # 10000, 802707 # 10000));
    ("kolkata", (225726 # 10000, 883639 # 10000));
    ("hyderabad", (173850 # 10000, 784867 # 10000));
    ("new york", (407128 # 10000, -740060 # 10000));
    ("london", (515074 # 10000, -1278 # 10000));
    ("tokyo", (356762 # 10000, 1396503 # 10000));
    ("sydney", (-338688 # 10000, 1512093 # 10000));
    ("paris", (488566 # 10000, 23522 # 10000));
    ("berlin", (525200 # 10000, 134050 # 10000));
    ("dubai", (25276987 # 1000000, 55296249 # 1000000));
    ("singapore", (13521 # 10000, 1038198 # 10000));
    ("toronto", (436532 # 10000, -793832 # 10000));
    ("san francisco", (377749 # 10000, -1224194 # 10000));
    ("moscow", (557558 # 10000, 376173 # 10000));
    ("beijing", (399042 # 10000, 1164074 # 10000));
    ("rio de janeiro", (-229068 # 10000, -431729 # 10000));
    ("cape town", (-339249 # 10000, 184241 # 10000)) ].

Definition CRYPTO_IDS : list (string * string) :=
  [ ("bitcoin", "btc-bitcoin");
    ("ethereum", "eth-ethereum");
    ("dogecoin", "doge-dogecoin");
    ("cardano", "ada-cardano");
    ("solana", "sol-solana");
    ("ripple", "xrp-xrp") ].

(** The table [weather_codes] of [display_weather]. *)
Definition weather_codes : list (Z * string) :=
  [ (0, "Clear sky");
    (1, "Mainly clear"); (2, "Partly cloudy"); (3, "Overcast");
    (45, "Foggy"); (48, "Depositing rime fog");
    (51, "Light drizzle"); (53, "Moderate drizzle"); (55, "Dense drizzle");
    (61, "Slight rain"); (63, "Moderate rain"); (65, "Heavy rain");
    (71, "Slight snow"); (73, "Moderate snow"); (75, "Heavy snow");
    (95, "Thunderstorm") ].

Fixpoint lookup_code (z : Z) (table : list (Z * string)) : option string :=
  match table with
  | [] => None
  | (k, v) :: rest => if k =? z then Some v else lookup_code z rest
  end.

(** [weather_codes.get(code, "Unknown")]: numbers are looked up by value,
    [True] and [False] as 1 and 0; a list or a dict cannot be hashed. *)
Definition weather_condition (code : pyval) : M string :=
  let find z := default "Unknown" (lookup_code z weather_codes) in
  match code with
  | PInt z => ret (find z)
  | PBool b => ret (find (if b then 1 else 0))
  | PFloat q =>
      if (Qnum q mod Zpos (Qden q) =? 0)
      then ret (find (Qnum q / Zpos (Qden q)))
      else ret "Unknown"
  | PNone | PStr _ => ret "Unknown"
  | PList _ | PDict _ =>
      raise (mkExn TypeError
               ("unhashable type: '" +:+ type_name code +:+ "'") None)
  end.

Definition set_OPENWEATHER_API_KEY (key : option string) : M unit :=
  fun w => (Ret tt,
            mkWorld (stdin w) (calls w) (trace w) (fs w) key
                    (last_post_data w)).

Definition set_last_post_data (data : pyval) : M unit :=
  fun w => (Ret tt,
            mkWorld (stdin w) (calls w) (trace w) (fs w)
                    (OPENWEATHER_API_KEY w) (Some data)).

(** Reading the globals, and the lines still waiting on the input. *)
Definition get_OPENWEATHER_API_KEY : M (option string) :=
  fun w => (Ret (OPENWEATHER_API_KEY w), w).

Definition get_last_post_data : M (option pyval) :=
  fun w => (Ret (last_post_data w), w).

Definition pending_lines : M nat :=
  fun w => (Ret (length (stdin w)), w).

(** [with open(filename, "w") as f: json.dump(data, f, indent=2)] *)
Definition dump_to_file (env : Env) (data : pyval) (filename : string)
  : M unit :=
  fun w =>
    match open_error env filename with
    | Some msg => (Raise (mkExn OSError msg None), w)
    | None =>
        (Ret tt,
         mkWorld (stdin w) (calls w) (trace w ++ [EvOpenW filename])
                 (<[filename := data]> (fs w))
                 (OPENWEATHER_API_KEY w) (last_post_data w))
    end.

Definition line40 : string := PyStr.times "=" 40.
Definition line55 : string := PyStr.times "=" 55.

Section Actions.
Variable env : Env.

(** The statements at module level that run before [dashboard]. *)
Definition module_init : M unit :=
  let key := environ env "OPENWEATHER_API_KEY" in
  set_OPENWEATHER_API_KEY key ;;;
  if negb (truthy (from_option PStr PNone key))
  then print "Warning: OPENWEATHER_API_KEY not set! OpenWeatherMap requests may fail."
  else ret tt.

Definition get_weather (city_name : string) : M pyval :=
  let city_lower := PyStr.strip (PyStr.lower city_name) in
  match assoc city_lower CITIES with
  | None =>
      print (nl +:+ "City '" +:+ city_name +:+ "' not found.") ;;;
      print ("Available cities: " +:+ PyStr.join ", " (map fst CITIES)) ;;;
      ret PNone
  | Some (lat, lon) =>
      let url := "https://api.open-meteo.com/v1/forecast" in
      let params :=
        [ ("latitude", PFloat lat);
          ("longitude", PFloat lon);
          ("current_weather", PBool true);
          ("hourly", PStr "temperature_2m,relative_humidity_2m");
          ("timezone", PStr "auto") ] in
      fetch_json env (requests_get env url params (Some 10))
                 "Error fetching weather: "
  end.

Definition save_to_json (data : pyval) (filename : string) : M unit :=
  if negb (truthy data) then print "No data to save."
  else
    try_except
      (dump_to_file env data filename ;;;
       print (nl +:+ "Data successfully saved to '" +:+ filename +:+ "'"))
      (fun e => print ("Failed to save data: " +:+ exn_msg e)).

Definition get_openweather (city_name : string) : M pyval :=
  let city := PyStr.strip city_name in
  key <- get_OPENWEATHER_API_KEY ;;
  if negb (truthy (from_option PStr PNone key)) then
    print "No API key provided. Set OPENWEATHER_API_KEY environment variable." ;;;
    ret PNone
  else
    let url := "https://api.openweathermap.org/data/2.5/weather" in
    let params :=
      [ ("q", PStr city);
        ("appid", from_option PStr PNone key);
        ("units", PStr "metric") ] in
    fetch_json env (requests_get env url params (Some 10))
               "Error fetching OpenWeatherMap data: ".

Definition display_weather (city_name : string) : M unit :=
  data <- get_weather city_name ;;
  if negb (truthy data) then ret tt
  else
    current <- subscript data "current_weather" ;;
    print (nl +:+ line40) ;;;
    print ("  Weather in " +:+ str_title env city_name) ;;;
    print line40 ;;;
    temperature <- subscript current "temperature" ;;
    print ("  Temperature: " +:+ py_str env temperature +:+ deg +:+ "C") ;;;
    windspeed <- subscript current "windspeed" ;;
    print ("  Wind Speed: " +:+ py_str env windspeed +:+ " km/h") ;;;
    winddirection <- subscript current "winddirection" ;;
    print ("  Wind Direction: " +:+ py_str env winddirection +:+ deg) ;;;
    code <- get_method current "weathercode" (PInt 0) ;;
    condition <- weather_condition code ;;
    print ("  Condition: " +:+ condition) ;;;
    print line40.

(** [condition.title()]: a method of [str]. *)
Definition title_method (v : pyval) : M string :=
  match v with
  | PStr s => ret (str_title env s)
  | _ =>
      raise (mkExn AttributeError
               ("'" +:+ type_name v +:+
                "' object has no attribute 'title'") None)
  end.

Definition display_openweather (city_name : string) : M unit :=
  data <- get_openweather city_name ;;
  if negb (truthy data) then ret tt
  else
    main <- get_method data "main" (PDict []) ;;
    wind <- get_method data "wind" (PDict []) ;;
    weather_list <- get_method data "weather" (PList []) ;;
    condition <-
      (if truthy weather_list
       then first <- subscript0 weather_list ;; subscript first "description"
       else ret (PStr "Unknown")) ;;
    print (nl +:+ line40) ;;;
    print ("  OpenWeatherMap Weather in " +:+ str_title env city_name) ;;;
    print line40 ;;;
    temp <- get_method main "temp" (PStr "N/A") ;;
    print ("  Temperature: " +:+ py_str env temp +:+ deg +:+ "C") ;;;
    humidity <- get_method main "humidity" (PStr "N/A") ;;
    print ("  Humidity: " +:+ py_str env humidity +:+ "%") ;;;
    speed <- get_method wind "speed" (PStr "N/A") ;;
    print ("  Wind Speed: " +:+ py_str env speed +:+ " m/s") ;;;
    titled <- title_method condition ;;
    print ("  Condition: " +:+ titled) ;;;
    print line40.

Definition get_crypto_price (coin_name : string) : M pyval :=
  let coin_lower := PyStr.strip (PyStr.lower coin_name) in
  let coin_id := default coin_lower (assoc coin_lower CRYPTO_IDS) in
  let url := "https://api.coinpaprika.com/v1/tickers/" +:+ coin_id in
  fetch_json env (requests_get env url [] (Some 10))
             "Error fetching crypto data: ".

(** The body of the [for] loop of [compare_cryptos] for one coin. *)
Definition compare_one (coin : string) : M unit :=
  data <- get_crypto_price coin ;;
  match data with
  | PNone =>
      print (PyStr.ljust 15 coin +:+ PyStr.rjust 15 "N/A" +:+
             PyStr.rjust 15 "N/A")
  | _ =>
      try_except
        (quotes <- subscript data "quotes" ;;
         usd <- subscript quotes "USD" ;;
         price <- subscript usd "price" ;;
         change_24h <- subscript usd "percent_change_24h" ;;
         symbol <- subscript data "symbol" ;;
         c1 <- format env symbol "<15" ;;
         c2 <- format env price ">14,.2f" ;;
         c3 <- format env change_24h ">14.2f" ;;
         print (c1 +:+ "$" +:+ c2 +:+ c3 +:+ "%"))
        (fun e =>
           match exn_class e with
           | KeyError =>
               print (PyStr.ljust 15 coin +:+ PyStr.rjust 15 "Error" +:+
                      PyStr.rjust 15 "Error")
           | _ => raise e
           end)
  end.

Fixpoint compare_each (coin_list : list string) : M unit :=
  match coin_list with
  | [] => ret tt
  | coin :: rest => compare_one coin ;;; compare_each rest
  end.

Definition compare_cryptos (coin_list : list string) : M unit :=
  print (nl +:+ line55) ;;;
  print "   Crypto Price Comparison" ;;;
  print line55 ;;;
  print (PyStr.ljust 15 "Coin" +:+ PyStr.rjust 15 "Price USD" +:+
         PyStr.rjust 15 "24h Change") ;;;
  print (PyStr.times "-" 55) ;;;
  compare_each coin_list ;;;
  print line55.

Definition display_crypto (coin_name : string) : M unit :=
  data <- get_crypto_price coin_name ;;
  if negb (truthy data) then
    print (nl +:+ "Coin '" +:+ coin_name +:+ "' not found.") ;;;
    print ("Available: " +:+ PyStr.join ", " (map fst CRYPTO_IDS))
  else
    quotes <- subscript data "quotes" ;;
    usd <- subscript quotes "USD" ;;
    print (nl +:+ line40) ;;;
    name <- subscript data "name" ;;
    symbol <- subscript data "symbol" ;;
    print ("  " +:+ py_str env name +:+ " (" +:+ py_str env symbol +:+ ")") ;;;
    print line40 ;;;
    price <- subscript usd "price" ;;
    f1 <- format env price ",.2f" ;;
    print ("  Price: $" +:+ f1) ;;;
    market_cap <- subscript usd "market_cap" ;;
    f2 <- format env market_cap ",.0f" ;;
    print ("  Market Cap: $" +:+ f2) ;;;
    volume_24h <- subscript usd "volume_24h" ;;
    f3 <- format env volume_24h ",.0f" ;;
    print ("  24h Volume: $" +:+ f3) ;;;
    print "  " ;;;
    change_1h <- subscript usd "percent_change_1h" ;;
    f4 <- format env change_1h "+.2f" ;;
    print ("  1h Change:  " +:+ f4 +:+ "%") ;;;
    change_24h <- subscript usd "percent_change_24h" ;;
    f5 <- format env change_24h "+.2f" ;;
    print ("  24h Change: " +:+ f5 +:+ "%") ;;;
    change_7d <- subscript usd "percent_change_7d" ;;
    f6 <- format env change_7d "+.2f" ;;
    print ("  7d Change:  " +:+ f6 +:+ "%") ;;;
    print line40.

Definition get_top_cryptos (limit : Z) : M pyval :=
  let url := "https://api.coinpaprika.com/v1/tickers" in
  fetch_json env (requests_get env url [("limit", PInt limit)] (Some 10))
             "Error: ".

Definition create_post : M unit :=
  print (nl +:+ "=== Create a New Post ===") ;;;
  title_line <- input "Enter post title: " ;;
  let title := PyStr.strip title_line in
  body_line <- input "Enter post body: " ;;
  let body := PyStr.strip body_line in
  if PyStr.is_empty title || PyStr.is_empty body
  then print "Title and body cannot be empty."
  else
    let url := "https://jsonplaceholder.typicode.com/posts" in
    let payload := PDict [("title", PStr title); ("body", PStr body)] in
    try_except
      (response <- requests_post env url payload (Some 5) ;;
       raise_for_status env response ;;;
       data <- response_json response ;;
       set_last_post_data data ;;;
       print (nl +:+ "Post successfully created!") ;;;
       post_id <- get_method data "id" PNone ;;
       print ("Post ID: " +:+ py_str env post_id) ;;;
       post_title <- get_method data "title" PNone ;;
       print ("Title: " +:+ py_str env post_title) ;;;
       post_body <- get_method data "body" PNone ;;
       print ("Body: " +:+ py_str env post_body))
      (fun e =>
         if is_RequestException (exn_class e)
         then print ("Failed to create post: " +:+ exn_msg e)
         else raise e).

(** The body of the [for] loop of [display_top_cryptos], for each coin. *)
Fixpoint display_rows (coins : list pyval) : M unit :=
  match coins with
  | [] => ret tt
  | coin :: rest =>
      quotes <- subscript coin "quotes" ;;
      usd <- subscript quotes "USD" ;;
      change <- subscript usd "percent_change_24h" ;;
      change_fmt <- format env change "+.2f" ;;
      let change_str := change_fmt +:+ "%" in
      rank <- subscript coin "rank" ;;
      c1 <- format env rank "<6" ;;
      name <- subscript coin "name" ;;
      c2 <- format env name "<15" ;;
      price <- subscript usd "price" ;;
      c3 <- format env price ">12,.2f" ;;
      print ("  " +:+ c1 +:+ c2 +:+ "$" +:+ c3 +:+ "  " +:+ change_str) ;;;
      display_rows rest
  end.

Definition display_top_cryptos : M unit :=
  data <- get_top_cryptos 5 ;;
  if negb (truthy data) then ret tt
  else
    print (nl +:+ line55) ;;;
    print "  Top 5 Cryptocurrencies by Market Cap" ;;;
    print line55 ;;;
    print ("  " +:+ PyStr.ljust 6 "Rank" +:+ PyStr.ljust 15 "Name" +:+
           PyStr.ljust 15 "Price" +:+ "24h Change") ;;;
    print ("  " +:+ PyStr.times "-" 50) ;;;
    coins <- iterate data ;;
    display_rows coins ;;;
    print line55.

(** [[c.strip() for c in coins_input.split(",") if c.strip()]] *)
Definition parse_coins (coins_input : string) : list string :=
  List.filter (fun c => negb (PyStr.is_empty c))
              (map PyStr.strip (PyStr.split_comma coins_input)).

(** Choice 7 of the menu. *)
Definition save_menu : M unit :=
  print (nl +:+ "Options to save data:") ;;;
  print "1. Crypto Data" ;;;
  print "2. Weather Data" ;;;
  print "3. Last POST Response" ;;;
  sub_line <- input "Select (1-3): " ;;
  let sub_choice := PyStr.strip sub_line in
  if String.eqb sub_choice "1" then
    coin_line <- input "Enter crypto name to save: " ;;
    let coin := PyStr.strip coin_line in
    data <- get_crypto_price coin ;;
    save_to_json data (coin +:+ "_data.json")
  else if String.eqb sub_choice "2" then
    city_line <- input "Enter city name to save: " ;;
    let city := PyStr.strip city_line in
    data <- get_weather city ;;
    save_to_json data (city +:+ "_weather.json")
  else if String.eqb sub_choice "3" then
    slot <- get_last_post_data ;;
    match slot with
    | Some data => save_to_json data "last_post.json"
    | None => print "No POST data available to save."
    end
  else print "Invalid choice.".

Definition show_options : M unit :=
  print (nl +:+ "Options:") ;;;
  print "  1. Check Weather" ;;;
  print "  2. Check Crypto Price" ;;;
  print "  3. View Top 5 Cryptos" ;;;
  print "  4. Quick Dashboard (Delhi + Bitcoin)" ;;;
  print "  5. Compare Multiple Cryptos" ;;;
  print "  6. Create a New Post" ;;;
  print "  7. Save Results to JSON" ;;;
  print "  8. OpenWeatherMap Weather" ;;;
  print "  9. Exit".

(** What the [if]/[elif] chain of the loop does with a choice.  [true]:
    the loop goes on; [false]: [break]. *)
Definition dispatch (choice : string) : M bool :=
  if String.eqb choice "1" then
    print (nl +:+ "Available: " +:+ PyStr.join ", " (map fst CITIES)) ;;;
    city <- input "Enter city name: " ;;
    display_weather city ;;;
    ret true
  else if String.eqb choice "2" then
    print (nl +:+ "Available: " +:+ PyStr.join ", " (map fst CRYPTO_IDS)) ;;;
    coin <- input "Enter crypto name: " ;;
    display_crypto coin ;;;
    ret true
  else if String.eqb choice "3" then
    display_top_cryptos ;;;
    ret true
  else if String.eqb choice "4" then
    display_weather "delhi" ;;;
    display_crypto "bitcoin" ;;;
    ret true
  else if String.eqb choice "5" then
    print (nl +:+ "Available cryptos: " +:+
           PyStr.join ", " (map fst CRYPTO_IDS)) ;;;
    coins_input <- input "Enter coin names separated by commas: " ;;
    let coins := parse_coins coins_input in
    match coins with
    | [] => print "No valid coins entered."
    | _ => compare_cryptos coins
    end ;;;
    ret true
  else if String.eqb choice "6" then
    create_post ;;;
    ret true
  else if String.eqb choice "7" then
    save_menu ;;;
    ret true
  else if String.eqb choice "8" then
    city_line <- input "Enter city name: " ;;
    display_openweather (PyStr.strip city_line) ;;;
    ret true
  else if String.eqb choice "9" then
    print (nl +:+ "Goodbye! Happy coding!") ;;;
    ret false
  else
    print "Invalid option. Try again." ;;;
    ret true.

(** One pass through the body of [while True]. *)
Definition iteration : M bool :=
  show_options ;;;
  line <- input (nl +:+ "Select (1-9): ") ;;
  dispatch (PyStr.strip line).

(** [while True], run for at most [fuel] passes.  [None]: the passes
    allowed did not suffice. *)
Fixpoint loop (fuel : nat) : M (option unit) :=
  match fuel with
  | O => ret None
  | S fuel' =>
      again <- iteration ;;
      if again then loop fuel' else ret (Some tt)
  end.

(** [dashboard()].  Every pass reads a line, so one pass more than there
    are lines to read always suffices. *)
Definition dashboard : M (option unit) :=
  print (nl +:+ PyStr.times "=" 50) ;;;
  print "   Real-World API Dashboard" ;;;
  print ("   " +:+ now env) ;;;
  print (PyStr.times "=" 50) ;;;
  n <- pending_lines ;;
  loop (S n).

(** The script run as a program: the module level, then [dashboard()]. *)
Definition program : M (option unit) :=
  module_init ;;;
  dashboard.

End Actions.

End Part5.

(** * Properties *)

(** ** Reading a run *)

(** [advance w k evs] is [w] after [k] more HTTP calls and the events [evs],
    nothing else touched. *)
Definition advance (w : World) (k : nat) (evs : list Event) : World :=
  mkWorld (stdin w) (calls w + k) (trace w ++ evs) (fs w)
          (OPENWEATHER_API_KEY w) (last_post_data w).

Definition is_request (e : Event) : bool :=
  match e with EvGet _ _ _ | EvPost _ _ _ => true | _ => false end.

Definition is_sleep (e : Event) : bool :=
  match e with EvSleep _ => true | _ => false end.

Definition count (p : Event -> bool) (evs : list Event) : nat :=
  length (List.filter p evs).

(** Every sleep is followed, later on, by a request: it lies between two
    attempts. *)
Fixpoint sleeps_between (evs : list Event) : bool :=
  match evs with
  | [] => true
  | e :: rest =>
      (if is_sleep e then existsb is_request rest else true)
      && sleeps_between rest
  end.

(** Where the sleeps fall: the numbers of sleeps before the first request,
    between each request and the next, and after the last one, in that
    order; [cur] counts the sleeps met since the last request. *)
Fixpoint sleeps_by_gap (evs : list Event) (cur : nat) : list nat :=
  match evs with
  | [] => [cur]
  | e :: rest =>
      if is_request e then cur :: sleeps_by_gap rest 0
      else sleeps_by_gap rest (if is_sleep e then S cur else cur)
  end.

(** All sleeps last [d] seconds. *)
Definition sleeps_are (d : Z) (evs : list Event) : Prop :=
  forall s, In (EvSleep s) evs -> s = d.

(** The reply to the [k]-th call from [w] on is a connection or timeout
    failure. *)
Definition transient_at (env : Env) (w : World) (k : nat) : Prop :=
  exists e, net env (calls w + k) = Raises e
            /\ is_ConnectionError_or_Timeout (exn_class e) = true.

(** Replies within the contract of [requests]: a response whose [json()]
    returns or raises [JSONDecodeError], or an exception of the
    [RequestException] family; an [HTTPError] has its response attached. *)
Definition requests_reply (r : Reply) : Prop :=
  match r with
  | Responds _ (Json _ | NotJson _) => True
  | Responds _ (JsonRaises _) => False
  | Raises e =>
      is_RequestException (exn_class e) = true
      /\ (is_HTTPError (exn_class e) = true -> exn_response e <> None)
  end.

(** [after_input w rest k evs]: [w] after reading input down to [rest],
    [k] HTTP calls and the events [evs]; files and globals untouched. *)
Definition after_input (w : World) (rest : list string) (k : nat)
    (evs : list Event) : World :=
  mkWorld rest (calls w + k) (trace w ++ evs) (fs w)
          (OPENWEATHER_API_KEY w) (last_post_data w).

(** What [show_options] and the prompt of the dashboard put on the screen. *)
Definition menu_events : list Event :=
  [ EvPrint (nl +:+ "Options:");
    EvPrint "  1. Check Weather";
    EvPrint "  2. Check Crypto Price";
    EvPrint "  3. View Top 5 Cryptos";
    EvPrint "  4. Quick Dashboard (Delhi + Bitcoin)";
    EvPrint "  5. Compare Multiple Cryptos";
    EvPrint "  6. Create a New Post";
    EvPrint "  7. Save Results to JSON";
    EvPrint "  8. OpenWeatherMap Weather";
    EvPrint "  9. Exit";
    EvPrompt (nl +:+ "Select (1-9): ") ].

(** What choice 7 puts on the screen before it reads the sub-choice. *)
Definition save_menu_events : list Event :=
  [ EvPrint (nl +:+ "Options to save data:");
    EvPrint "1. Crypto Data";
    EvPrint "2. Weather Data";
    EvPrint "3. Last POST Response";
    EvPrompt "Select (1-3): " ].

(** Was this line printed?  Was this file opened for writing? *)
Definition printed (line : string) (w : World) : bool :=
  existsb (fun e => match e with
                    | EvPrint l => String.eqb l line
                    | _ => false
                    end) (trace w).

Definition opened (name : string) (w : World) : bool :=
  existsb (fun e => match e with
                    | EvOpenW f => String.eqb f name
                    | _ => false
                    end) (trace w).

(** The warning of the module level of part 5. *)
Definition key_warning : string :=
  "Warning: OPENWEATHER_API_KEY not set! OpenWeatherMap requests may fail.".

(** Anything but the printing of that warning. *)
Definition not_warning (e : Event) : Prop := e <> EvPrint key_warning.

(** A computation that never prints the warning and never puts a line back
    on the input. *)
Definition quiet {A} (m : M A) : Prop :=
  forall w,
    (exists evs,
        trace (snd (m w)) = trace w ++ evs /\ Forall not_warning evs)
    /\ (length (stdin (snd (m w))) <= length (stdin w))%nat.

(** The [k]-th HTTP call of the run ends in a request exception: raised by
    the call itself, by [raise_for_status()] on an error status, or by
    [json()] on a body that is not JSON. *)
Definition request_fails (env : Env) (k : nat) : Prop :=
  match net env k with
  | Raises e => is_RequestException (exn_class e) = true
  | Responds st body =>
      is_error_status st = true \/ exists msg, body = NotJson msg
  end.

(** [str(e)] of that exception. *)
Definition failure_text (env : Env) (k : nat) : string :=
  match net env k with
  | Raises e => exn_msg e
  | Responds st body =>
      if is_error_status st then status_text env st
      else match body with
           | NotJson msg => msg
           | Json _ | JsonRaises _ => ""
           end
  end.

(** From [w] to [w'] the trace only grew, and for every HTTP call issued in
    between a line ending with the text of its failure was printed. *)
Definition reports_failures (env : Env) (w w' : World) : Prop :=
  exists evs,
    trace w' = trace w ++ evs
    /\ (calls w <= calls w')%nat
    /\ forall k, (calls w <= k < calls w')%nat ->
         exists label, In (EvPrint (label +:+ failure_text env k)) evs.

(** The same, whatever the other requests meet: from [w] to [w'] the trace
    only grew, and for every HTTP call issued in between that failed, a
    line ending with the text of its failure was printed. *)
Definition reports_failed (env : Env) (w w' : World) : Prop :=
  exists evs,
    trace w' = trace w ++ evs
    /\ (calls w <= calls w')%nat
    /\ forall k, (calls w <= k < calls w')%nat -> request_fails env k ->
         exists label, In (EvPrint (label +:+ failure_text env k)) evs.

(** [m] reports every request of its own that fails and lets no exception
    of [requests] out, whatever the replies are. *)
Definition careful (env : Env) {A} (m : M A) : Prop :=
  forall w,
    reports_failed env w (snd (m w))
    /\ forall e, fst (m w) = Raise e ->
         is_RequestException (exn_class e) = false.

(** [m] reads at most [n] lines and, given that many and the failure of
    every request it issues, returns normally a value satisfying [Q]. *)
Definition handles (env : Env) {A} (m : M A) (Q : A -> Prop) (n : nat)
  : Prop :=
  forall w, (n <= length (stdin w))%nat ->
    (forall k, (calls w <= k < calls (snd (m w)))%nat ->
       request_fails env k) ->
    exists a w',
      m w = (Ret a, w')
      /\ Q a
      /\ (calls w <= calls w')%nat
      /\ (length (stdin w) <= length (stdin w') + n)%nat.

(** [format] raises errors of its own ([TypeError], [ValueError]), none of
    the exceptions of [requests]. *)
Definition format_errors_are_local (env : Env) : Prop :=
  forall v spec e,
    py_format env v spec = inl e -> is_RequestException (exn_class e) = false.

(** The lines a choice of the dashboard asks for, after the choice itself:
    [rest] is what follows the choice on the input. *)
Definition lines_asked (choice : string) (rest : list string) : nat :=
  if String.eqb choice "1" || String.eqb choice "2"
     || String.eqb choice "5" || String.eqb choice "8" then 1
  else if String.eqb choice "6" then 2
  else if String.eqb choice "7" then
    match rest with
    | sub :: _ =>
        if String.eqb (PyStr.strip sub) "1" || String.eqb (PyStr.strip sub) "2"
        then 2 else 1
    | [] => 1
    end
  else 0.

(** The last character of a string. *)
Fixpoint last_ascii (s : string) : option ascii :=
  match s with
  | EmptyString => None
  | String c r =>
      match last_ascii r with
      | Some c' => Some c'
      | None => Some c
      end
  end.

(** A computation that neither reads nor changes the world. *)
Definition pure {A} (m : M A) : Prop := exists r, forall w, m w = (r, w).

(** A computation that leaves the global [last_post_data] as it is. *)
Definition keeps_slot {A} (m : M A) : Prop :=
  forall w, last_post_data (snd (m w)) = last_post_data w.

(** The same world with another value of [OPENWEATHER_API_KEY]. *)
Definition with_key (key : option string) (w : World) : World :=
  mkWorld (stdin w) (calls w) (trace w) (fs w) key (last_post_data w).

(** A computation that behaves the same whatever [OPENWEATHER_API_KEY] is,
    and leaves it alone. *)
Definition key_blind {A} (m : M A) : Prop :=
  forall key w, m (with_key key w) = (fst (m w), with_key key (snd (m w))).

(** A computation that leaves one component of the world as it is. *)
Definition keeps {B} (proj : World -> B) {A} (m : M A) : Prop :=
  forall w, proj (snd (m w)) = proj w.

(** A line that is none of the choices 1 to 9 of the dashboard. *)
Definition no_option (choice : string) : Prop :=
  ~ In choice ["1"; "2"; "3"; "4"; "5"; "6"; "7"; "8"; "9"].

(** What a pass of the dashboard shows for such a line. *)
Definition invalid_pass : list Event :=
  menu_events ++ [EvPrint "Invalid option. Try again."].

(** What [dashboard] prints before its loop. *)
Definition banner (env : Env) : list Event :=
  [ EvPrint (nl +:+ PyStr.times "=" 50);
    EvPrint "   Real-World API Dashboard";
    EvPrint ("   " +:+ now env);
    EvPrint (PyStr.times "=" 50) ].

(** What a pass of part 3's [main] shows up to its prompt. *)
Definition main_menu_events : list Event :=
  [ EvPrint (nl +:+ "Choose an option:");
    EvPrint "1. Look up user info";
    EvPrint "2. Search posts by user";
    EvPrint "3. Check crypto price";
    EvPrint "4. Search todos";
    EvPrint "5. Check weather";
    EvPrint "6. Exit";
    EvPrompt (nl +:+ "Enter choice (1-6): ") ].

(** A computation that issues at most [n] HTTP calls. *)
Definition at_most (n : nat) {A} (m : M A) : Prop :=
  forall w, (calls w <= calls (snd (m w)) <= calls w + n)%nat.

(** A computation that issues exactly [n] HTTP calls, however it ends. *)
Definition exactly (n : nat) {A} (m : M A) : Prop :=
  forall w, calls (snd (m w)) = (calls w + n)%nat.

(** A computation that ends normally, whatever the world. *)
Definition returns {A} (m : M A) : Prop :=
  forall w, exists a, fst (m w) = Ret a.

(** [todo["title"]] and the like, where it succeeds. *)
Definition field (key : string) (item : pyval) : option pyval :=
  match item with
  | PDict d => assoc key d
  | _ => None
  end.

(** The lines [search_todos] prints for the titles it shows. *)
Definition todo_lines (env : Env) (titles : list pyval) : list Event :=
  map (fun t => EvPrint ("- " +:+ py_str env t)) titles.

(** The lines [search_posts] prints for titles numbered from [i] on. *)
Fixpoint post_lines (env : Env) (i : Z) (titles : list pyval) : list Event :=
  match titles with
  | [] => []
  | t :: rest =>
      EvPrint (pretty i +:+ ". " +:+ py_str env t) :: post_lines env (i + 1) rest
  end.

(** The titles of a list of items, when every item has one. *)
Fixpoint fields (key : string) (items : list pyval) : option (list pyval) :=
  match items with
  | [] => Some []
  | item :: rest =>
      match field key item, fields key rest with
      | Some t, Some ts => Some (t :: ts)
      | _, _ => None
      end
  end.

(** A computation that never puts a line back on the input. *)
Definition reads {A} (m : M A) : Prop :=
  forall w, (length (stdin (snd (m w))) <= length (stdin w))%nat.

(** The verdict on a document whose ["quotes"] and ["USD"] are dicts. *)
Definition verdict_on (usd : list (string * pyval)) : bool * option string :=
  match assoc "price" usd, assoc "percent_change_24h" usd with
  | None, _ => (false, Some "Missing field 'price' in USD data")
  | Some _, None =>
      (false, Some "Missing field 'percent_change_24h' in USD data")
  | Some _, Some _ => (true, None)
  end.

(** The run of [fetch_crypto_safely] up to the verdict on a document that
    arrived at the first attempt. *)
Definition fetched (w : World) (rest : list string) (coin : string) (st : Z)
  : World :=
  after_input w rest 1
    [EvPrint (nl +:+ "=== Safe Crypto Price Checker ===" +:+ nl);
     EvPrompt "Enter coin (btc-bitcoin, eth-ethereum): ";
     EvLog INFO ("Request started: " +:+
                 "https://api.coinpaprika.com/v1/tickers/" +:+ coin);
     EvLog INFO ("Attempt " +:+ pretty 1 +:+ " for " +:+
                 "https://api.coinpaprika.com/v1/tickers/" +:+ coin);
     EvGet ("https://api.coinpaprika.com/v1/tickers/" +:+ coin) [] (Some 5);
     EvLog INFO ("Request successful (" +:+ pretty st +:+ ") for " +:+
                 "https://api.coinpaprika.com/v1/tickers/" +:+ coin)].

(** [n] times the same events. *)
Fixpoint passes (n : nat) (evs : list Event) : list Event :=
  match n with
  | O => []
  | S n' => evs ++ passes n' evs
  end.

(** The id [get_crypto_price] of part 5 asks the API for. *)
Definition coin_id (coin : string) : string :=
  default (PyStr.strip (PyStr.lower coin))
          (assoc (PyStr.strip (PyStr.lower coin)) Part5.CRYPTO_IDS).

(** ** Sample runs *)

(** An environment around a given network, everything else plain. *)
Definition env_of (network : nat -> Reply) (key : option string) : Env :=
  mkEnv network
        (fun _ => None)
        (fun st => pretty st +:+ " Error")
        (fun name => if String.eqb name "OPENWEATHER_API_KEY" then key else None)
        "2024-01-01 00:00:00"
        4300
        (fun _ => "<value>")
        (fun _ _ => inr "<formatted>")
        (fun s => s).

Definition connection_refused : Exn :=
  mkExn ConnectionError "Connection refused" None.

(** No host answers. *)
Definition net_down : nat -> Reply := fun _ => Raises connection_refused.

(** Every call is answered by the same response. *)
Definition net_const (st : Z) (b : Body) : nat -> Reply :=
  fun _ => Responds st b.

(** The first [k] calls fail, later ones get the response. *)
Definition net_after (k : nat) (st : Z) (b : Body) : nat -> Reply :=
  fun n => if (n <? k)%nat then Raises connection_refused else Responds st b.

(** The one-character string "²" (U+00B2, SUPERSCRIPT TWO). *)
Definition superscript_two : string := String (ascii_of_N 178) EmptyString.

(** The same environment with a disk that refuses every file. *)
Definition disk_full (env : Env) : Env :=
  mkEnv (net env) (fun _ => Some "No space left on device")
        (status_text env) (environ env) (now env) (int_max_str_digits env)
        (py_str env) (py_format env) (str_title env).

(** A ticker document with the fields the displays read. *)
Definition sample_ticker : pyval :=
  PDict [ ("name", PStr "Bitcoin"); ("symbol", PStr "BTC");
          ("quotes",
           PDict [("USD", PDict [("price", PInt 100);
                                 ("percent_change_24h", PInt 1)])]) ].

(** A ticker document that passes the validation but has no name. *)
Definition nameless_ticker : pyval :=
  PDict [ ("quotes",
           PDict [("USD", PDict [("price", PInt 100);
                                 ("percent_change_24h", PInt 1)])]) ].

(** Six todos; the last one has no title. *)
Definition six_todos : list pyval :=
  [ PDict [("title", PStr "a")]; PDict [("title", PStr "b")];
    PDict [("title", PStr "c")]; PDict [("title", PStr "d")];
    PDict [("title", PStr "e")]; PDict [("id", PInt 6)] ].

(** The world before anything happened, with the lines the user will type. *)
Definition start (lines : list string) : World :=
  mkWorld lines 0 [] ∅ None None.

Lemma advance_advance w k1 k2 e1 e2 :
  advance (advance w k1 e1) k2 e2 = advance w (k1 + k2) (e1 ++ e2).
Proof.
  unfold advance; simpl. f_equal; [lia | symmetry; apply app_assoc].
Qed.

Lemma advance_0_nil w : advance w 0 [] = w.
Proof.
  destruct w; unfold advance; simpl. f_equal; [lia | apply app_nil_r].
Qed.

Lemma emit_advance e w : emit e w = (Ret tt, advance w 0 [e]).
Proof.
  unfold emit, advance. do 2 f_equal. lia.
Qed.

Lemma count_app p a b : count p (a ++ b) = (count p a + count p b)%nat.
Proof. unfold count. by rewrite List.filter_app, length_app. Qed.

Lemma count_pos_existsb p evs : (0 < count p evs)%nat -> existsb p evs = true.
Proof.
  unfold count. induction evs as [|e evs IH]; simpl; [lia|].
  destruct (p e); simpl; auto.
Qed.

Section Part4Steps.
Import Part4.
Variable env : Env.
Variables (url : string) (timeout retries : Z).

Lemma attempt_body_transient attempt w e :
  net env (calls w) = Raises e ->
  is_ConnectionError_or_Timeout (exn_class e) = true ->
  attempt_body env url timeout retries attempt w =
    if attempt =? retries
    then (Ret (Some (ApiFailure
                       ("Failed after " +:+ pretty retries +:+ " attempts"))),
          advance w 1
            [EvLog INFO ("Attempt " +:+ pretty attempt +:+ " for " +:+ url);
             EvGet url [] (Some timeout);
             EvLog WARNING ("Attempt " +:+ pretty attempt +:+
                            " failed due to network issue: " +:+ exn_msg e);
             EvLog ERROR ("Request failed after " +:+ pretty retries +:+
                          " attempts: " +:+ url)])
    else (Ret None,
          advance w 1
            [EvLog INFO ("Attempt " +:+ pretty attempt +:+ " for " +:+ url);
             EvGet url [] (Some timeout);
             EvLog WARNING ("Attempt " +:+ pretty attempt +:+
                            " failed due to network issue: " +:+ exn_msg e);
             EvSleep 2]).
Proof.
  intros Hnet Htr.
  unfold attempt_body, try_except, bind, logging, emit, requests_get,
    http_call; simpl.
  rewrite Hnet. unfold on_error. rewrite Htr.
  unfold bind, logging, emit, sleep, emit, ret, advance; simpl.
  destruct (attempt =? retries); simpl;
    repeat rewrite <- app_assoc; simpl; repeat f_equal; lia.
Qed.

Lemma attempt_body_http_error attempt w st body :
  net env (calls w) = Responds st body ->
  is_error_status st = true ->
  attempt_body env url timeout retries attempt w =
    (Ret (Some (ApiFailure ("HTTP Error: " +:+ pretty st))),
     advance w 1
       [EvLog INFO ("Attempt " +:+ pretty attempt +:+ " for " +:+ url);
        EvGet url [] (Some timeout);
        EvLog ERROR ("HTTP error " +:+ pretty st +:+ " for " +:+ url)]).
Proof.
  intros Hnet Hst.
  unfold attempt_body, try_except, bind, logging, emit, requests_get,
    http_call, raise_for_status; simpl.
  rewrite Hnet; simpl. rewrite Hst; simpl.
  unfold on_error, bind, logging, emit, ret, advance; simpl.
  repeat rewrite <- app_assoc; simpl; repeat f_equal; lia.
Qed.

Lemma attempt_body_success attempt w st v :
  net env (calls w) = Responds st (Json v) ->
  is_error_status st = false ->
  attempt_body env url timeout retries attempt w =
    (Ret (Some (ApiSuccess v)),
     advance w 1
       [EvLog INFO ("Attempt " +:+ pretty attempt +:+ " for " +:+ url);
        EvGet url [] (Some timeout);
        EvLog INFO ("Request successful (" +:+ pretty st +:+
                    ") for " +:+ url)]).
Proof.
  intros Hnet Hst.
  unfold attempt_body, try_except, bind, logging, emit, requests_get,
    http_call, raise_for_status, response_json; simpl.
  rewrite Hnet; simpl. rewrite Hst; simpl.
  unfold ret, advance; simpl.
  repeat rewrite <- app_assoc; simpl; repeat f_equal; lia.
Qed.

Lemma attempt_body_not_json attempt w st msg :
  net env (calls w) = Responds st (NotJson msg) ->
  is_error_status st = false ->
  attempt_body env url timeout retries attempt w =
    (Ret (Some (ApiFailure ("Request failed: " +:+ msg))),
     advance w 1
       [EvLog INFO ("Attempt " +:+ pretty attempt +:+ " for " +:+ url);
        EvGet url [] (Some timeout);
        EvLog INFO ("Request successful (" +:+ pretty st +:+
                    ") for " +:+ url);
        EvLog ERROR ("Request exception for " +:+ url +:+ ": " +:+ msg)]).
Proof.
  intros Hnet Hst.
  unfold attempt_body, try_except, bind, logging, emit, requests_get,
    http_call, raise_for_status, response_json; simpl.
  rewrite Hnet; simpl. rewrite Hst; simpl.
  unfold on_error, bind, logging, emit, ret, advance; simpl.
  repeat rewrite <- app_assoc; simpl; repeat f_equal; lia.
Qed.

(** A request exception that is neither a transport failure nor an
    [HTTPError] ends the call at once. *)
Lemma attempt_body_other_request_exception attempt w e :
  net env (calls w) = Raises e ->
  is_RequestException (exn_class e) = true ->
  is_ConnectionError_or_Timeout (exn_class e) = false ->
  is_HTTPError (exn_class e) = false ->
  attempt_body env url timeout retries attempt w =
    (Ret (Some (ApiFailure ("Request failed: " +:+ exn_msg e))),
     advance w 1
       [EvLog INFO ("Attempt " +:+ pretty attempt +:+ " for " +:+ url);
        EvGet url [] (Some timeout);
        EvLog ERROR ("Request exception for " +:+ url +:+ ": " +:+
                     exn_msg e)]).
Proof.
  intros Hnet Hre Htr Hhe.
  unfold attempt_body, try_except, bind, logging, emit, requests_get,
    http_call; simpl.
  rewrite Hnet; simpl. unfold on_error. rewrite Htr, Hhe, Hre.
  unfold bind, logging, emit, ret, advance; simpl.
  repeat rewrite <- app_assoc; simpl; repeat f_equal; lia.
Qed.

(** Unfolding the loop once. *)
Lemma attempts_S n attempt w :
  attempts env url timeout retries (S n) attempt w =
    match attempt_body env url timeout retries attempt w with
    | (Ret (Some res), w') => (Ret res, w')
    | (Ret None, w') => attempts env url timeout retries n (attempt + 1) w'
    | (Raise e, w') => (Raise e, w')
    end.
Proof.
  simpl. unfold bind.
  destruct (attempt_body env url timeout retries attempt w) as [[[r|]|e] w'];
    reflexivity.
Qed.

(** [n] attempts are left, the last of them being attempt [retries], and
    all of them meet a transport failure. *)
Lemma attempts_all_transient n attempt w :
  (0 < n)%nat ->
  attempt + Z.of_nat n - 1 = retries ->
  (forall k, (k < n)%nat -> transient_at env w k) ->
  exists evs,
    attempts env url timeout retries n attempt w =
      (Ret (ApiFailure ("Failed after " +:+ pretty retries +:+ " attempts")),
       advance w n evs)
    /\ count is_request evs = n
    /\ count is_sleep evs = (n - 1)%nat
    /\ sleeps_between evs = true
    /\ sleeps_are 2 evs
    /\ forall cur,
         sleeps_by_gap evs cur = cur :: replicate (n - 1) 1%nat ++ [0%nat].
Proof.
  revert attempt w. induction n as [|n IH]; intros attempt w Hn Hlast Hall;
    [lia|].
  destruct (Hall 0%nat ltac:(lia)) as (e & Hnet & Htr).
  rewrite Nat.add_0_r in Hnet.
  rewrite attempts_S, (attempt_body_transient _ _ _ Hnet Htr).
  destruct (attempt =? retries) eqn:Heq.
  - apply Z.eqb_eq in Heq. assert (n = 0%nat) by lia; subst n.
    eexists; split; [reflexivity|]. repeat split.
    intros s [Hs|[Hs|[Hs|[Hs|[]]]]]; discriminate.
  - apply Z.eqb_neq in Heq. assert (0 < n)%nat by lia.
    destruct (IH (attempt + 1)
                (advance w 1
                   [EvLog INFO ("Attempt " +:+ pretty attempt +:+
                                " for " +:+ url);
                    EvGet url [] (Some timeout);
                    EvLog WARNING ("Attempt " +:+ pretty attempt +:+
                                   " failed due to network issue: " +:+
                                   exn_msg e);
                    EvSleep 2]))
      as (evs & Hrun & Hreq & Hsl & Hbet & Hdur & Hgap); [lia | lia | |].
    { intros k Hk. destruct (Hall (S k) ltac:(lia)) as (e' & Hn' & Ht').
      exists e'. split; [|done]. simpl. rewrite <- Hn'. f_equal. lia. }
    rewrite Hrun, advance_advance.
    eexists; split; [reflexivity|].
    rewrite !count_app, Hreq, Hsl. simpl.
    split; [lia|]. split; [lia|]. split; [|split].
    + rewrite Hbet, (count_pos_existsb is_request evs); [done | lia].
    + intros s [Hs|[Hs|[Hs|[Hs|Hs]]]]; try discriminate;
        [by inversion Hs | by apply Hdur].
    + intros cur. rewrite Hgap. destruct n as [|n']; [lia|].
      simpl. by rewrite Nat.sub_0_r.
Qed.

(** [j] transport failures that do not reach the last attempt only move
    the loop forward. *)
Lemma attempts_skip_transient j n attempt w :
  (j < n)%nat ->
  attempt + Z.of_nat n - 1 = retries ->
  (forall k, (k < j)%nat -> transient_at env w k) ->
  exists evs,
    attempts env url timeout retries n attempt w =
      attempts env url timeout retries (n - j) (attempt + Z.of_nat j)
        (advance w j evs)
    /\ count is_request evs = j
    /\ count is_sleep evs = j
    /\ sleeps_are 2 evs.
Proof.
  revert n attempt w. induction j as [|j IH]; intros n attempt w Hj Hlast Hall.
  - exists []. rewrite advance_0_nil, Nat.sub_0_r, Z.add_0_r.
    repeat split. intros s [].
  - destruct n as [|n]; [lia|].
    destruct (Hall 0%nat ltac:(lia)) as (e & Hnet & Htr).
    rewrite Nat.add_0_r in Hnet.
    rewrite attempts_S, (attempt_body_transient _ _ _ Hnet Htr).
    replace (attempt =? retries) with false
      by (symmetry; apply Z.eqb_neq; lia).
    destruct (IH n (attempt + 1)
                (advance w 1
                   [EvLog INFO ("Attempt " +:+ pretty attempt +:+
                                " for " +:+ url);
                    EvGet url [] (Some timeout);
                    EvLog WARNING ("Attempt " +:+ pretty attempt +:+
                                   " failed due to network issue: " +:+
                                   exn_msg e);
                    EvSleep 2]))
      as (evs & Hrun & Hreq & Hsl & Hdur); [lia | lia | |].
    { intros k Hk. destruct (Hall (S k) ltac:(lia)) as (e' & Hn' & Ht').
      exists e'. split; [|done]. simpl. rewrite <- Hn'. f_equal. lia. }
    rewrite Hrun, advance_advance.
    eexists; split; [|split; [|split]].
    + f_equal. lia.
    + rewrite count_app, Hreq. reflexivity.
    + rewrite count_app, Hsl. reflexivity.
    + intros s [Hs|[Hs|[Hs|[Hs|Hs]]]]; try discriminate;
        [by inversion Hs | by apply Hdur].
Qed.

(** Whatever the replies, as long as they are within the contract of
    [requests], a loop with at least one attempt left whose last attempt is
    attempt [retries] returns a dict. *)
Lemma attempts_return n attempt w :
  (0 < n)%nat ->
  attempt + Z.of_nat n - 1 = retries ->
  (forall k, requests_reply (net env k)) ->
  exists res w',
    attempts env url timeout retries n attempt w = (Ret res, w')
    /\ res <> ApiNone.
Proof.
  revert attempt w. induction n as [|n IH]; intros attempt w Hn Hlast Hall;
    [lia|].
  rewrite attempts_S.
  pose proof (Hall (calls w)) as Hr.
  destruct (net env (calls w)) as [e|st body] eqn:Hnet; simpl in Hr.
  - destruct Hr as [Hre Hresp].
    destruct (is_ConnectionError_or_Timeout (exn_class e)) eqn:Htr.
    + rewrite (attempt_body_transient _ _ _ Hnet Htr).
      destruct (attempt =? retries) eqn:Heq; [by eauto|].
      apply Z.eqb_neq in Heq. apply IH; [lia | lia | done].
    + destruct (is_HTTPError (exn_class e)) eqn:Hhe.
      * destruct (exn_response e) as [st|] eqn:Hst;
          [|by destruct (Hresp eq_refl)].
        unfold attempt_body, try_except, bind, logging, emit, requests_get,
          http_call; simpl.
        rewrite Hnet; simpl. unfold on_error. rewrite Htr, Hhe, Hst.
        unfold bind, logging, emit, ret; simpl. by eauto.
      * rewrite (attempt_body_other_request_exception _ _ _ Hnet Hre Htr Hhe).
        by eauto.
  - destruct (is_error_status st) eqn:Hst.
    + rewrite (attempt_body_http_error _ _ _ _ Hnet Hst). by eauto.
    + destruct body as [v|msg|e]; [| |done].
      * rewrite (attempt_body_success _ _ _ _ Hnet Hst). by eauto.
      * rewrite (attempt_body_not_json _ _ _ _ Hnet Hst). by eauto.
Qed.

End Part4Steps.

(** ** The request wrapper of part 4 *)

Section Part4Properties.
Import Part4.

(** C2, as the code has it.  With [N >= 1] attempts allowed and a transport
    failure (connection error or timeout) at every one of them,
    [safe_api_request] issues exactly [N] requests, sleeps [N - 1] times,
    2 seconds each and only between attempts: no sleep comes before the
    first request, exactly one between each request and the next, none
    after the last.  It returns the failure dict whose message is
    "Failed after N attempts", with a capital F. *)
Theorem all_transient_fails_after_N env url timeout (N : Z) w :
  1 <= N ->
  (forall k, (k < Z.to_nat N)%nat -> transient_at env w k) ->
  exists evs,
    safe_api_request env url timeout N w =
      (Ret (ApiFailure ("Failed after " +:+ pretty N +:+ " attempts")),
       advance w (Z.to_nat N) evs)
    /\ count is_request evs = Z.to_nat N
    /\ count is_sleep evs = (Z.to_nat N - 1)%nat
    /\ sleeps_between evs = true
    /\ sleeps_are 2 evs
    /\ sleeps_by_gap evs 0 =
         0%nat :: replicate (Z.to_nat N - 1) 1%nat ++ [0%nat].
Proof.
  intros HN Hall.
  destruct (attempts_all_transient env url timeout N (Z.to_nat N) 1
              (advance w 0 [EvLog INFO ("Request started: " +:+ url)]))
    as (evs & Hrun & Hreq & Hsl & Hbet & Hdur & Hgap); [lia | lia | |].
  { intros k Hk. destruct (Hall k Hk) as (e & Hnet & Htr).
    exists e. split; [|done]. simpl. rewrite <- Hnet. f_equal. lia. }
  exists (EvLog INFO ("Request started: " +:+ url) :: evs).
  split; [|split; [|split; [|split; [|split]]]].
  - unfold safe_api_request, bind, logging.
    rewrite emit_advance, Hrun, advance_advance. reflexivity.
  - exact Hreq.
  - exact Hsl.
  - exact Hbet.
  - intros s [Hs|Hs]; [discriminate | by apply Hdur].
  - apply Hgap.
Qed.

Lemma all_transient_fails_after_N_witness :
  exists evs,
    safe_api_request (env_of net_down None) "https://example.org" 5 3
                     (start []) =
      (Ret (ApiFailure ("Failed after " +:+ pretty 3 +:+ " attempts")),
       advance (start []) (Z.to_nat 3) evs)
    /\ count is_request evs = Z.to_nat 3
    /\ count is_sleep evs = (Z.to_nat 3 - 1)%nat
    /\ sleeps_between evs = true
    /\ sleeps_are 2 evs
    /\ sleeps_by_gap evs 0 =
         0%nat :: replicate (Z.to_nat 3 - 1) 1%nat ++ [0%nat].
Proof.
  apply all_transient_fails_after_N; [lia|].
  intros k _. exists connection_refused. split; reflexivity.
Defined.

(** C2 as the specification words it does not hold: three allowed
    attempts, every one refused, and the message returned is
    "Failed after 3 attempts", not "failed after 3 attempts". *)
Lemma all_transient_message_counterexample :
  (forall k, transient_at (env_of net_down None) (start []) k)
  /\ fst (safe_api_request (env_of net_down None) "https://example.org" 5 3
                           (start []))
     = Ret (ApiFailure "Failed after 3 attempts")
  /\ fst (safe_api_request (env_of net_down None) "https://example.org" 5 3
                           (start []))
     <> Ret (ApiFailure "failed after 3 attempts").
Proof.
  split; [|split].
  - intros k. exists connection_refused. split; reflexivity.
  - vm_compute. reflexivity.
  - vm_compute. discriminate.
Qed.

(** C3.  Whatever [retries >= 1] is, a first response with an error status
    (400 to 599, the codes [raise_for_status] rejects) ends the call at
    once: the failure dict carries the code in its message
    "HTTP Error: <code>", one request was issued, nothing slept. *)
Theorem http_error_status_no_retry env url timeout retries w st body :
  1 <= retries ->
  net env (calls w) = Responds st body ->
  is_error_status st = true ->
  exists evs,
    safe_api_request env url timeout retries w =
      (Ret (ApiFailure ("HTTP Error: " +:+ pretty st)), advance w 1 evs)
    /\ evs = [EvLog INFO ("Request started: " +:+ url);
              EvLog INFO ("Attempt " +:+ pretty 1 +:+ " for " +:+ url);
              EvGet url [] (Some timeout);
              EvLog ERROR ("HTTP error " +:+ pretty st +:+ " for " +:+ url)]
    /\ count is_request evs = 1%nat
    /\ count is_sleep evs = 0%nat.
Proof.
  intros Hr Hnet Hst.
  eexists; split; [|split; [reflexivity | split; reflexivity]].
  unfold safe_api_request, bind, logging. rewrite emit_advance.
  destruct (Z.to_nat retries) as [|n] eqn:Hn; [lia|].
  rewrite attempts_S, (attempt_body_http_error _ _ _ _ _ _ st body);
    [| simpl; rewrite Nat.add_0_r; exact Hnet | exact Hst].
  rewrite advance_advance. reflexivity.
Qed.

Lemma http_error_status_no_retry_witness :
  exists evs,
    safe_api_request (env_of (net_const 404 (Json (PDict []))) None)
                     "https://example.org/posts/99999" 5 3 (start []) =
      (Ret (ApiFailure ("HTTP Error: " +:+ pretty 404)),
       advance (start []) 1 evs)
    /\ evs = [EvLog INFO ("Request started: " +:+
                          "https://example.org/posts/99999");
              EvLog INFO ("Attempt " +:+ pretty 1 +:+ " for " +:+
                          "https://example.org/posts/99999");
              EvGet "https://example.org/posts/99999" [] (Some 5);
              EvLog ERROR ("HTTP error " +:+ pretty 404 +:+ " for " +:+
                           "https://example.org/posts/99999")]
    /\ count is_request evs = 1%nat
    /\ count is_sleep evs = 0%nat.
Proof.
  apply (http_error_status_no_retry _ _ _ 3 (start []) 404 (Json (PDict [])));
    [lia | reflexivity | reflexivity].
Defined.

(** C4.  With [1 <= K <= retries], transport failures at the first
    [K - 1] attempts and, at attempt [K], a response with a non-error status
    and a JSON body, the call returns the success dict holding the decoded
    body, after exactly [K] requests (and [K - 1] sleeps). *)
Theorem success_at_attempt_K env url timeout retries (K : nat) w st v :
  (1 <= K)%nat ->
  Z.of_nat K <= retries ->
  (forall k, (k < K - 1)%nat -> transient_at env w k) ->
  net env (calls w + (K - 1)) = Responds st (Json v) ->
  is_error_status st = false ->
  exists evs,
    safe_api_request env url timeout retries w =
      (Ret (ApiSuccess v), advance w K evs)
    /\ count is_request evs = K
    /\ count is_sleep evs = (K - 1)%nat.
Proof.
  intros HK Hle Hall Hnet Hst.
  unfold safe_api_request, bind, logging. rewrite emit_advance.
  destruct (attempts_skip_transient env url timeout retries (K - 1)
              (Z.to_nat retries) 1
              (advance w 0 [EvLog INFO ("Request started: " +:+ url)]))
    as (evs & Hrun & Hreq & Hsl & _); [lia | lia | |].
  { intros k Hk. destruct (Hall k Hk) as (e & Hn & Ht).
    exists e. split; [|done]. simpl. rewrite <- Hn. f_equal. lia. }
  rewrite Hrun, advance_advance.
  destruct (Z.to_nat retries - (K - 1))%nat as [|n] eqn:Hn; [lia|].
  rewrite attempts_S, (attempt_body_success _ _ _ _ _ _ st v);
    [| simpl; rewrite <- Hnet; f_equal; lia | exact Hst].
  rewrite advance_advance.
  eexists; split; [|split].
  - f_equal. f_equal. lia.
  - rewrite !count_app, Hreq. unfold count; simpl. lia.
  - rewrite !count_app, Hsl. unfold count; simpl. lia.
Qed.

Lemma success_at_attempt_K_witness :
  exists evs,
    safe_api_request (env_of (net_after 2 200 (Json (PInt 7))) None)
                     "https://example.org" 5 3 (start []) =
      (Ret (ApiSuccess (PInt 7)), advance (start []) 3 evs)
    /\ count is_request evs = 3%nat
    /\ count is_sleep evs = (3 - 1)%nat.
Proof.
  apply (success_at_attempt_K _ _ _ 3 3 (start []) 200 (PInt 7));
    [lia | lia | | reflexivity | reflexivity].
  intros k Hk. exists connection_refused.
  destruct k as [|[|k]]; [split; reflexivity | split; reflexivity | simpl in Hk; lia].
Defined.

(** C5, as the code has it.  A first response with a non-error status whose
    body is not JSON ends the call at once, through the handler of
    [RequestException]: the message is "Request failed: " followed by the
    text of the decoding error, one request was issued, nothing slept. *)
Theorem not_json_no_retry env url timeout retries w st msg :
  1 <= retries ->
  net env (calls w) = Responds st (NotJson msg) ->
  is_error_status st = false ->
  exists evs,
    safe_api_request env url timeout retries w =
      (Ret (ApiFailure ("Request failed: " +:+ msg)), advance w 1 evs)
    /\ count is_request evs = 1%nat
    /\ count is_sleep evs = 0%nat.
Proof.
  intros Hr Hnet Hst.
  unfold safe_api_request, bind, logging. rewrite emit_advance.
  destruct (Z.to_nat retries) as [|n] eqn:Hn; [lia|].
  rewrite attempts_S, (attempt_body_not_json _ _ _ _ _ _ st msg);
    [| simpl; rewrite Nat.add_0_r; exact Hnet | exact Hst].
  rewrite advance_advance.
  eexists; split; [reflexivity | split; reflexivity].
Qed.

Lemma not_json_no_retry_witness :
  exists evs,
    safe_api_request
      (env_of (net_const 200 (NotJson "Expecting value")) None)
      "https://example.org" 5 3 (start []) =
      (Ret (ApiFailure ("Request failed: " +:+ "Expecting value")),
       advance (start []) 1 evs)
    /\ count is_request evs = 1%nat
    /\ count is_sleep evs = 0%nat.
Proof.
  apply (not_json_no_retry _ _ _ 3 (start []) 200 "Expecting value");
    [lia | reflexivity | reflexivity].
Defined.

(** C5 as the specification words it does not hold: status 200 with a body
    that is not JSON gives the message "Request failed: Expecting value",
    not "invalid response body". *)
Lemma not_json_message_counterexample :
  net (env_of (net_const 200 (NotJson "Expecting value")) None) 0
    = Responds 200 (NotJson "Expecting value")
  /\ is_error_status 200 = false
  /\ fst (safe_api_request
            (env_of (net_const 200 (NotJson "Expecting value")) None)
            "https://example.org" 5 3 (start []))
     = Ret (ApiFailure "Request failed: Expecting value")
  /\ fst (safe_api_request
            (env_of (net_const 200 (NotJson "Expecting value")) None)
            "https://example.org" 5 3 (start []))
     <> Ret (ApiFailure "invalid response body").
Proof.
  repeat split; try (vm_compute; reflexivity). vm_compute. discriminate.
Qed.

(** C6, as the code has it.  With [retries >= 1] and replies within the
    contract of [requests] (a response of any status whose [json()] returns
    or raises [JSONDecodeError], or an exception of the [RequestException]
    family, an [HTTPError] carrying its response), [safe_api_request] ends
    by returning one of its two dicts: it raises nothing and does not fall
    off its end. *)
Theorem safe_api_request_returns env url timeout retries w :
  1 <= retries ->
  (forall k, requests_reply (net env k)) ->
  exists res w',
    safe_api_request env url timeout retries w = (Ret res, w')
    /\ res <> ApiNone.
Proof.
  intros Hr Hall.
  unfold safe_api_request, bind, logging. rewrite emit_advance.
  apply attempts_return; [lia | lia | exact Hall].
Qed.

Lemma safe_api_request_returns_witness :
  exists res w',
    safe_api_request (env_of (net_after 1 503 (NotJson "")) None)
                     "https://example.org" 5 2 (start []) = (Ret res, w')
    /\ res <> ApiNone.
Proof.
  apply safe_api_request_returns; [lia|].
  intros k. unfold env_of, net_after; simpl.
  destruct (k <? 1)%nat; simpl; [split; [reflexivity | discriminate] | exact I].
Defined.

(** C6 as the specification words it, for every possible outcome of an
    attempt, does not hold: an exception outside the [RequestException]
    family is caught by no [except] clause and leaves [safe_api_request],
    be it raised by [requests.get] or, on a response with status 200, by
    [response.json()] (the [ValueError] of an integer literal beyond the
    digit limit). *)
Lemma foreign_outcome_leaves_safe_api_request :
  fst (safe_api_request
         (env_of (fun _ => Raises (mkExn ValueError "bad timeout" None)) None)
         "https://example.org" 5 3 (start []))
    = Raise (mkExn ValueError "bad timeout" None)
  /\ is_error_status 200 = false
  /\ fst (safe_api_request
            (env_of (net_const 200
                       (JsonRaises
                          (mkExn ValueError
                             "Exceeds the limit (4300 digits) for integer string conversion"
                             None))) None)
            "https://example.org" 5 3 (start []))
     = Raise (mkExn ValueError
                "Exceeds the limit (4300 digits) for integer string conversion"
                None).
Proof.
  split; [|split]; vm_compute; reflexivity.
Qed.

(** X29.  Why C6 asks for [retries >= 1]: with no attempt allowed
    ([retries <= 0]) the loop body never runs; the function logs the start,
    issues no request and returns [None]. *)
Remark safe_api_request_no_attempt env url timeout retries w :
  retries <= 0 ->
  safe_api_request env url timeout retries w =
    (Ret ApiNone, advance w 0 [EvLog INFO ("Request started: " +:+ url)]).
Proof.
  intros Hr. unfold safe_api_request, bind, logging. rewrite emit_advance.
  replace (Z.to_nat retries) with 0%nat by lia. reflexivity.
Qed.

End Part4Properties.

(** ** Input validation of part 3 *)

Section Part3Properties.
Import Part3.
Variable env : Env.

(** A string that is not all digits is rejected without [int] being
    called. *)
Lemma invalid_user_id_not_digits user_id w :
  PyStr.isdigit user_id = false ->
  invalid_user_id env user_id w = (Ret true, w).
Proof. intros H. unfold invalid_user_id. by rewrite H. Qed.

(** A string [int] converts is rejected exactly when its value lies
    outside 1..10. *)
Lemma invalid_user_id_out_of_range user_id n w :
  PyStr.isdigit user_id = true ->
  PyStr.int (int_max_str_digits env) user_id = Some n ->
  invalid_user_id env user_id w = (Ret (negb ((1 <=? n) && (n <=? 10))), w).
Proof. intros Hd Hi. unfold invalid_user_id. by rewrite Hd, Hi. Qed.

(** Whenever the test of [get_user_info] comes out true, the function
    prints its message and returns; no request is issued. *)
Lemma get_user_info_rejects w line rest :
  stdin w = line :: rest ->
  (forall w0, invalid_user_id env line w0 = (Ret true, w0)) ->
  get_user_info env w =
    (Ret tt,
     mkWorld rest (calls w)
             (trace w ++ [EvPrint ("=== User Information Lookup ===" +:+ nl);
                          EvPrompt "Enter user ID (1-10): ";
                          EvPrint "User ID must be a number!"])
             (fs w) (OPENWEATHER_API_KEY w) (last_post_data w)).
Proof.
  intros Hin Hbad. destruct w; simpl in *; subst.
  unfold get_user_info, bind, print, emit, input; simpl.
  rewrite Hbad; simpl. by rewrite <- !app_assoc.
Qed.

Lemma search_posts_rejects w line rest :
  stdin w = line :: rest ->
  (forall w0, invalid_user_id env (PyStr.strip line) w0 = (Ret true, w0)) ->
  search_posts env w =
    (Ret tt,
     mkWorld rest (calls w)
             (trace w ++ [EvPrint (nl +:+ "=== Post Search ===" +:+ nl);
                          EvPrompt "Enter user ID to see their posts (1-10): ";
                          EvPrint "User ID must be numeric!"])
             (fs w) (OPENWEATHER_API_KEY w) (last_post_data w)).
Proof.
  intros Hin Hbad. destruct w; simpl in *; subst.
  unfold search_posts, bind, print, emit, input; simpl.
  rewrite Hbad; simpl. by rewrite <- !app_assoc.
Qed.

(** *** Where the check is sound: decimal digits *)

Lemma decimal_not_space c :
  PyStr.is_decimal c = true -> PyStr.is_space c = false.
Proof.
  destruct c as [[] [] [] [] [] [] [] []]; try discriminate; reflexivity.
Qed.

Lemma decimal_not_sign c :
  PyStr.is_decimal c = true ->
  (PyStr.code c =? 43)%N = false /\ (PyStr.code c =? 45)%N = false.
Proof.
  destruct c as [[] [] [] [] [] [] [] []]; try discriminate; by split.
Qed.

Lemma lstrip_decimal s :
  PyStr.all_chars PyStr.is_decimal s = true -> PyStr.lstrip s = s.
Proof.
  destruct s as [|c s]; [done|]. cbn. intros [Hc _]%andb_true_iff.
  by rewrite (decimal_not_space c Hc).
Qed.

Lemma rstrip_decimal s :
  PyStr.all_chars PyStr.is_decimal s = true -> PyStr.rstrip s = s.
Proof.
  induction s as [|c s IH]; [done|]. cbn. intros [Hc Hs]%andb_true_iff.
  rewrite (IH Hs), (decimal_not_space c Hc). by destruct s.
Qed.

Lemma decimal_not_int_space c :
  PyStr.is_decimal c = true -> PyStr.is_int_space c = false.
Proof.
  destruct c as [[] [] [] [] [] [] [] []]; try discriminate; reflexivity.
Qed.

Lemma scan_digits_decimal s acc n barred :
  PyStr.all_chars PyStr.is_decimal s = true ->
  s <> "" \/ barred = false ->
  exists v,
    PyStr.scan_digits s acc n barred =
      Some (v, (n + N.of_nat (String.length s))%N, "").
Proof.
  revert acc n barred. induction s as [|c s IH]; intros acc n barred Hs Hne.
  - destruct Hne as [?| ->]; [done|]. exists acc. cbn. do 3 f_equal. lia.
  - cbn in Hs |- *. apply andb_true_iff in Hs as [Hc Hs]. rewrite Hc.
    destruct (IH (10 * acc + (Z.of_N (PyStr.code c) - 48)) (n + 1)%N false Hs)
      as [v Hv]; [by right|].
    exists v. rewrite Hv. do 3 f_equal. lia.
Qed.

(** [int] converts every non-empty string of decimal digits that is no
    longer than the limit allows. *)
Lemma int_decimal limit s :
  s <> "" ->
  PyStr.all_chars PyStr.is_decimal s = true ->
  (limit = 0 \/ N.of_nat (String.length s) <= limit)%N ->
  exists v, PyStr.int limit s = Some v.
Proof.
  intros Hne Hs Hlim. unfold PyStr.int, PyStr.int_parse.
  destruct s as [|c s]; [done|].
  pose proof Hs as Hs'. cbn in Hs'. apply andb_true_iff in Hs' as [Hc _].
  cbn [PyStr.lstrip_int]. rewrite (decimal_not_int_space c Hc).
  destruct (decimal_not_sign c Hc) as [-> ->].
  destruct (scan_digits_decimal (String c s) 0 0%N true Hs) as [v Hv];
    [by left|].
  rewrite Hv.
  replace ((640 <? 0 + N.of_nat (String.length (String c s)))%N &&
           negb (limit =? 0)%N &&
           (limit <? 0 + N.of_nat (String.length (String c s)))%N)
    with false; [by eexists|].
  symmetry. destruct Hlim as [-> | Hle]; [by rewrite andb_false_r|].
  apply andb_false_iff. right. apply N.ltb_ge. lia.
Qed.

(** On such strings, and on every string that [isdigit] rejects, the test
    never raises. *)
Lemma invalid_user_id_returns user_id w :
  (PyStr.isdigit user_id = true ->
   PyStr.all_chars PyStr.is_decimal user_id = true) ->
  (int_max_str_digits env = 0
   \/ N.of_nat (String.length user_id) <= int_max_str_digits env)%N ->
  exists bad, invalid_user_id env user_id w = (Ret bad, w).
Proof.
  intros Hdec Hlim. unfold invalid_user_id.
  destruct (PyStr.isdigit user_id) eqn:Hd; cbn [negb]; [|by eexists].
  destruct (int_decimal (int_max_str_digits env) user_id) as [v Hv];
    [by destruct user_id | by apply Hdec | done |].
  rewrite Hv. by eexists.
Qed.

(** C9 at the input "²".  [isdigit] accepts the superscript, so [int] is
    evaluated and raises [ValueError]; the check sits outside the [try], so
    the exception leaves [get_user_info] and [search_posts].  No request
    was issued and no validation message printed. *)
Theorem superscript_digit_escapes_validation :
  PyStr.isdigit superscript_two = true
  /\ PyStr.int (int_max_str_digits env) superscript_two = None
  /\ get_user_info env (start [superscript_two]) =
       (Raise (mkExn ValueError
                 ("invalid literal for int() with base 10: '" +:+
                  superscript_two +:+ "'") None),
        mkWorld [] 0
                [EvPrint ("=== User Information Lookup ===" +:+ nl);
                 EvPrompt "Enter user ID (1-10): "]
                ∅ None None)
  /\ search_posts env (start [superscript_two]) =
       (Raise (mkExn ValueError
                 ("invalid literal for int() with base 10: '" +:+
                  superscript_two +:+ "'") None),
        mkWorld [] 0
                [EvPrint (nl +:+ "=== Post Search ===" +:+ nl);
                 EvPrompt "Enter user ID to see their posts (1-10): "]
                ∅ None None).
Proof.
  assert (Hint : PyStr.int (int_max_str_digits env) superscript_two = None).
  { reflexivity. }
  assert (Hbad : forall w,
             invalid_user_id env superscript_two w =
               (Raise (mkExn ValueError
                         ("invalid literal for int() with base 10: '" +:+
                          superscript_two +:+ "'") None), w)).
  { intros w. unfold invalid_user_id.
    change (PyStr.isdigit superscript_two) with true. simpl negb. cbv iota.
    rewrite Hint. reflexivity. }
  split; [reflexivity | split; [exact Hint | split]].
  - unfold get_user_info, bind, print, emit, input.
    cbn -[invalid_user_id]. rewrite Hbad. reflexivity.
  - unfold search_posts, bind, print, emit, input.
    cbn -[invalid_user_id].
    change (PyStr.strip superscript_two) with superscript_two.
    rewrite Hbad. reflexivity.
Qed.

End Part3Properties.

(** ** Saving to a file *)

Section SaveToJson.
Import Part5.
Variable env : Env.

(** The guard of [save_to_json]... *)
Lemma save_to_json_skips data filename w :
  truthy data = false ->
  save_to_json env data filename w =
    (Ret tt, advance w 0 [EvPrint "No data to save."]).
Proof.
  intros Hf. unfold save_to_json. rewrite Hf. cbn [negb].
  unfold print. apply emit_advance.
Qed.

(** C10.  For a falsy [data] ([None], an empty dict, an empty list, and
    likewise [0], [False] or the empty string), [save_to_json] prints
    "No data to save." and returns: no file is opened and the files are
    what they were.  Hence a file is written only for a truthy [data]. *)
Theorem save_to_json_falsy data filename w :
  truthy data = false ->
  save_to_json env data filename w =
    (Ret tt, advance w 0 [EvPrint "No data to save."])
  /\ fs (snd (save_to_json env data filename w)) = fs w
  /\ trace (snd (save_to_json env data filename w)) =
       trace w ++ [EvPrint "No data to save."].
Proof.
  intros Hf. rewrite (save_to_json_skips data filename w Hf).
  split; [reflexivity | split; reflexivity].
Qed.

(** The other branch: a truthy [data] is dumped into the file when the
    file can be opened for writing... *)
Lemma save_to_json_truthy data filename w :
  truthy data = true ->
  open_error env filename = None ->
  save_to_json env data filename w =
    (Ret tt,
     mkWorld (stdin w) (calls w)
             (trace w ++ [EvOpenW filename;
                          EvPrint (nl +:+ "Data successfully saved to '" +:+
                                   filename +:+ "'")])
             (<[filename := data]> (fs w))
             (OPENWEATHER_API_KEY w) (last_post_data w)).
Proof.
  intros Ht Ho. unfold save_to_json. rewrite Ht. simpl.
  unfold try_except, bind, dump_to_file, print, emit. rewrite Ho. simpl.
  by rewrite <- app_assoc.
Qed.

(** ... and the failure to open it is reported, nothing being written. *)
Lemma save_to_json_open_fails data filename msg w :
  truthy data = true ->
  open_error env filename = Some msg ->
  save_to_json env data filename w =
    (Ret tt, advance w 0 [EvPrint ("Failed to save data: " +:+ msg)]).
Proof.
  intros Ht Ho. unfold save_to_json. rewrite Ht. simpl.
  unfold try_except, bind, dump_to_file, print. rewrite Ho. simpl.
  by rewrite emit_advance.
Qed.

End SaveToJson.

Lemma save_to_json_falsy_witness :
  Part5.save_to_json (env_of net_down None) (PDict []) "results.json"
                     (start []) =
    (Ret tt, advance (start []) 0 [EvPrint "No data to save."])
  /\ fs (snd (Part5.save_to_json (env_of net_down None) (PDict [])
                                 "results.json" (start []))) =
       fs (start [])
  /\ trace (snd (Part5.save_to_json (env_of net_down None) (PDict [])
                                    "results.json" (start []))) =
       trace (start []) ++ [EvPrint "No data to save."].
Proof.
  apply save_to_json_falsy. reflexivity.
Defined.

(** ** Frames: what a computation leaves alone *)

Ltac pure_tac :=
  unfold pure, subscript, subscript0, get_method, iterate, format,
    raise_for_status, response_json, Part5.weather_condition,
    Part5.title_method, ret, raise;
  repeat case_match; eexists; intros; reflexivity.

Section Frames.
Import Part5.
Variable env : Env.

Lemma pure_subscript v key : pure (subscript v key).
Proof. pure_tac. Qed.
Lemma pure_subscript0 v : pure (subscript0 v).
Proof. pure_tac. Qed.
Lemma pure_get_method v key d : pure (get_method v key d).
Proof. pure_tac. Qed.
Lemma pure_iterate v : pure (iterate v).
Proof. pure_tac. Qed.
Lemma pure_format v spec : pure (format env v spec).
Proof. pure_tac. Qed.
Lemma pure_raise_for_status r : pure (raise_for_status env r).
Proof. pure_tac. Qed.
Lemma pure_response_json r : pure (response_json r).
Proof. pure_tac. Qed.
Lemma pure_weather_condition v : pure (weather_condition v).
Proof. pure_tac. Qed.
Lemma pure_title_method v : pure (title_method env v).
Proof. pure_tac. Qed.
Lemma pure_ret {A} (a : A) : pure (ret a).
Proof. pure_tac. Qed.
Lemma pure_raise {A} e : pure (@raise A e).
Proof. pure_tac. Qed.

(** *** [last_post_data] *)

Lemma keeps_slot_pure {A} (m : M A) : pure m -> keeps_slot m.
Proof. intros [r H] w. by rewrite H. Qed.

Lemma keeps_slot_bind {A B} (m : M A) (k : A -> M B) :
  keeps_slot m -> (forall a, keeps_slot (k a)) -> keeps_slot (bind m k).
Proof.
  intros Hm Hk w. unfold bind. specialize (Hm w).
  destruct (m w) as [[a|e] w']; simpl in *; [|done].
  by rewrite Hk.
Qed.

Lemma keeps_slot_try_except {A} (m : M A) (h : Exn -> M A) :
  keeps_slot m -> (forall e, keeps_slot (h e)) -> keeps_slot (try_except m h).
Proof.
  intros Hm Hh w. unfold try_except. specialize (Hm w).
  destruct (m w) as [[a|e] w']; simpl in *; [done|].
  by rewrite Hh.
Qed.

Lemma keeps_slot_emit e : keeps_slot (emit e).
Proof. by intros w. Qed.

Lemma keeps_slot_input prompt : keeps_slot (input prompt).
Proof. intros w. unfold input. by destruct (stdin w). Qed.

Lemma keeps_slot_http_call ev : keeps_slot (http_call env ev).
Proof. intros w. unfold http_call. by destruct (net env (calls w)). Qed.

Lemma keeps_slot_dump data filename :
  keeps_slot (dump_to_file env data filename).
Proof. intros w. unfold dump_to_file. by destruct (open_error env filename). Qed.

Lemma keeps_slot_get_key : keeps_slot get_OPENWEATHER_API_KEY.
Proof. by intros w. Qed.

Lemma keeps_slot_get_slot : keeps_slot get_last_post_data.
Proof. by intros w. Qed.

End Frames.

(** Goes through a computation built from [bind], [try_except], tests and
    the primitives. *)
Ltac keeps_slot_tac :=
  repeat first
    [ progress intros
    | match goal with H : _ |- keeps_slot _ => solve [apply H] end
    | apply keeps_slot_bind
    | apply keeps_slot_try_except
    | apply keeps_slot_emit
    | apply keeps_slot_input
    | apply keeps_slot_http_call
    | apply keeps_slot_dump
    | apply keeps_slot_get_key
    | apply keeps_slot_get_slot
    | apply keeps_slot_pure; solve [pure_tac]
    | match goal with
      | |- keeps_slot (if ?c then _ else _) => destruct c
      | |- keeps_slot (match ?x with _ => _ end) => destruct x
      end ].

Section SlotFrame.
Import Part5.
Variable env : Env.

Lemma keeps_slot_fetch_json ev label :
  keeps_slot (fetch_json env (http_call env ev) label).
Proof. unfold fetch_json, print. keeps_slot_tac. Qed.

Lemma keeps_slot_get_crypto_price coin :
  keeps_slot (get_crypto_price env coin).
Proof. unfold get_crypto_price. apply keeps_slot_fetch_json. Qed.

Lemma keeps_slot_get_weather city : keeps_slot (get_weather env city).
Proof.
  unfold get_weather.
  destruct (assoc _ CITIES) as [[lat lon]|];
    [apply keeps_slot_fetch_json | unfold print; keeps_slot_tac].
Qed.

Lemma keeps_slot_save_to_json data filename :
  keeps_slot (save_to_json env data filename).
Proof. unfold save_to_json, print. keeps_slot_tac. Qed.

Lemma keeps_slot_display_weather city :
  keeps_slot (display_weather env city).
Proof.
  unfold display_weather, print.
  apply keeps_slot_bind; [apply keeps_slot_get_weather|].
  keeps_slot_tac.
Qed.

Lemma keeps_slot_display_crypto coin :
  keeps_slot (display_crypto env coin).
Proof.
  unfold display_crypto, print.
  apply keeps_slot_bind; [apply keeps_slot_get_crypto_price|].
  keeps_slot_tac.
Qed.

Lemma keeps_slot_display_rows coins : keeps_slot (display_rows env coins).
Proof.
  induction coins as [|coin rest IH]; simpl; unfold print; keeps_slot_tac.
Qed.

Lemma keeps_slot_display_top_cryptos :
  keeps_slot (display_top_cryptos env).
Proof.
  unfold display_top_cryptos, get_top_cryptos, print.
  apply keeps_slot_bind; [apply keeps_slot_fetch_json|].
  pose proof keeps_slot_display_rows.
  keeps_slot_tac.
Qed.

Lemma keeps_slot_compare_each coins : keeps_slot (compare_each env coins).
Proof.
  induction coins as [|coin rest IH]; simpl; [keeps_slot_tac|].
  apply keeps_slot_bind; [|intros; exact IH].
  unfold compare_one, print.
  apply keeps_slot_bind; [apply keeps_slot_get_crypto_price|].
  keeps_slot_tac.
Qed.

Lemma keeps_slot_compare_cryptos coins :
  keeps_slot (compare_cryptos env coins).
Proof.
  unfold compare_cryptos, print. pose proof keeps_slot_compare_each.
  keeps_slot_tac.
Qed.

Lemma keeps_slot_display_openweather city :
  keeps_slot (display_openweather env city).
Proof.
  unfold display_openweather, get_openweather, print.
  pose proof keeps_slot_fetch_json.
  keeps_slot_tac.
Qed.

Lemma keeps_slot_save_menu : keeps_slot (save_menu env).
Proof.
  unfold save_menu, print.
  pose proof keeps_slot_get_crypto_price.
  pose proof keeps_slot_get_weather.
  pose proof keeps_slot_save_to_json.
  keeps_slot_tac.
Qed.

(** Every choice but 6 leaves [last_post_data] alone. *)
Lemma keeps_slot_dispatch choice :
  choice <> "6" -> keeps_slot (dispatch env choice).
Proof.
  intros Hne. unfold dispatch, print.
  pose proof keeps_slot_display_weather.
  pose proof keeps_slot_display_crypto.
  pose proof keeps_slot_display_top_cryptos.
  pose proof keeps_slot_compare_cryptos.
  pose proof keeps_slot_save_menu.
  pose proof keeps_slot_display_openweather.
  destruct (String.eqb choice "6") eqn:E6;
    [by apply String.eqb_eq in E6|].
  keeps_slot_tac.
Qed.

End SlotFrame.

(** ** The dashboard, one pass at a time *)

(** Runs the primitives of a computation applied to a world, leaving
    strings and the named functions alone. *)
Ltac run :=
  cbn -[Part5.dispatch Part5.create_post Part5.save_menu Part5.save_to_json
        get_method subscript subscript0 iterate format
        PyStr.strip PyStr.is_empty String.append].

Section Stepping.
Import Part5.

Lemma bind_assoc {A B C} (m : M A) (k : A -> M B) (h : B -> M C) w :
  bind (bind m k) h w = bind m (fun a => bind (k a) h) w.
Proof. unfold bind. by destruct (m w) as [[a|e] w']. Qed.

Lemma bind_ret {A B} (a : A) (k : A -> M B) w : bind (ret a) k w = k a w.
Proof. reflexivity. Qed.

Lemma bind_print {B} line (k : unit -> M B) w :
  bind (print line) k w = k tt (after_input w (stdin w) 0 [EvPrint line]).
Proof.
  unfold bind, print, emit, after_input. by rewrite Nat.add_0_r.
Qed.

Lemma print_run line w :
  print line w = (Ret tt, after_input w (stdin w) 0 [EvPrint line]).
Proof. unfold print, emit, after_input. by rewrite Nat.add_0_r. Qed.

Lemma bind_input {B} prompt (k : string -> M B) w line rest :
  stdin w = line :: rest ->
  bind (input prompt) k w = k line (after_input w rest 0 [EvPrompt prompt]).
Proof.
  intros Hin. unfold bind, input, after_input. by rewrite Hin, Nat.add_0_r.
Qed.

Lemma bind_input_eof {B} prompt (k : string -> M B) w :
  stdin w = [] ->
  bind (input prompt) k w =
    (Raise (mkExn EOFError "EOF when reading a line" None),
     after_input w [] 0 [EvPrompt prompt]).
Proof.
  intros Hin. unfold bind, input, after_input. by rewrite Hin, Nat.add_0_r.
Qed.

Lemma bind_get_slot {B} (k : option pyval -> M B) w :
  bind get_last_post_data k w = k (last_post_data w) w.
Proof. reflexivity. Qed.

Lemma bind_get_key {B} (k : option string -> M B) w :
  bind get_OPENWEATHER_API_KEY k w = k (OPENWEATHER_API_KEY w) w.
Proof. reflexivity. Qed.

Lemma after_after w r1 k1 e1 r2 k2 e2 :
  after_input (after_input w r1 k1 e1) r2 k2 e2 =
    after_input w r2 (k1 + k2) (e1 ++ e2).
Proof.
  unfold after_input; simpl. f_equal; [lia | symmetry; apply app_assoc].
Qed.

Lemma advance_after w k evs : advance w k evs = after_input w (stdin w) k evs.
Proof. reflexivity. Qed.

End Stepping.

(** Steps through prints, prompts and reads of globals at the head of a
    computation applied to a world of the form [after_input ...]. *)
Ltac step :=
  repeat first
    [ rewrite bind_assoc
    | rewrite bind_print
    | rewrite print_run
    | rewrite bind_ret
    | rewrite bind_get_slot
    | rewrite bind_get_key
    | erewrite bind_input by reflexivity
    | rewrite after_after
    | progress cbv beta
    | progress cbn [stdin calls trace fs OPENWEATHER_API_KEY last_post_data
                    after_input Nat.add app] ].

Section Passes.
Import Part5.
Variable env : Env.

(** A pass shows the menu, reads a line and dispatches on it... *)
Lemma iteration_input w line rest :
  stdin w = line :: rest ->
  iteration env w =
    dispatch env (PyStr.strip line) (after_input w rest 0 menu_events).
Proof.
  intros Hin. unfold iteration, show_options.
  repeat first [rewrite bind_assoc | rewrite bind_print | progress cbv beta].
  rewrite (bind_input _ _ _ line rest); [|cbn; exact Hin].
  rewrite !after_after. reflexivity.
Qed.

(** ... and at the end of the input [input] raises [EOFError], which
    nothing catches. *)
Lemma iteration_eof w :
  stdin w = [] ->
  iteration env w =
    (Raise (mkExn EOFError "EOF when reading a line" None),
     after_input w [] 0 menu_events).
Proof.
  intros Hin. unfold iteration, show_options.
  repeat first [rewrite bind_assoc | rewrite bind_print | progress cbv beta].
  rewrite bind_input_eof; [|cbn; exact Hin].
  rewrite !after_after. reflexivity.
Qed.

(** What [create_post] leaves in [last_post_data]: the decoded body when
    both lines are non-empty and the POST is answered with a non-error
    status and a JSON body; what was there before in every other case. *)
Lemma create_post_slot w :
  last_post_data (snd (create_post env w)) =
    match stdin w with
    | title :: body :: _ =>
        if PyStr.is_empty (PyStr.strip title)
           || PyStr.is_empty (PyStr.strip body)
        then last_post_data w
        else match net env (calls w) with
             | Responds st (Json v) =>
                 if is_error_status st then last_post_data w else Some v
             | _ => last_post_data w
             end
    | _ => last_post_data w
    end.
Proof.
  destruct w as [lines n tr files key slot].
  unfold create_post.
  destruct lines as [|title [|body rest]]; run; try reflexivity.
  destruct (PyStr.is_empty (PyStr.strip title)
            || PyStr.is_empty (PyStr.strip body)); run; [reflexivity|].
  unfold try_except, bind at 1, requests_post, http_call. run.
  destruct (net env n) as [e|st [v|msg|e]]; run.
  - destruct (is_RequestException (exn_class e)); run; reflexivity.
  - unfold raise_for_status. run.
    destruct (is_error_status st); run; [reflexivity|].
    match goal with
    | |- context [let (o, w') := ?m ?W in _] =>
        assert (Hk : keeps_slot m) by (unfold print; keeps_slot_tac);
        specialize (Hk W); destruct (m W) as [[a|e] w1]
    end; cbn in Hk |- *; [exact Hk|].
    destruct (is_RequestException (exn_class e)); exact Hk.
  - unfold raise_for_status. run.
    destruct (is_error_status st); run; reflexivity.
  - unfold raise_for_status. run.
    destruct (is_error_status st); run; [reflexivity|].
    destruct (is_RequestException (exn_class e)); run; reflexivity.
Qed.

(** Only a successful create writes [last_post_data]. *)
Lemma slot_written_only_by_create w :
  last_post_data (snd (iteration env w)) <> last_post_data w ->
  exists line title body rest st v,
    stdin w = line :: title :: body :: rest
    /\ PyStr.strip line = "6"
    /\ net env (calls w) = Responds st (Json v)
    /\ is_error_status st = false
    /\ last_post_data (snd (iteration env w)) = Some v.
Proof.
  intros Hch. destruct (stdin w) as [|line lines] eqn:Hin.
  { rewrite (iteration_eof _ Hin) in Hch. by destruct Hch. }
  rewrite (iteration_input _ _ _ Hin) in Hch |- *.
  destruct (decide (PyStr.strip line = "6")) as [H6|H6].
  - rewrite H6 in Hch |- *.
    assert (Hd : forall w0,
               last_post_data (snd (dispatch env "6" w0)) =
               last_post_data (snd (create_post env w0))).
    { intros w0. unfold dispatch. cbn [String.eqb Ascii.eqb Bool.eqb].
      unfold bind. by destruct (create_post env w0) as [[[]|e] w1]. }
    rewrite Hd, create_post_slot in Hch |- *. simpl in Hch |- *.
    rewrite Nat.add_0_r in Hch |- *.
    destruct lines as [|title [|body rest]]; try by destruct Hch.
    destruct (PyStr.is_empty (PyStr.strip title)
              || PyStr.is_empty (PyStr.strip body)); [by destruct Hch|].
    destruct (net env (calls w)) as [e|st [v|msg|e]] eqn:Hnet;
      try by destruct Hch.
    destruct (is_error_status st) eqn:Hst; [by destruct Hch|].
    by exists line, title, body, rest, st, v.
  - destruct Hch. by rewrite keeps_slot_dispatch.
Qed.

(** A create that succeeds leaves the decoded body in [last_post_data]. *)
Lemma create_fills_slot w line title body rest st v :
  stdin w = line :: title :: body :: rest ->
  PyStr.strip line = "6" ->
  PyStr.is_empty (PyStr.strip title) = false ->
  PyStr.is_empty (PyStr.strip body) = false ->
  net env (calls w) = Responds st (Json v) ->
  is_error_status st = false ->
  last_post_data (snd (iteration env w)) = Some v.
Proof.
  intros Hin H6 Ht Hb Hnet Hst.
  rewrite (iteration_input _ _ _ Hin), H6.
  assert (Hd : forall w0,
             last_post_data (snd (dispatch env "6" w0)) =
             last_post_data (snd (create_post env w0))).
  { intros w0. unfold dispatch. cbn [String.eqb Ascii.eqb Bool.eqb].
    unfold bind. by destruct (create_post env w0) as [[[]|e] w1]. }
  rewrite Hd, create_post_slot. simpl.
  by rewrite Ht, Hb, Nat.add_0_r, Hnet, Hst.
Qed.

(** [save_to_json] returns, whatever happens to the file. *)
Lemma save_to_json_returns data filename w :
  fst (save_to_json env data filename w) = Ret tt.
Proof.
  unfold save_to_json. destruct (truthy data); cbn [negb]; [|reflexivity].
  unfold try_except, bind, dump_to_file.
  by destruct (open_error env filename).
Qed.

(** Choice 7, sub-choice 3, comes down to the test on [last_post_data]. *)
Lemma save_last_post w line sub rest :
  stdin w = line :: sub :: rest ->
  PyStr.strip line = "7" ->
  PyStr.strip sub = "3" ->
  iteration env w =
    let w1 := after_input w rest 0 (menu_events ++ save_menu_events) in
    match last_post_data w with
    | Some data =>
        (Ret true, snd (save_to_json env data "last_post.json" w1))
    | None =>
        (Ret true,
         after_input w rest 0
           (menu_events ++ save_menu_events ++
            [EvPrint "No POST data available to save."]))
    end.
Proof.
  intros Hin H7 H3. rewrite (iteration_input _ _ _ Hin), H7.
  unfold dispatch. cbn [String.eqb Ascii.eqb Bool.eqb].
  unfold save_menu. step.
  cbv zeta. rewrite H3. cbn [String.eqb Ascii.eqb Bool.eqb]. step.
  destruct (last_post_data w) as [data|].
  - unfold bind.
    pose proof (save_to_json_returns data "last_post.json"
                  (after_input w rest 0 (menu_events ++ save_menu_events)))
      as Hret.
    change save_menu_events with
      [EvPrint (nl +:+ "Options to save data:"); EvPrint "1. Crypto Data";
       EvPrint "2. Weather Data"; EvPrint "3. Last POST Response";
       EvPrompt "Select (1-3): "] in *.
    destruct (save_to_json env data "last_post.json" _) as [r w1].
    simpl in Hret. by subst r.
  - step. unfold save_menu_events. by rewrite <- !app_assoc.
Qed.

(** C7, as the code has it.
    - [last_post_data] is absent when the program starts, and the module
      level does not define it.
    - A pass of the loop changes it only when the choice is 6 and the POST
      is answered with a non-error status and a JSON body; it then holds
      that body.
    - Such a create always leaves its body there, replacing what was
      there.
    - Choice 7 with sub-choice 3, the slot holding a truthy [data] and
      the file open to writing: last_post.json receives exactly [data].
    - The same with a falsy [data] (such as the empty dict): the answer is
      "No data to save." and nothing is written.
    - The same with the slot absent: the answer is
      "No POST data available to save." and nothing is written. *)
Theorem last_post_slot_and_save :
  (forall lines,
      last_post_data (start lines) = None
      /\ last_post_data (snd (module_init env (start lines))) = None)
  /\ (forall w,
        last_post_data (snd (iteration env w)) <> last_post_data w ->
        exists line title body rest st v,
          stdin w = line :: title :: body :: rest
          /\ PyStr.strip line = "6"
          /\ net env (calls w) = Responds st (Json v)
          /\ is_error_status st = false
          /\ last_post_data (snd (iteration env w)) = Some v)
  /\ (forall w line title body rest st v,
        stdin w = line :: title :: body :: rest ->
        PyStr.strip line = "6" ->
        PyStr.is_empty (PyStr.strip title) = false ->
        PyStr.is_empty (PyStr.strip body) = false ->
        net env (calls w) = Responds st (Json v) ->
        is_error_status st = false ->
        last_post_data (snd (iteration env w)) = Some v)
  /\ (forall w line sub rest data,
        stdin w = line :: sub :: rest ->
        PyStr.strip line = "7" ->
        PyStr.strip sub = "3" ->
        last_post_data w = Some data ->
        truthy data = true ->
        open_error env "last_post.json" = None ->
        iteration env w =
          (Ret true,
           mkWorld rest (calls w)
             (trace w ++ menu_events ++ save_menu_events ++
              [EvOpenW "last_post.json";
               EvPrint (nl +:+ "Data successfully saved to '" +:+
                        "last_post.json" +:+ "'")])
             (<["last_post.json" := data]> (fs w))
             (OPENWEATHER_API_KEY w) (Some data)))
  /\ (forall w line sub rest data,
        stdin w = line :: sub :: rest ->
        PyStr.strip line = "7" ->
        PyStr.strip sub = "3" ->
        last_post_data w = Some data ->
        truthy data = false ->
        iteration env w =
          (Ret true,
           after_input w rest 0
             (menu_events ++ save_menu_events ++
              [EvPrint "No data to save."])))
  /\ (forall w line sub rest,
        stdin w = line :: sub :: rest ->
        PyStr.strip line = "7" ->
        PyStr.strip sub = "3" ->
        last_post_data w = None ->
        iteration env w =
          (Ret true,
           after_input w rest 0
             (menu_events ++ save_menu_events ++
              [EvPrint "No POST data available to save."]))).
Proof.
  split; [|split; [|split; [|split; [|split]]]].
  - intros lines. split; [reflexivity|].
    unfold module_init, bind, set_OPENWEATHER_API_KEY; simpl.
    by destruct (negb _).
  - exact slot_written_only_by_create.
  - exact create_fills_slot.
  - intros w line sub rest data Hin H7 H3 Hslot Ht Ho.
    rewrite (save_last_post _ _ _ _ Hin H7 H3), Hslot. cbv zeta.
    rewrite save_to_json_truthy; [|done|done].
    destruct w; unfold after_input; simpl in *; subst.
    rewrite <- !app_assoc, Nat.add_0_r. reflexivity.
  - intros w line sub rest data Hin H7 H3 Hslot Hf.
    rewrite (save_last_post _ _ _ _ Hin H7 H3), Hslot. cbv zeta.
    rewrite (save_to_json_skips env data "last_post.json"
               (after_input w rest 0 (menu_events ++ save_menu_events)) Hf). simpl. unfold advance, after_input; simpl.
    rewrite <- !app_assoc, Nat.add_0_r. reflexivity.
  - intros w line sub rest Hin H7 H3 Hslot.
    by rewrite (save_last_post _ _ _ _ Hin H7 H3), Hslot.
Qed.

End Passes.

(** The create and the save of C7 on a sample run: the POST is answered
    with 201 and a document, which a later save writes to last_post.json. *)
Lemma last_post_slot_and_save_witness :
  last_post_data
    (snd (Part5.iteration
            (env_of (net_const 201 (Json (PDict [("id", PInt 101)]))) None)
            (start ["6"; "A title"; "A body"])))
    = Some (PDict [("id", PInt 101)])
  /\ Part5.iteration
       (env_of net_down None)
       (mkWorld ["7"; "3"] 1 [] ∅ None (Some (PDict [("id", PInt 101)])))
     = (Ret true,
        mkWorld [] 1
          ([] ++ menu_events ++ save_menu_events ++
           [EvOpenW "last_post.json";
            EvPrint (nl +:+ "Data successfully saved to '" +:+
                     "last_post.json" +:+ "'")])
          (<["last_post.json" := PDict [("id", PInt 101)] ]>
             (∅ : gmap string pyval))
          None (Some (PDict [("id", PInt 101)]))).
Proof.
  split.
  - destruct (last_post_slot_and_save
                (env_of (net_const 201 (Json (PDict [("id", PInt 101)]))) None))
      as (_ & _ & Hcreate & _).
    apply (Hcreate (start ["6"; "A title"; "A body"]) "6" "A title" "A body"
                   [] 201 (PDict [("id", PInt 101)])); reflexivity.
  - destruct (last_post_slot_and_save (env_of net_down None))
      as (_ & _ & _ & Hsave & _).
    apply (Hsave (mkWorld ["7"; "3"] 1 [] ∅ None
                          (Some (PDict [("id", PInt 101)])))
                 "7" "3" [] (PDict [("id", PInt 101)])); reflexivity.
Defined.

(** C7 as the specification words it does not hold.  The POST is answered
    with 201 and the empty document: the create succeeds and fills the slot
    with the empty dict.  The save that follows prints "No data to save." and
    writes no file. *)
Lemma empty_payload_not_saved :
  let env := env_of (net_const 201 (Json (PDict []))) None in
  let run := Part5.program env
               (start ["6"; "A title"; "A body"; "7"; "3"; "9"]) in
  fst run = Ret (Some tt)
  /\ printed (nl +:+ "Post successfully created!") (snd run) = true
  /\ last_post_data (snd run) = Some (PDict [])
  /\ printed "No data to save." (snd run) = true
  /\ opened "last_post.json" (snd run) = false
  /\ fs (snd run) !! "last_post.json" = None.
Proof.
  vm_compute. repeat split.
Qed.

(** ** The API key *)

Section KeyBlind.
Import Part5.
Variable env : Env.

Lemma key_blind_pure {A} (m : M A) : pure m -> key_blind m.
Proof. intros [r H] key w. by rewrite !H. Qed.

Lemma key_blind_bind {A B} (m : M A) (k : A -> M B) :
  key_blind m -> (forall a, key_blind (k a)) -> key_blind (bind m k).
Proof.
  intros Hm Hk key w. unfold bind. rewrite Hm.
  destruct (m w) as [[a|e] w']; simpl; [|done].
  rewrite Hk. by destruct (k a w').
Qed.

Lemma key_blind_try_except {A} (m : M A) (h : Exn -> M A) :
  key_blind m -> (forall e, key_blind (h e)) -> key_blind (try_except m h).
Proof.
  intros Hm Hh key w. unfold try_except. rewrite Hm.
  destruct (m w) as [[a|e] w']; simpl; [done|].
  rewrite Hh. by destruct (h e w').
Qed.

Lemma key_blind_emit e : key_blind (emit e).
Proof. by intros key w. Qed.

Lemma key_blind_input prompt : key_blind (input prompt).
Proof. intros key w. unfold input; simpl. by destruct (stdin w). Qed.

Lemma key_blind_http_call ev : key_blind (http_call env ev).
Proof.
  intros key w. unfold http_call; simpl. by destruct (net env (calls w)).
Qed.

Lemma key_blind_dump data filename :
  key_blind (dump_to_file env data filename).
Proof.
  intros key w. unfold dump_to_file; simpl.
  by destruct (open_error env filename).
Qed.

Lemma key_blind_set_slot data : key_blind (set_last_post_data data).
Proof. by intros key w. Qed.

Lemma key_blind_get_slot : key_blind get_last_post_data.
Proof. by intros key w. Qed.

End KeyBlind.

Ltac key_blind_tac :=
  repeat first
    [ progress intros
    | match goal with H : _ |- key_blind _ => solve [simple apply H] end
    | simple apply key_blind_bind
    | simple apply key_blind_try_except
    | simple apply key_blind_emit
    | simple apply key_blind_input
    | simple apply key_blind_http_call
    | simple apply key_blind_dump
    | simple apply key_blind_set_slot
    | simple apply key_blind_get_slot
    | simple apply key_blind_pure; solve [pure_tac]
    | match goal with
      | |- key_blind (if ?c then _ else _) => destruct c
      | |- key_blind (match ?x with _ => _ end) => destruct x
      | |- key_blind (let _ := _ in _) => cbv zeta
      end ].

Section KeyProperties.
Import Part5.
Variable env : Env.

Lemma key_blind_fetch_json ev label :
  key_blind (fetch_json env (http_call env ev) label).
Proof. unfold fetch_json, print. key_blind_tac. Qed.

Lemma key_blind_get_crypto_price coin :
  key_blind (get_crypto_price env coin).
Proof. unfold get_crypto_price. apply key_blind_fetch_json. Qed.

Lemma key_blind_get_weather city : key_blind (get_weather env city).
Proof.
  unfold get_weather.
  destruct (assoc _ CITIES) as [[lat lon]|];
    [apply key_blind_fetch_json | unfold print; key_blind_tac].
Qed.

Lemma key_blind_save_to_json data filename :
  key_blind (save_to_json env data filename).
Proof. unfold save_to_json, print. key_blind_tac. Qed.

Lemma key_blind_display_weather city :
  key_blind (display_weather env city).
Proof.
  unfold display_weather, print.
  apply key_blind_bind; [apply key_blind_get_weather|].
  key_blind_tac.
Qed.

Lemma key_blind_display_crypto coin :
  key_blind (display_crypto env coin).
Proof.
  unfold display_crypto, print.
  apply key_blind_bind; [apply key_blind_get_crypto_price|].
  key_blind_tac.
Qed.

Lemma key_blind_display_rows coins : key_blind (display_rows env coins).
Proof.
  induction coins as [|coin rest IH]; simpl; unfold print; key_blind_tac.
Qed.

Lemma key_blind_display_top_cryptos :
  key_blind (display_top_cryptos env).
Proof.
  unfold display_top_cryptos, get_top_cryptos, print.
  apply key_blind_bind; [apply key_blind_fetch_json|].
  pose proof key_blind_display_rows.
  key_blind_tac.
Qed.

Lemma key_blind_compare_each coins : key_blind (compare_each env coins).
Proof.
  induction coins as [|coin rest IH]; simpl; [key_blind_tac|].
  apply key_blind_bind; [|intros; exact IH].
  unfold compare_one, print.
  apply key_blind_bind; [apply key_blind_get_crypto_price|].
  key_blind_tac.
Qed.

Lemma key_blind_compare_cryptos coins :
  key_blind (compare_cryptos env coins).
Proof.
  unfold compare_cryptos, print. pose proof key_blind_compare_each.
  key_blind_tac.
Qed.

Lemma key_blind_create_post : key_blind (create_post env).
Proof.
  unfold create_post, requests_post, print. key_blind_tac.
Qed.

Lemma key_blind_save_menu : key_blind (save_menu env).
Proof.
  unfold save_menu, print.
  pose proof key_blind_get_crypto_price.
  pose proof key_blind_get_weather.
  pose proof key_blind_save_to_json.
  key_blind_tac.
Qed.

(** Every choice but 8 runs the same with and without a key. *)
Lemma key_blind_dispatch choice :
  choice <> "8" -> key_blind (dispatch env choice).
Proof.
  intros Hne. unfold dispatch, print.
  pose proof key_blind_display_weather.
  pose proof key_blind_display_crypto.
  pose proof key_blind_display_top_cryptos.
  pose proof key_blind_compare_cryptos.
  pose proof key_blind_create_post.
  pose proof key_blind_save_menu.
  destruct (String.eqb choice "8") eqn:E8;
    [by apply String.eqb_eq in E8|].
  key_blind_tac.
Qed.

(** *** The warning is not printed again *)

Lemma last_ascii_app a b :
  last_ascii (a +:+ b) =
    match last_ascii b with
    | Some c => Some c
    | None => last_ascii a
    end.
Proof.
  induction a as [|c a IH].
  - change ("" +:+ b) with b. cbn. by destruct (last_ascii b).
  - change (String c a +:+ b) with (String c (a +:+ b)). cbn.
    rewrite IH. by destruct (last_ascii b), (last_ascii a).
Qed.

Lemma quiet_pure {A} (m : M A) : pure m -> quiet m.
Proof.
  intros [r H] w. rewrite H; cbn. split; [|lia].
  exists []. by rewrite app_nil_r.
Qed.

Lemma quiet_bind {A B} (m : M A) (k : A -> M B) :
  quiet m -> (forall a, quiet (k a)) -> quiet (bind m k).
Proof.
  intros Hm Hk w. unfold bind. destruct (Hm w) as [(evs1 & H1 & F1) L1].
  destruct (m w) as [[a|e] w']; cbn in *; [|split; [by exists evs1 | done]].
  destruct (Hk a w') as [(evs2 & H2 & F2) L2].
  split; [|lia].
  exists (evs1 ++ evs2). rewrite H2, H1, app_assoc.
  split; [done | by apply Forall_app].
Qed.

Lemma quiet_try_except {A} (m : M A) (h : Exn -> M A) :
  quiet m -> (forall e, quiet (h e)) -> quiet (try_except m h).
Proof.
  intros Hm Hh w. unfold try_except. destruct (Hm w) as [(evs1 & H1 & F1) L1].
  destruct (m w) as [[a|e] w']; cbn in *; [split; [by exists evs1 | done]|].
  destruct (Hh e w') as [(evs2 & H2 & F2) L2].
  split; [|lia].
  exists (evs1 ++ evs2). rewrite H2, H1, app_assoc.
  split; [done | by apply Forall_app].
Qed.

Lemma quiet_emit e : not_warning e -> quiet (emit e).
Proof.
  intros He w. split; [|cbn; lia].
  exists [e]. split; [done | by constructor].
Qed.

Lemma quiet_input prompt : quiet (input prompt).
Proof.
  intros w. unfold input. split.
  - exists [EvPrompt prompt].
    split; [by destruct (stdin w) | by constructor].
  - destruct (stdin w); cbn; lia.
Qed.

Lemma quiet_http_call ev :
  not_warning ev -> quiet (http_call env ev).
Proof.
  intros He w. unfold http_call. split.
  - exists [ev]. split; [by destruct (net env (calls w)) | by constructor].
  - destruct (net env (calls w)); cbn; lia.
Qed.

Lemma quiet_dump data filename : quiet (dump_to_file env data filename).
Proof.
  intros w. unfold dump_to_file.
  destruct (open_error env filename); cbn; (split; [|lia]).
  - exists []. by rewrite app_nil_r.
  - exists [EvOpenW filename]. split; [done | by constructor].
Qed.

(** Reading and writing the globals. *)
Lemma quiet_silent {A} (m : M A) :
  (forall w, trace (snd (m w)) = trace w /\ stdin (snd (m w)) = stdin w) ->
  quiet m.
Proof.
  intros H w. destruct (H w) as [Ht Hs]. rewrite Ht, Hs. split; [|lia].
  exists []. by rewrite app_nil_r.
Qed.

Ltac not_warning_tac :=
  let Heq := fresh "Heq" in
  unfold not_warning, key_warning; intros Heq;
  first
    [ discriminate Heq
    | cbv beta iota delta [String.append nl] in Heq; discriminate Heq
    | injection Heq as Heq; apply (f_equal last_ascii) in Heq;
      rewrite ?last_ascii_app in Heq;
      cbv beta iota delta [String.append PyStr.rjust PyStr.times Nat.sub
                           String.length last_ascii] in Heq;
      discriminate Heq ].

Ltac quiet_tac :=
  repeat first
    [ progress intros
    | match goal with H : _ |- quiet _ => solve [simple apply H] end
    | simple apply quiet_bind
    | simple apply quiet_try_except
    | simple apply quiet_emit; solve [not_warning_tac]
    | simple apply quiet_input
    | simple apply quiet_http_call; solve [not_warning_tac]
    | simple apply quiet_dump
    | simple apply quiet_silent; solve [intros; split; reflexivity]
    | simple apply quiet_pure; solve [pure_tac]
    | match goal with
      | |- quiet (if ?c then _ else _) => destruct c
      | |- quiet (match ?x with _ => _ end) => destruct x
      | |- quiet (let _ := _ in _) => cbv zeta
      end ].

Lemma quiet_get_crypto_price coin : quiet (get_crypto_price env coin).
Proof. unfold get_crypto_price, fetch_json, requests_get, print. quiet_tac. Qed.

Lemma quiet_get_weather city : quiet (get_weather env city).
Proof.
  unfold get_weather, fetch_json, requests_get, print.
  destruct (assoc _ CITIES) as [[lat lon]|]; quiet_tac.
Qed.

Lemma quiet_save_to_json data filename :
  quiet (save_to_json env data filename).
Proof. unfold save_to_json, print. quiet_tac. Qed.

Lemma quiet_display_weather city : quiet (display_weather env city).
Proof.
  unfold display_weather, print.
  apply quiet_bind; [apply quiet_get_weather|].
  quiet_tac.
Qed.

Lemma quiet_display_crypto coin : quiet (display_crypto env coin).
Proof.
  unfold display_crypto, print.
  apply quiet_bind; [apply quiet_get_crypto_price|].
  quiet_tac.
Qed.

Lemma quiet_display_rows coins : quiet (display_rows env coins).
Proof.
  induction coins as [|coin rest IH]; simpl; unfold print; quiet_tac.
Qed.

Lemma quiet_display_top_cryptos : quiet (display_top_cryptos env).
Proof.
  unfold display_top_cryptos, get_top_cryptos, fetch_json, requests_get,
    print.
  pose proof quiet_display_rows.
  quiet_tac.
Qed.

Lemma quiet_compare_each coins : quiet (compare_each env coins).
Proof.
  induction coins as [|coin rest IH]; simpl; [quiet_tac|].
  apply quiet_bind; [|intros; exact IH].
  unfold compare_one, print.
  apply quiet_bind; [apply quiet_get_crypto_price|].
  quiet_tac.
Qed.

Lemma quiet_compare_cryptos coins : quiet (compare_cryptos env coins).
Proof.
  unfold compare_cryptos, print. pose proof quiet_compare_each.
  quiet_tac.
Qed.

Lemma quiet_create_post : quiet (create_post env).
Proof. unfold create_post, requests_post, print. quiet_tac. Qed.

Lemma quiet_display_openweather city :
  quiet (display_openweather env city).
Proof.
  unfold display_openweather, get_openweather, fetch_json, requests_get,
    print.
  quiet_tac.
Qed.

Lemma quiet_save_menu : quiet (save_menu env).
Proof.
  unfold save_menu, print.
  pose proof quiet_get_crypto_price.
  pose proof quiet_get_weather.
  pose proof quiet_save_to_json.
  quiet_tac.
Qed.

Lemma quiet_dispatch choice : quiet (dispatch env choice).
Proof.
  unfold dispatch, print.
  pose proof quiet_display_weather.
  pose proof quiet_display_crypto.
  pose proof quiet_display_top_cryptos.
  pose proof quiet_compare_cryptos.
  pose proof quiet_create_post.
  pose proof quiet_save_menu.
  pose proof quiet_display_openweather.
  quiet_tac.
Qed.

Lemma quiet_show_options : quiet show_options.
Proof. unfold show_options, print. quiet_tac. Qed.

Lemma quiet_iteration : quiet (iteration env).
Proof.
  unfold iteration.
  pose proof quiet_dispatch. pose proof quiet_show_options.
  quiet_tac.
Qed.

Lemma quiet_loop fuel : quiet (loop env fuel).
Proof.
  induction fuel as [|fuel IH]; simpl; [quiet_tac|].
  pose proof quiet_iteration. quiet_tac.
Qed.

(** A pass that returns has read at least one line. *)
Lemma iteration_reads w again w' :
  iteration env w = (Ret again, w') ->
  (length (stdin w') < length (stdin w))%nat.
Proof.
  intros Hrun. destruct (stdin w) as [|line rest] eqn:Hin.
  - by rewrite (iteration_eof env w Hin) in Hrun.
  - rewrite (iteration_input env w line rest Hin) in Hrun.
    destruct (quiet_dispatch (PyStr.strip line)
                (after_input w rest 0 menu_events)) as [_ Hlen].
    rewrite Hrun in Hlen. cbn in Hlen |- *. lia.
Qed.

(** So the loop ends, by [break] or by an exception, within one pass more
    than there are lines to read: the passes allowed always suffice. *)
Lemma loop_ends fuel w :
  (length (stdin w) < fuel)%nat -> fst (loop env fuel w) <> Ret None.
Proof.
  revert w. induction fuel as [|fuel IH]; intros w Hlen; [lia|].
  cbn [loop]. unfold bind.
  destruct (iteration env w) as [[again|e] w'] eqn:Hrun; [|done].
  destruct again; [|done].
  apply IH. pose proof (iteration_reads _ _ _ Hrun). lia.
Qed.

Lemma dashboard_ends w : fst (dashboard env w) <> Ret None.
Proof.
  unfold dashboard, pending_lines.
  repeat first [rewrite bind_assoc | rewrite bind_print | progress cbv beta].
  unfold bind at 1. cbv beta iota.
  apply loop_ends. cbn. lia.
Qed.

Lemma quiet_dashboard : quiet (dashboard env).
Proof.
  unfold dashboard, print. pose proof quiet_loop. quiet_tac.
Qed.

(** C8.
    - With the variable absent from the environment, the module level
      stores [None], prints the warning once and raises nothing.
    - In the whole run of the program that follows, whatever the user
      types and the network answers, the warning is the first thing
      printed and is never printed again.
    - With no key (absent, or empty), choice 8 reads the city, prints
      "No API key provided. ..." and goes back to the menu; no request is
      issued.
    - A pass with any other choice does not look at the key: whatever
      [OPENWEATHER_API_KEY] holds, it ends with the same outcome in the
      same world. *)
Theorem missing_key_disables_one_action :
  (forall w,
      environ env "OPENWEATHER_API_KEY" = None ->
      module_init env w =
        (Ret tt, with_key None (advance w 0 [EvPrint key_warning])))
  /\ (forall w,
        environ env "OPENWEATHER_API_KEY" = None ->
        exists evs,
          trace (snd (program env w)) = trace w ++ EvPrint key_warning :: evs
          /\ Forall not_warning evs)
  /\ (forall w line city rest,
        truthy (from_option PStr PNone (OPENWEATHER_API_KEY w)) = false ->
        stdin w = line :: city :: rest ->
        PyStr.strip line = "8" ->
        iteration env w =
          (Ret true,
           after_input w rest 0
             (menu_events ++
              [EvPrompt "Enter city name: ";
               EvPrint "No API key provided. Set OPENWEATHER_API_KEY environment variable."])))
  /\ (forall w line rest key,
        stdin w = line :: rest ->
        PyStr.strip line <> "8" ->
        iteration env (with_key key w) =
          (fst (iteration env w), with_key key (snd (iteration env w)))).
Proof.
  assert (Hinit : forall w,
             environ env "OPENWEATHER_API_KEY" = None ->
             module_init env w =
               (Ret tt, with_key None (advance w 0 [EvPrint key_warning]))).
  { intros w Hkey.
    unfold module_init, bind, set_OPENWEATHER_API_KEY, print, emit.
    rewrite Hkey; simpl. unfold with_key, advance; simpl.
    by rewrite Nat.add_0_r. }
  split; [exact Hinit | split; [|split]].
  - intros w Hkey. unfold program, bind. rewrite (Hinit w Hkey).
    destruct (quiet_dashboard
                (with_key None (advance w 0 [EvPrint key_warning])))
      as [(evs & Htr & Hq) _].
    exists evs. split; [|done].
    rewrite Htr. simpl. by rewrite <- app_assoc.
  - intros w line city rest Hkey Hin H8.
    rewrite (iteration_input _ _ _ _ Hin), H8.
    destruct w as [lines n tr files key slot]; simpl in *; subst.
    unfold dispatch; simpl.
    unfold display_openweather, get_openweather, bind,
      get_OPENWEATHER_API_KEY, print, emit, input, after_input; simpl.
    rewrite Hkey; simpl.
    rewrite <- !app_assoc, !Nat.add_0_r. reflexivity.
  - intros w line rest key Hin H8.
    rewrite (iteration_input env (with_key key w) line rest Hin).
    rewrite (iteration_input env w line rest Hin).
    change (after_input (with_key key w) rest 0 menu_events)
      with (with_key key (after_input w rest 0 menu_events)).
    by apply key_blind_dispatch.
Qed.

End KeyProperties.

Lemma missing_key_disables_one_action_witness :
  Part5.module_init (env_of net_down None) (start ["8"; "Pune"]) =
    (Ret tt,
     with_key None (advance (start ["8"; "Pune"]) 0 [EvPrint key_warning]))
  /\ Part5.iteration (env_of net_down None) (start ["8"; "Pune"]) =
       (Ret true,
        after_input (start ["8"; "Pune"]) [] 0
          (menu_events ++
           [EvPrompt "Enter city name: ";
            EvPrint "No API key provided. Set OPENWEATHER_API_KEY environment variable."]))
  /\ Part5.iteration (env_of net_down None)
                     (with_key (Some "secret") (start ["3"])) =
       (fst (Part5.iteration (env_of net_down None) (start ["3"])),
        with_key (Some "secret")
                 (snd (Part5.iteration (env_of net_down None) (start ["3"])))).
Proof.
  destruct (missing_key_disables_one_action (env_of net_down None))
    as (Hinit & _ & Hoff & Hothers).
  split; [|split].
  - apply Hinit. reflexivity.
  - apply (Hoff (start ["8"; "Pune"]) "8" "Pune" []); reflexivity.
  - apply (Hothers (start ["3"]) "3" [] (Some "secret")); [reflexivity|].
    vm_compute. discriminate.
Defined.

(** ** Request failures in a pass of the dashboard *)

Section Reports.
Variable env : Env.

Lemma reports_failed_refl w : reports_failed env w w.
Proof.
  exists []. rewrite app_nil_r. repeat split; [lia|]. intros k Hk. lia.
Qed.

Lemma reports_failed_trans w1 w2 w3 :
  reports_failed env w1 w2 -> reports_failed env w2 w3 ->
  reports_failed env w1 w3.
Proof.
  intros (e1 & T1 & C1 & R1) (e2 & T2 & C2 & R2).
  exists (e1 ++ e2). rewrite T2, T1, app_assoc. repeat split; [lia|].
  intros k Hk Hf. destruct (Nat.lt_ge_cases k (calls w2)) as [Hlt|Hge].
  - destruct (R1 k ltac:(lia) Hf) as [label Hin].
    exists label. apply in_app_iff. by left.
  - destruct (R2 k ltac:(lia) Hf) as [label Hin].
    exists label. apply in_app_iff. by right.
Qed.

(** Steps that issue no request. *)
Lemma reports_failed_silent w w' evs :
  trace w' = trace w ++ evs -> calls w' = calls w ->
  reports_failed env w w'.
Proof.
  intros Ht Hc. exists evs. rewrite Hc. repeat split; [done|lia|].
  intros k Hk. lia.
Qed.

(** When all the requests in between failed, each of them is reported. *)
Lemma reports_all_failed w w' :
  reports_failed env w w' ->
  (forall k, (calls w <= k < calls w')%nat -> request_fails env k) ->
  reports_failures env w w'.
Proof.
  intros (evs & Ht & Hc & Hr) Hall. exists evs. repeat split; [done..|].
  intros k Hk. by apply Hr, Hall.
Qed.

End Reports.

Section Careful.
Import Part5.
Variable env : Env.

Lemma careful_bind {A B} (m : M A) (k : A -> M B) :
  careful env m -> (forall a, careful env (k a)) -> careful env (bind m k).
Proof.
  intros Hm Hk w. unfold bind. destruct (Hm w) as [Hr He].
  destruct (m w) as [[a|e] w1]; simpl in *;
    [|split; [exact Hr | intros e' [= <-]; by apply He]].
  destruct (Hk a w1) as [Hr2 He2].
  split; [by eapply reports_failed_trans | exact He2].
Qed.

Lemma careful_try_except {A} (m : M A) (h : Exn -> M A) :
  careful env m ->
  (forall e, is_RequestException (exn_class e) = false -> careful env (h e)) ->
  careful env (try_except m h).
Proof.
  intros Hm Hh w. unfold try_except. destruct (Hm w) as [Hr He].
  destruct (m w) as [[a|e] w1]; simpl in *; [by split|].
  destruct (Hh e (He e eq_refl) w1) as [Hr2 He2].
  split; [by eapply reports_failed_trans | exact He2].
Qed.

Lemma careful_ret {A} (a : A) : careful env (ret a).
Proof. intros w. split; [apply reports_failed_refl | discriminate]. Qed.

Lemma careful_raise {A} e :
  is_RequestException (exn_class e) = false -> careful env (@raise A e).
Proof.
  intros He w. split; [apply reports_failed_refl|]. by intros e' [= <-].
Qed.

Lemma careful_emit e : careful env (emit e).
Proof.
  intros w. split; [|discriminate]. by apply (reports_failed_silent _ _ _ [e]).
Qed.

Lemma careful_print line : careful env (print line).
Proof. apply careful_emit. Qed.

Lemma careful_input prompt : careful env (input prompt).
Proof.
  intros w. unfold input. destruct (stdin w) as [|line rest]; simpl.
  - split; [by apply (reports_failed_silent _ _ _ [EvPrompt prompt])|].
    by intros e [= <-].
  - split; [by apply (reports_failed_silent _ _ _ [EvPrompt prompt])|].
    discriminate.
Qed.

Lemma careful_get_key : careful env get_OPENWEATHER_API_KEY.
Proof. intros w. split; [apply reports_failed_refl | discriminate]. Qed.

Lemma careful_get_slot : careful env get_last_post_data.
Proof. intros w. split; [apply reports_failed_refl | discriminate]. Qed.

Lemma careful_set_slot data : careful env (set_last_post_data data).
Proof.
  intros w. split; [|discriminate].
  apply (reports_failed_silent _ _ _ []); [simpl; by rewrite app_nil_r | done].
Qed.

End Careful.

(** The operations on values raise errors of their own. *)
Ltac careful_value :=
  let w := fresh "w" in
  intros w;
  unfold subscript, subscript0, get_method, iterate,
    Part5.weather_condition, Part5.title_method, ret, raise;
  repeat case_match;
  (split;
   [ apply reports_failed_refl
   | let e := fresh "e" in let H := fresh "H" in
     intros e H; simpl in H;
     first [discriminate H | injection H as <-; reflexivity] ]).

Section CarefulValues.
Import Part5.
Variable env : Env.

Lemma careful_subscript v key : careful env (subscript v key).
Proof. careful_value. Qed.
Lemma careful_subscript0 v : careful env (subscript0 v).
Proof. careful_value. Qed.
Lemma careful_get_method v key d : careful env (get_method v key d).
Proof. careful_value. Qed.
Lemma careful_iterate v : careful env (iterate v).
Proof. careful_value. Qed.
Lemma careful_weather_condition v : careful env (weather_condition v).
Proof. careful_value. Qed.
Lemma careful_title_method v : careful env (title_method env v).
Proof. careful_value. Qed.

Lemma careful_format v spec :
  format_errors_are_local env -> careful env (format env v spec).
Proof.
  intros Hformat w. unfold format.
  destruct (py_format env v spec) as [e|s] eqn:Hf.
  - split; [apply reports_failed_refl|]. intros e' [= <-].
    by apply (Hformat v spec).
  - split; [apply reports_failed_refl | discriminate].
Qed.

(** [save_to_json] never raises, whatever it is given. *)
Lemma careful_save_to_json data filename :
  careful env (save_to_json env data filename).
Proof.
  intros w. unfold save_to_json.
  destruct (truthy data); simpl.
  - unfold try_except, bind, dump_to_file, print, emit.
    destruct (open_error env filename) as [msg|]; simpl.
    + split; [|discriminate]. by eapply reports_failed_silent.
    + split; [|discriminate].
      eapply reports_failed_silent; [|reflexivity]. simpl.
      by rewrite <- app_assoc.
  - apply careful_emit.
Qed.

(** The [try] block around a request, as the actions have it: the call,
    [raise_for_status()], [json()], then what the action does with the
    document.  Either the request fails and the handler runs on its
    exception, or the document arrives, or [json()] raises something
    else. *)
Lemma request_block_run {A} ev (k : pyval -> M A) (h : Exn -> M A) w :
  let run :=
    try_except
      (response <- http_call env ev ;;
       raise_for_status env response ;;;
       data <- response_json response ;;
       k data) h w in
  (request_fails env (calls w)
   /\ exists e,
        is_RequestException (exn_class e) = true
        /\ exn_msg e = failure_text env (calls w)
        /\ run = h e (advance w 1 [ev]))
  \/ (~ request_fails env (calls w)
      /\ ((exists v, run = try_except (k v) h (advance w 1 [ev]))
          \/ (exists e, run = h e (advance w 1 [ev])))).
Proof.
  unfold request_fails, failure_text, try_except, bind, http_call,
    raise_for_status, response_json, advance.
  rewrite Nat.add_1_r.
  destruct (net env (calls w)) as [e|st body]; simpl.
  - destruct (is_RequestException (exn_class e)) eqn:He.
    + left. split; [done|]. by exists e.
    + right. split; [done|]. right. by exists e.
  - destruct (is_error_status st) eqn:Hst; simpl.
    + left. split; [by left|].
      by exists (mkExn HTTPError (status_text env st) (Some st)).
    + destruct body as [v|msg|e]; simpl.
      * right. split; [by intros [?|[? ?]]|]. left. by exists v.
      * left. split; [right; by eexists|].
        by exists (mkExn JSONDecodeError msg None).
      * right. split; [by intros [?|[? ?]]|]. right. by exists e.
Qed.

Lemma careful_request_block {A} ev label (k : pyval -> M A)
    (h : Exn -> M A) :
  (forall v, careful env (k v)) ->
  (forall e, is_RequestException (exn_class e) = true ->
     exists a, forall w,
       h e w = (Ret a, advance w 0 [EvPrint (label +:+ exn_msg e)])) ->
  (forall e, is_RequestException (exn_class e) = false ->
     forall w, h e w = (Raise e, w)) ->
  careful env
    (try_except
       (response <- http_call env ev ;;
        raise_for_status env response ;;;
        data <- response_json response ;;
        k data) h).
Proof.
  intros Hk Hyes Hno w.
  assert (Hh : forall e w0,
             (exists evs, trace (snd (h e w0)) = trace w0 ++ evs
                          /\ calls (snd (h e w0)) = calls w0)
             /\ forall e', fst (h e w0) = Raise e' ->
                  is_RequestException (exn_class e') = false).
  { intros e w0. destruct (is_RequestException (exn_class e)) eqn:He.
    - destruct (Hyes e He) as [a Ha]. rewrite Ha. simpl.
      split; [eexists; split; [reflexivity | lia] | discriminate].
    - rewrite (Hno e He). simpl.
      split; [exists []; by rewrite app_nil_r | by intros e' [= <-]]. }
  destruct (request_block_run ev k h w)
    as [(Hf & e & He & Hmsg & ->) | (Hnf & [(v & ->) | (e & ->)])].
  - destruct (Hyes e He) as [a Ha]. rewrite Ha, advance_advance.
    split; [|discriminate].
    eexists. split; [reflexivity|]. split; [simpl; lia|].
    intros k0 Hk0 _. simpl in Hk0. assert (k0 = calls w) as -> by lia.
    exists label. rewrite <- Hmsg. simpl. by right; left.
  - unfold try_except. destruct (Hk v (advance w 1 [ev])) as [Hr Hfor].
    destruct (k v (advance w 1 [ev])) as [[a|e] w2]; simpl in *.
    + split; [|discriminate].
      apply (reports_failed_trans _ _ (advance w 1 [ev])); [|exact Hr].
      eexists. split; [reflexivity|]. split; [simpl; lia|].
      intros k0 Hk0 Hf0. simpl in Hk0.
      assert (k0 = calls w) as -> by lia. done.
    + rewrite (Hno e (Hfor e eq_refl)). simpl.
      split; [|intros e' [= <-]; by apply Hfor].
      apply (reports_failed_trans _ _ (advance w 1 [ev])); [|exact Hr].
      eexists. split; [reflexivity|]. split; [simpl; lia|].
      intros k0 Hk0 Hf0. simpl in Hk0.
      assert (k0 = calls w) as -> by lia. done.
  - destruct (Hh e (advance w 1 [ev])) as [(evs & Ht & Hc) Hfor].
    split; [|exact Hfor].
    exists ([ev] ++ evs). rewrite Ht, Hc. simpl.
    split; [by rewrite <- app_assoc|]. split; [lia|].
    intros k0 Hk0 Hf0. assert (k0 = calls w) as -> by lia. done.
Qed.

Lemma fetch_json_block ev label w :
  fetch_json env (http_call env ev) label w =
    try_except
      (response <- http_call env ev ;;
       raise_for_status env response ;;;
       data <- response_json response ;;
       ret data)
      (fun e =>
         if is_RequestException (exn_class e)
         then print (label +:+ exn_msg e) ;;; ret PNone
         else raise e) w.
Proof.
  unfold fetch_json, try_except, bind, http_call, raise_for_status,
    response_json, ret.
  destruct (net env (calls w)) as [e|st [v|msg|e]]; simpl; try reflexivity;
    destruct (is_error_status st); reflexivity.
Qed.

Lemma careful_fetch_json ev label :
  careful env (fetch_json env (http_call env ev) label).
Proof.
  intros w. rewrite fetch_json_block.
  apply (careful_request_block ev label).
  - intros v. apply careful_ret.
  - intros e He. exists PNone. intros w0. rewrite He.
    unfold bind, print. by rewrite emit_advance.
  - intros e He w0. by rewrite He.
Qed.

End CarefulValues.

Ltac careful_leaf :=
  first
    [ match goal with H : _ |- careful _ _ => solve [simple apply H] end
    | simple apply careful_emit
    | simple apply careful_print
    | simple apply careful_input
    | simple apply careful_get_key
    | simple apply careful_get_slot
    | simple apply careful_set_slot
    | simple apply careful_ret
    | simple apply careful_subscript
    | simple apply careful_subscript0
    | simple apply careful_get_method
    | simple apply careful_iterate
    | simple apply careful_weather_condition
    | simple apply careful_title_method
    | solve [simple apply careful_format; assumption]
    | simple apply careful_save_to_json
    | simple apply careful_fetch_json
    | solve [simple apply careful_raise;
             repeat match goal with
                    | H : exn_class _ = _ |- _ => rewrite H in *
                    end;
             simpl in *; congruence] ].

Ltac careful_tac :=
  repeat first
    [ progress intros
    | careful_leaf
    | simple apply careful_bind
    | simple apply careful_try_except
    | match goal with
      | |- careful _ (match exn_class ?e with _ => _ end) =>
          destruct (exn_class e) eqn:?
      | |- careful _ (if ?c then _ else _) => destruct c
      | |- careful _ (match ?x with _ => _ end) => destruct x
      | |- careful _ (let _ := _ in _) => cbv zeta
      end ].

Section CarefulActions.
Import Part5.
Variable env : Env.
Hypothesis Hformat : format_errors_are_local env.

Lemma careful_get_weather city : careful env (get_weather env city).
Proof. unfold get_weather, requests_get, print. careful_tac. Qed.

Lemma careful_get_crypto_price coin :
  careful env (get_crypto_price env coin).
Proof. unfold get_crypto_price, requests_get. careful_tac. Qed.

Lemma careful_get_openweather city :
  careful env (get_openweather env city).
Proof. unfold get_openweather, requests_get, print. careful_tac. Qed.

Lemma careful_display_weather city :
  careful env (display_weather env city).
Proof.
  unfold display_weather, print. pose proof careful_get_weather.
  careful_tac.
Qed.

Lemma careful_display_crypto coin : careful env (display_crypto env coin).
Proof.
  unfold display_crypto, print. pose proof careful_get_crypto_price.
  careful_tac.
Qed.

Lemma careful_display_rows coins : careful env (display_rows env coins).
Proof.
  induction coins as [|coin rest IH]; simpl; unfold print; careful_tac.
Qed.

Lemma careful_display_top_cryptos : careful env (display_top_cryptos env).
Proof.
  unfold display_top_cryptos, get_top_cryptos, requests_get, print.
  pose proof careful_display_rows. careful_tac.
Qed.

Lemma careful_display_openweather city :
  careful env (display_openweather env city).
Proof.
  unfold display_openweather, print. pose proof careful_get_openweather.
  careful_tac.
Qed.

Lemma careful_compare_one coin : careful env (compare_one env coin).
Proof.
  unfold compare_one, print. pose proof careful_get_crypto_price.
  careful_tac.
Qed.

Lemma careful_compare_each coins : careful env (compare_each env coins).
Proof.
  induction coins as [|coin rest IH]; cbn [compare_each]; [careful_tac|].
  pose proof careful_compare_one. careful_tac.
Qed.

Lemma careful_compare_cryptos coins :
  careful env (compare_cryptos env coins).
Proof.
  unfold compare_cryptos, print. pose proof careful_compare_each.
  careful_tac.
Qed.

(** The [try] block of [create_post]. *)
Lemma careful_post_block url payload timeout :
  careful env
    (try_except
       (response <- http_call env (EvPost url payload timeout) ;;
        raise_for_status env response ;;;
        data <- response_json response ;;
        set_last_post_data data ;;;
        print (nl +:+ "Post successfully created!") ;;;
        post_id <- get_method data "id" PNone ;;
        print ("Post ID: " +:+ py_str env post_id) ;;;
        post_title <- get_method data "title" PNone ;;
        print ("Title: " +:+ py_str env post_title) ;;;
        post_body <- get_method data "body" PNone ;;
        print ("Body: " +:+ py_str env post_body))
       (fun e =>
          if is_RequestException (exn_class e)
          then print ("Failed to create post: " +:+ exn_msg e)
          else raise e)).
Proof.
  apply (careful_request_block env _ "Failed to create post: ").
  - careful_tac.
  - intros e He. exists tt. intros w0. rewrite He.
    unfold print. by rewrite emit_advance.
  - intros e He w0. by rewrite He.
Qed.

Lemma careful_create_post : careful env (create_post env).
Proof.
  unfold create_post, requests_post. pose proof careful_post_block.
  careful_tac.
Qed.

Lemma careful_save_menu : careful env (save_menu env).
Proof.
  unfold save_menu, print.
  pose proof careful_get_crypto_price.
  pose proof careful_get_weather.
  careful_tac.
Qed.

Lemma careful_dispatch choice : careful env (dispatch env choice).
Proof.
  unfold dispatch, print.
  pose proof careful_display_weather.
  pose proof careful_display_crypto.
  pose proof careful_display_top_cryptos.
  pose proof careful_compare_cryptos.
  pose proof careful_create_post.
  pose proof careful_save_menu.
  pose proof careful_display_openweather.
  careful_tac.
Qed.

Lemma careful_iteration : careful env (iteration env).
Proof.
  unfold iteration, show_options, print. pose proof careful_dispatch.
  careful_tac.
Qed.

(** The same closure, the actions included. *)
Ltac careful_all :=
  repeat first
    [ progress intros
    | simple apply careful_display_weather
    | simple apply careful_display_crypto
    | simple apply careful_display_top_cryptos
    | simple apply careful_display_openweather
    | simple apply careful_compare_cryptos
    | simple apply careful_compare_each
    | simple apply careful_compare_one
    | simple apply careful_create_post
    | simple apply careful_post_block
    | simple apply careful_save_menu
    | simple apply careful_get_weather
    | simple apply careful_get_crypto_price
    | simple apply careful_get_openweather
    | careful_leaf
    | simple apply careful_bind
    | simple apply careful_try_except
    | match goal with
      | |- careful _ (match exn_class ?e with _ => _ end) =>
          destruct (exn_class e) eqn:?
      | |- careful _ (if ?c then _ else _) => destruct c
      | |- careful _ (match ?x with _ => _ end) => destruct x
      | |- careful _ (let _ := _ in _) => cbv zeta
      end ].

(** *** When the requests of an action all fail *)

Lemma handles_bind {A B} (m : M A) (k : A -> M B) Q Q' n1 n2 :
  handles env m Q n1 ->
  (forall a, careful env (k a)) ->
  (forall a, Q a -> handles env (k a) Q' n2) ->
  handles env (bind m k) Q' (n1 + n2).
Proof.
  intros Hm Hc Hk w Hn Hall.
  assert (calls (snd (m w)) <= calls (snd (bind m k w)))%nat as Hmono.
  { unfold bind. destruct (m w) as [[a|e] w1]; simpl; [|lia].
    destruct (Hc a w1) as [(evs & _ & Hle & _) _]. exact Hle. }
  destruct (Hm w ltac:(lia)) as (a & w1 & Hrun & Ha & Hcalls & Hlen).
  { intros k0 Hk0. apply Hall. lia. }
  rewrite Hrun in Hmono. simpl in Hmono.
  assert (bind m k w = k a w1) as Hb by (unfold bind; by rewrite Hrun).
  rewrite Hb in Hall, Hmono.
  destruct (Hk a Ha w1 ltac:(lia)) as (b & w2 & Hrun2 & Hb2 & Hcalls2 & Hlen2).
  { intros k0 Hk0. apply Hall. lia. }
  exists b, w2. rewrite Hb, Hrun2.
  repeat split; [done | lia | lia].
Qed.

Lemma handles_weaken {A} (m : M A) (Q Q' : A -> Prop) n n' :
  handles env m Q n -> (forall a, Q a -> Q' a) -> (n <= n')%nat ->
  handles env m Q' n'.
Proof.
  intros Hm HQ Hn w Hw Hall.
  destruct (Hm w ltac:(lia) Hall) as (a & w1 & Hrun & Ha & Hcalls & Hlen).
  exists a, w1. repeat split; [done | by apply HQ | done | lia].
Qed.

Lemma handles_ret {A} (a : A) : handles env (ret a) (eq a) 0.
Proof. intros w _ _. exists a, w. repeat split; lia. Qed.

(** The form of [handles_bind] that keeps the goal's bounds. *)
Lemma handles_bind_le {A B} (m : M A) (k : A -> M B) Q Q' n n1 :
  handles env m Q n1 ->
  (n1 <= n)%nat ->
  (forall a, careful env (k a)) ->
  (forall a, Q a -> handles env (k a) Q' (n - n1)) ->
  handles env (bind m k) Q' n.
Proof.
  intros Hm Hle Hc Hk.
  apply (handles_weaken (bind m k) Q' Q' (n1 + (n - n1)) n);
    [by eapply handles_bind | done | lia].
Qed.

Lemma handles_emit e : handles env (emit e) (fun _ => True) 0.
Proof.
  intros w _ _. eexists tt, _. split; [reflexivity|].
  repeat split; simpl; lia.
Qed.

Lemma handles_print line : handles env (print line) (fun _ => True) 0.
Proof. apply handles_emit. Qed.

Lemma handles_input prompt :
  handles env (input prompt) (fun _ => True) 1.
Proof.
  intros w Hn _. unfold input.
  destruct (stdin w) as [|line rest] eqn:Hin; simpl in Hn; [lia|].
  eexists line, _. split; [reflexivity|].
  repeat split; simpl; lia.
Qed.

Lemma handles_get_key :
  handles env get_OPENWEATHER_API_KEY (fun _ => True) 0.
Proof.
  intros w _ _. eexists _, w. split; [reflexivity|]. repeat split; lia.
Qed.

Lemma handles_get_slot :
  handles env get_last_post_data (fun _ => True) 0.
Proof.
  intros w _ _. eexists _, w. split; [reflexivity|]. repeat split; lia.
Qed.

Lemma handles_save_to_json data filename :
  handles env (save_to_json env data filename) (fun _ => True) 0.
Proof.
  intros w _ _. unfold save_to_json.
  destruct (truthy data); simpl.
  - unfold try_except, bind, dump_to_file, print, emit.
    destruct (open_error env filename) as [msg|]; simpl;
      (eexists tt, _; split; [reflexivity|]; repeat split; simpl; lia).
  - eexists tt, _. split; [reflexivity|]. repeat split; simpl; lia.
Qed.

(** The [try] block around a request whose request fails: the handler
    prints and gives its value. *)
Lemma handles_request_block {A} ev label (k : pyval -> M A)
    (h : Exn -> M A) (a0 : A) :
  (forall v, careful env (k v)) ->
  (forall e, is_RequestException (exn_class e) = true ->
     forall w,
       h e w = (Ret a0, advance w 0 [EvPrint (label +:+ exn_msg e)])) ->
  (forall e, is_RequestException (exn_class e) = false ->
     forall w, h e w = (Raise e, w)) ->
  handles env
    (try_except
       (response <- http_call env ev ;;
        raise_for_status env response ;;;
        data <- response_json response ;;
        k data) h)
    (eq a0) 0.
Proof.
  intros Hk Hyes Hno w _ Hall.
  assert (Hh : forall e w0, calls (snd (h e w0)) = calls w0).
  { intros e w0. destruct (is_RequestException (exn_class e)) eqn:He.
    - by rewrite (Hyes e He).
    - by rewrite (Hno e He). }
  destruct (request_block_run env ev k h w)
    as [(Hf & e & He & Hmsg & Hrun) | (Hnf & [(v & Hrun) | (e & Hrun)])].
  - rewrite Hrun, (Hyes e He). eexists a0, _. split; [reflexivity|].
    repeat split; simpl; lia.
  - destruct Hnf. apply Hall. rewrite Hrun. split; [lia|].
    unfold try_except. destruct (Hk v (advance w 1 [ev])) as [(evs & _ & Hle & _) _].
    destruct (k v (advance w 1 [ev])) as [[a|e] w2]; simpl in *;
      [lia | rewrite Hh; lia].
  - destruct Hnf. apply Hall. rewrite Hrun, Hh. simpl. lia.
Qed.

Lemma handles_fetch_json ev label :
  handles env (fetch_json env (http_call env ev) label) (eq PNone) 0.
Proof.
  intros w Hn Hall. rewrite fetch_json_block in Hall |- *.
  revert w Hn Hall. apply (handles_request_block ev label).
  - intros v. apply careful_ret.
  - intros e He w0. rewrite He. unfold bind, print. by rewrite emit_advance.
  - intros e He w0. by rewrite He.
Qed.

Ltac handles_leaf :=
  first
    [ match goal with H : _ |- handles _ _ _ _ => solve [simple apply H] end
    | simple apply handles_emit
    | simple apply handles_print
    | simple apply handles_input
    | simple apply handles_get_key
    | simple apply handles_get_slot
    | simple apply handles_save_to_json
    | simple apply handles_fetch_json
    | simple apply handles_ret ].

Ltac handles_tac :=
  repeat first
    [ progress intros
    | simple eapply handles_bind_le;
        [ solve [handles_leaf] | cbn; lia | solve [careful_all]
        | intros ? ?; subst; cbn ]
    | simple eapply handles_weaken;
        [ solve [handles_leaf] | solve [intros; subst; cbn; auto] | cbn; lia ]
    | match goal with
      | |- handles _ (bind (match ?x with _ => _ end) _) _ _ =>
          simple eapply (handles_bind_le _ _ (fun _ => True) _ _ 0);
            [ destruct x | cbn; lia | solve [careful_all] | intros ? ?; cbn ]
      end
    | match goal with
      | |- handles _ (if ?c then _ else _) _ _ => destruct c
      | |- handles _ (match ?x with _ => _ end) _ _ => destruct x
      | |- handles _ (let _ := _ in _) _ _ => cbv zeta
      end ].

Lemma handles_get_weather city :
  handles env (get_weather env city) (eq PNone) 0.
Proof.
  unfold get_weather, requests_get, print.
  destruct (assoc _ CITIES) as [[lat lon]|]; handles_tac.
Qed.

Lemma handles_get_crypto_price coin :
  handles env (get_crypto_price env coin) (eq PNone) 0.
Proof. unfold get_crypto_price, requests_get. handles_tac. Qed.

Lemma handles_get_openweather city :
  handles env (get_openweather env city) (eq PNone) 0.
Proof. unfold get_openweather, requests_get, print. handles_tac. Qed.

Lemma handles_display_weather city :
  handles env (display_weather env city) (fun _ => True) 0.
Proof.
  unfold display_weather. pose proof handles_get_weather. handles_tac.
Qed.

Lemma handles_display_crypto coin :
  handles env (display_crypto env coin) (fun _ => True) 0.
Proof.
  unfold display_crypto, print. pose proof handles_get_crypto_price.
  handles_tac.
Qed.

Lemma handles_display_top_cryptos :
  handles env (display_top_cryptos env) (fun _ => True) 0.
Proof.
  unfold display_top_cryptos, get_top_cryptos, requests_get.
  pose proof careful_display_rows. handles_tac.
Qed.

Lemma handles_display_openweather city :
  handles env (display_openweather env city) (fun _ => True) 0.
Proof.
  unfold display_openweather. pose proof handles_get_openweather.
  handles_tac.
Qed.

Lemma handles_compare_one coin :
  handles env (compare_one env coin) (fun _ => True) 0.
Proof.
  unfold compare_one, print. pose proof handles_get_crypto_price.
  handles_tac.
Qed.

Lemma handles_compare_each coins :
  handles env (compare_each env coins) (fun _ => True) 0.
Proof.
  induction coins as [|coin rest IH]; cbn [compare_each]; [handles_tac|].
  pose proof handles_compare_one. handles_tac.
Qed.

Lemma handles_compare_cryptos coins :
  handles env (compare_cryptos env coins) (fun _ => True) 0.
Proof.
  unfold compare_cryptos, print. pose proof handles_compare_each.
  handles_tac.
Qed.

Lemma handles_post_block url payload timeout :
  handles env
    (try_except
       (response <- http_call env (EvPost url payload timeout) ;;
        raise_for_status env response ;;;
        data <- response_json response ;;
        set_last_post_data data ;;;
        print (nl +:+ "Post successfully created!") ;;;
        post_id <- get_method data "id" PNone ;;
        print ("Post ID: " +:+ py_str env post_id) ;;;
        post_title <- get_method data "title" PNone ;;
        print ("Title: " +:+ py_str env post_title) ;;;
        post_body <- get_method data "body" PNone ;;
        print ("Body: " +:+ py_str env post_body))
       (fun e =>
          if is_RequestException (exn_class e)
          then print ("Failed to create post: " +:+ exn_msg e)
          else raise e))
    (fun _ => True) 0.
Proof.
  eapply handles_weaken;
    [apply (handles_request_block _ "Failed to create post: " _ _ tt)
    | done | lia].
  - careful_all.
  - intros e He w0. rewrite He. unfold print. by rewrite emit_advance.
  - intros e He w0. by rewrite He.
Qed.

Lemma handles_create_post : handles env (create_post env) (fun _ => True) 2.
Proof.
  unfold create_post, requests_post. pose proof handles_post_block.
  handles_tac.
Qed.

(** What choice 7 does once the sub-choice is read. *)
Lemma handles_save_choice sub_choice :
  handles env
    (if String.eqb sub_choice "1" then
       coin_line <- input "Enter crypto name to save: " ;;
       let coin := PyStr.strip coin_line in
       data <- get_crypto_price env coin ;;
       save_to_json env data (coin +:+ "_data.json")
     else if String.eqb sub_choice "2" then
       city_line <- input "Enter city name to save: " ;;
       let city := PyStr.strip city_line in
       data <- get_weather env city ;;
       save_to_json env data (city +:+ "_weather.json")
     else if String.eqb sub_choice "3" then
       slot <- get_last_post_data ;;
       match slot with
       | Some data => save_to_json env data "last_post.json"
       | None => print "No POST data available to save."
       end
     else print "Invalid choice.")
    (fun _ => True)
    (if String.eqb sub_choice "1" || String.eqb sub_choice "2"
     then 1 else 0).
Proof.
  pose proof handles_get_crypto_price.
  pose proof handles_get_weather.
  destruct (String.eqb sub_choice "1"); cbn [orb]; [handles_tac|].
  destruct (String.eqb sub_choice "2"); [handles_tac|].
  handles_tac.
Qed.

Lemma save_menu_input w sub rest :
  stdin w = sub :: rest ->
  save_menu env w =
    (if String.eqb (PyStr.strip sub) "1" then
       coin_line <- input "Enter crypto name to save: " ;;
       let coin := PyStr.strip coin_line in
       data <- get_crypto_price env coin ;;
       save_to_json env data (coin +:+ "_data.json")
     else if String.eqb (PyStr.strip sub) "2" then
       city_line <- input "Enter city name to save: " ;;
       let city := PyStr.strip city_line in
       data <- get_weather env city ;;
       save_to_json env data (city +:+ "_weather.json")
     else if String.eqb (PyStr.strip sub) "3" then
       slot <- get_last_post_data ;;
       match slot with
       | Some data => save_to_json env data "last_post.json"
       | None => print "No POST data available to save."
       end
     else print "Invalid choice.")
    (after_input w rest 0 save_menu_events).
Proof.
  intros Hin. unfold save_menu.
  rewrite !bind_print.
  erewrite bind_input by exact Hin.
  rewrite !after_after. reflexivity.
Qed.

(** Every choice but 7 asks for a number of lines that is known from the
    choice alone. *)
Lemma lines_asked_static choice rest :
  choice <> "7" -> lines_asked choice rest = lines_asked choice [].
Proof.
  intros H7. unfold lines_asked.
  destruct (String.eqb choice "7") eqn:E7;
    [by apply String.eqb_eq in E7 | reflexivity].
Qed.

Lemma handles_dispatch_static choice :
  choice <> "7" ->
  handles env (dispatch env choice)
          (fun again => again = negb (String.eqb choice "9"))
          (lines_asked choice []).
Proof.
  intros H7. unfold dispatch, lines_asked.
  pose proof handles_display_weather.
  pose proof handles_display_crypto.
  pose proof handles_display_top_cryptos.
  pose proof handles_compare_cryptos.
  pose proof handles_create_post.
  pose proof handles_display_openweather.
  repeat match goal with
         | |- context [String.eqb choice ?s] =>
             let E := fresh "E" in
             destruct (String.eqb choice s) eqn:E;
               [ apply String.eqb_eq in E; subst choice;
                 first [ by destruct H7
                       | cbn [String.eqb Ascii.eqb Bool.eqb orb negb];
                         handles_tac ]
               | ]
         end.
  cbn [orb negb]. handles_tac.
Qed.

(** Whatever the choice: with the lines it asks for on the input and every
    request it issues failing, [dispatch] returns; with [False] on choice
    9 only. *)
Lemma dispatch_handled choice w :
  (lines_asked choice (stdin w) <= length (stdin w))%nat ->
  (forall k, (calls w <= k < calls (snd (dispatch env choice w)))%nat ->
     request_fails env k) ->
  exists w',
    dispatch env choice w = (Ret (negb (String.eqb choice "9")), w').
Proof.
  intros Hlines Hall.
  destruct (decide (choice = "7")) as [->|H7].
  - destruct (stdin w) as [|sub rest] eqn:Hin;
      [vm_compute in Hlines; lia|].
    assert (Hd : dispatch env "7" w =
                 bind (save_menu env) (fun _ => ret true) w) by reflexivity.
    rewrite Hd in Hall |- *. unfold bind in Hall |- *.
    rewrite (save_menu_input w sub rest Hin) in Hall |- *.
    destruct (handles_save_choice (PyStr.strip sub)
                (after_input w rest 0 save_menu_events))
      as (a & w2 & Hrun & _).
    + cbn [lines_asked String.eqb Ascii.eqb Bool.eqb orb length] in Hlines.
      cbn [stdin after_input].
      destruct (String.eqb (PyStr.strip sub) "1"
                || String.eqb (PyStr.strip sub) "2"); lia.
    + intros k Hk. apply Hall.
      match goal with
      | |- context [let (o, w') := ?m ?W in _] =>
          destruct (m W) as [[[]|e] w']
      end; simpl in *; lia.
    + rewrite Hrun. by eexists.
  - destruct (handles_dispatch_static choice H7 w) as (again & w' & Hrun & -> & _);
      [by rewrite <- (lines_asked_static choice (stdin w)) | exact Hall |].
    by exists w'.
Qed.


End CarefulActions.



(** * Further properties *)

(** ** What a computation leaves alone, and how many requests it issues *)

Ltac pure_tac2 :=
  unfold pure, contains, len, slice_to, subscript, subscript0, get_method,
    iterate, format, raise_for_status, response_json,
    Part5.weather_condition, Part5.title_method, ret, raise;
  repeat case_match; eexists; intros; reflexivity.

Section Keeps.
Context {B : Type} (proj : World -> B).

Lemma keeps_pure {A} (m : M A) : pure m -> keeps proj m.
Proof. intros [r H] w. by rewrite H. Qed.

Lemma keeps_bind {A C} (m : M A) (k : A -> M C) :
  keeps proj m -> (forall a, keeps proj (k a)) -> keeps proj (bind m k).
Proof.
  intros Hm Hk w. unfold bind. specialize (Hm w).
  destruct (m w) as [[a|e] w']; simpl in *; [|done].
  by rewrite Hk.
Qed.

Lemma keeps_try_except {A} (m : M A) (h : Exn -> M A) :
  keeps proj m -> (forall e, keeps proj (h e)) -> keeps proj (try_except m h).
Proof.
  intros Hm Hh w. unfold try_except. specialize (Hm w).
  destruct (m w) as [[a|e] w']; simpl in *; [done|].
  by rewrite Hh.
Qed.

End Keeps.

Lemma pure_contains item v : pure (contains item v).
Proof. pure_tac2. Qed.
Lemma pure_len v : pure (len v).
Proof. pure_tac2. Qed.
Lemma pure_slice_to n v : pure (slice_to n v).
Proof. pure_tac2. Qed.

(** The primitives: whether one of them keeps a component is a matter of
    computing both sides. *)
Ltac keeps_prim :=
  let w := fresh "w" in
  intros w;
  unfold print, logging, sleep, emit, input, requests_get, requests_post,
    http_call, Part5.dump_to_file, Part5.get_OPENWEATHER_API_KEY,
    Part5.get_last_post_data, Part5.set_last_post_data,
    Part5.set_OPENWEATHER_API_KEY, Part5.pending_lines;
  repeat case_match; reflexivity.

Ltac keeps_tac :=
  repeat first
    [ progress intros
    | match goal with H : _ |- keeps _ _ => solve [simple apply H] end
    | simple apply @keeps_bind
    | simple apply @keeps_try_except
    | match goal with
      | |- keeps _ (if ?c then _ else _) => destruct c
      | |- keeps _ (match ?x with _ => _ end) => destruct x
      | |- keeps _ (let _ := _ in _) => cbv zeta
      end
    | solve [keeps_prim]
    | solve [simple apply @keeps_pure; pure_tac2] ].

Section Counting.
Variable env : Env.

Lemma keeps_at_most {A} (m : M A) : keeps calls m -> at_most 0 m.
Proof. intros H w. rewrite H. lia. Qed.

Lemma keeps_exactly {A} (m : M A) : keeps calls m -> exactly 0 m.
Proof. intros H w. rewrite H. lia. Qed.

Lemma exactly_at_most n {A} (m : M A) : exactly n m -> at_most n m.
Proof. intros H w. rewrite H. lia. Qed.

Lemma at_most_weaken n n' {A} (m : M A) :
  (n <= n')%nat -> at_most n m -> at_most n' m.
Proof. intros Hle H w. specialize (H w). lia. Qed.

Lemma at_most_bind a b {A C} (m : M A) (k : A -> M C) :
  at_most a m -> (forall x, at_most b (k x)) -> at_most (a + b) (bind m k).
Proof.
  intros Hm Hk w. unfold bind. specialize (Hm w).
  destruct (m w) as [[x|e] w']; simpl in *; [|lia].
  specialize (Hk x w'). lia.
Qed.

Lemma at_most_try_except a b {A} (m : M A) (h : Exn -> M A) :
  at_most a m -> (forall e, at_most b (h e)) ->
  at_most (a + b) (try_except m h).
Proof.
  intros Hm Hh w. unfold try_except. specialize (Hm w).
  destruct (m w) as [[x|e] w']; simpl in *; [lia|].
  specialize (Hh e w'). lia.
Qed.

Lemma exactly_http_call ev : exactly 1 (http_call env ev).
Proof.
  intros w. unfold http_call. destruct (net env (calls w)); simpl; lia.
Qed.

(** A request followed, on every path, by steps that issue none. *)
Lemma exactly_bind_keeps n {A C} (m : M A) (k : A -> M C) :
  exactly n m -> (forall x, keeps calls (k x)) -> exactly n (bind m k).
Proof.
  intros Hm Hk w. unfold bind. specialize (Hm w).
  destruct (m w) as [[x|e] w']; simpl in *; [|done].
  by rewrite Hk.
Qed.

Lemma exactly_emit_bind n {C} ev (k : M C) :
  exactly n k -> exactly n (bind (emit ev) (fun _ => k)).
Proof. intros Hk w. unfold bind, emit. by rewrite Hk. Qed.

Lemma exactly_try_keeps n {A} (m : M A) (h : Exn -> M A) :
  exactly n m -> (forall e, keeps calls (h e)) -> exactly n (try_except m h).
Proof.
  intros Hm Hh w. unfold try_except. specialize (Hm w).
  destruct (m w) as [[x|e] w']; simpl in *; [done|].
  by rewrite Hh.
Qed.

Lemma exactly_fetch_json ev label :
  exactly 1 (fetch_json env (http_call env ev) label).
Proof.
  unfold fetch_json.
  apply exactly_try_keeps; [apply exactly_bind_keeps|]; [apply exactly_http_call| |];
    keeps_tac.
Qed.

End Counting.

(** ** The request wrapper of part 4, whatever the replies *)

Section WrapperBounds.
Import Part4.
Variable env : Env.
Variables (url : string) (timeout retries : Z).

Lemma keeps_calls_on_error attempt e :
  keeps calls (on_error url retries attempt e).
Proof. unfold on_error. keeps_tac. Qed.

(** One pass through the loop body issues one request, however it ends. *)
Lemma exactly_attempt_body attempt :
  exactly 1 (attempt_body env url timeout retries attempt).
Proof.
  unfold attempt_body, logging, requests_get.
  apply exactly_try_keeps; [|apply keeps_calls_on_error].
  apply exactly_emit_bind.
  apply exactly_bind_keeps; [apply exactly_http_call|].
  keeps_tac.
Qed.

Lemma attempts_at_most n attempt :
  at_most n (attempts env url timeout retries n attempt).
Proof.
  revert attempt. induction n as [|n IH]; intros attempt.
  - apply keeps_at_most. simpl. keeps_tac.
  - simpl. apply (at_most_bind 1 n).
    + apply exactly_at_most, exactly_attempt_body.
    + intros [res|]; [|apply IH].
      apply (at_most_weaken 0); [lia|]. apply keeps_at_most. keeps_tac.
Qed.

(** X1.  Whatever the replies, and whatever [retries] is, [safe_api_request]
    issues at most [max 0 retries] requests. *)
Theorem safe_api_request_at_most :
  at_most (Z.to_nat retries) (safe_api_request env url timeout retries).
Proof.
  unfold safe_api_request, logging.
  apply (at_most_bind 0 (Z.to_nat retries)); [|intros; apply attempts_at_most].
  apply keeps_at_most. keeps_tac.
Qed.

(** X2.  An exception outside the [RequestException] family raised by
    [requests.get] is not handled by any [except] clause of the wrapper: it
    escapes [safe_api_request] at the first attempt, after one request,
    without a retry and without an error being logged. *)
Theorem foreign_exception_escapes w e :
  1 <= retries ->
  net env (calls w) = Raises e ->
  is_RequestException (exn_class e) = false ->
  safe_api_request env url timeout retries w =
    (Raise e,
     advance w 1
       [EvLog INFO ("Request started: " +:+ url);
        EvLog INFO ("Attempt " +:+ pretty 1 +:+ " for " +:+ url);
        EvGet url [] (Some timeout)]).
Proof.
  intros Hr Hnet Hre.
  assert (is_ConnectionError_or_Timeout (exn_class e) = false) as Htr
    by (destruct (exn_class e); first [reflexivity | discriminate]).
  assert (is_HTTPError (exn_class e) = false) as Hhe
    by (destruct (exn_class e); first [reflexivity | discriminate]).
  unfold safe_api_request, bind, logging. rewrite emit_advance.
  destruct (Z.to_nat retries) as [|n] eqn:Hn; [lia|].
  rewrite attempts_S.
  unfold attempt_body, try_except, bind, logging, emit, requests_get,
    http_call; simpl.
  rewrite Nat.add_0_r, Hnet; simpl.
  unfold on_error. rewrite Htr, Hhe, Hre.
  unfold raise, advance; simpl.
  repeat rewrite <- app_assoc; simpl; repeat f_equal; lia.
Qed.

(** X3.  A request exception raised by [requests.get] that is neither a
    connection error, a timeout nor an [HTTPError] (an invalid URL, too many
    redirects, ...) ends the call at the first attempt: the failure dict
    says "Request failed: " followed by the text of the exception, one
    request was issued, nothing slept. *)
Theorem other_request_exception_no_retry w e :
  1 <= retries ->
  net env (calls w) = Raises e ->
  is_RequestException (exn_class e) = true ->
  is_ConnectionError_or_Timeout (exn_class e) = false ->
  is_HTTPError (exn_class e) = false ->
  safe_api_request env url timeout retries w =
    (Ret (ApiFailure ("Request failed: " +:+ exn_msg e)),
     advance w 1
       [EvLog INFO ("Request started: " +:+ url);
        EvLog INFO ("Attempt " +:+ pretty 1 +:+ " for " +:+ url);
        EvGet url [] (Some timeout);
        EvLog ERROR ("Request exception for " +:+ url +:+ ": " +:+
                     exn_msg e)]).
Proof.
  intros Hr Hnet Hre Htr Hhe.
  unfold safe_api_request, bind, logging. rewrite emit_advance.
  destruct (Z.to_nat retries) as [|n] eqn:Hn; [lia|].
  rewrite attempts_S, (attempt_body_other_request_exception _ _ _ _ _ _ e);
    [| simpl; rewrite Nat.add_0_r; exact Hnet | exact Hre | exact Htr
     | exact Hhe].
  rewrite advance_advance. reflexivity.
Qed.

End WrapperBounds.

Lemma foreign_exception_escapes_witness :
  Part4.safe_api_request
    (env_of (fun _ => Raises (mkExn ValueError "bad timeout" None)) None)
    "https://example.org" 5 3 (start []) =
    (Raise (mkExn ValueError "bad timeout" None),
     advance (start []) 1
       [EvLog INFO ("Request started: " +:+ "https://example.org");
        EvLog INFO ("Attempt " +:+ pretty 1 +:+ " for " +:+
                    "https://example.org");
        EvGet "https://example.org" [] (Some 5)]).
Proof.
  apply foreign_exception_escapes; [lia | reflexivity | reflexivity].
Defined.

Lemma other_request_exception_no_retry_witness :
  Part4.safe_api_request
    (env_of (fun _ => Raises (mkExn InvalidURL "Invalid URL" None)) None)
    "https://example.org" 5 3 (start []) =
    (Ret (Part4.ApiFailure ("Request failed: " +:+ "Invalid URL")),
     advance (start []) 1
       [EvLog INFO ("Request started: " +:+ "https://example.org");
        EvLog INFO ("Attempt " +:+ pretty 1 +:+ " for " +:+
                    "https://example.org");
        EvGet "https://example.org" [] (Some 5);
        EvLog ERROR ("Request exception for " +:+ "https://example.org" +:+
                     ": " +:+ "Invalid URL")]).
Proof.
  apply (other_request_exception_no_retry _ _ _ 3 (start [])
           (mkExn InvalidURL "Invalid URL" None));
    [lia | reflexivity | reflexivity | reflexivity | reflexivity].
Defined.

Lemma safe_api_request_no_attempt_witness :
  Part4.safe_api_request (env_of net_down None) "https://example.org" 5 0
                         (start []) =
    (Ret Part4.ApiNone,
     advance (start []) 0
       [EvLog INFO ("Request started: " +:+ "https://example.org")]).
Proof.
  apply safe_api_request_no_attempt. lia.
Defined.

(** ** Validation of a ticker document *)

Section Validation.
Import Part4Demos.

(** X4.  [validate_crypto_response] gives a verdict for every JSON value:
    its [except TypeError] covers all that goes wrong on a value that is not
    the expected nest of dicts.  It raises nothing and touches nothing. *)
Theorem validate_crypto_response_total data :
  exists verdict,
    forall w, validate_crypto_response data w = (Ret verdict, w).
Proof.
  unfold validate_crypto_response, try_except, bind, contains, subscript,
    ret, raise.
  destruct data as [| | | | s | l | d]; simpl; try (eexists; reflexivity).
  - destruct (PyStr.occurs "quotes" s); simpl; eexists; reflexivity.
  - destruct (existsb _ l); simpl; eexists; reflexivity.
  - destruct (assoc "quotes" d) as [q|]; simpl; [|eexists; reflexivity].
    destruct q as [| | | | s | l | q]; simpl; try (eexists; reflexivity).
    + destruct (PyStr.occurs "USD" s); simpl; eexists; reflexivity.
    + destruct (existsb _ l); simpl; eexists; reflexivity.
    + destruct (assoc "USD" q) as [u|]; simpl; [|eexists; reflexivity].
      destruct u as [| | | | s | l | u]; simpl; try (eexists; reflexivity).
      * destruct (PyStr.occurs "price" s); simpl; [|eexists; reflexivity].
        destruct (PyStr.occurs "percent_change_24h" s); simpl;
          eexists; reflexivity.
      * destruct (existsb _ l); simpl; [|eexists; reflexivity].
        destruct (existsb _ l); simpl; eexists; reflexivity.
      * destruct (assoc "price" u); simpl; [|eexists; reflexivity].
        destruct (assoc "percent_change_24h" u); simpl; eexists; reflexivity.
Qed.

(** X5.  On a document whose ["quotes"] and ["quotes"]["USD"] are dicts
    the verdict depends on the two required fields only, and the first
    missing one, ["price"] before ["percent_change_24h"], is the one
    named in the reason. *)
Theorem validate_crypto_response_fields d q u w :
  assoc "quotes" d = Some (PDict q) ->
  assoc "USD" q = Some (PDict u) ->
  validate_crypto_response (PDict d) w = (Ret (verdict_on u), w).
Proof.
  intros Hq Hu.
  unfold validate_crypto_response, try_except, bind, contains, subscript,
    ret, raise, verdict_on.
  rewrite Hq; simpl. rewrite Hu; simpl.
  destruct (assoc "price" u); simpl; [|reflexivity].
  destruct (assoc "percent_change_24h" u); reflexivity.
Qed.

(** What a passing verdict is worth, read off the function line by line. *)
Lemma validated_reads data w w' :
  validate_crypto_response data w = (Ret (true, None), w') ->
  exists quotes usd,
    subscript data "quotes" w = (Ret quotes, w)
    /\ subscript quotes "USD" w = (Ret usd, w)
    /\ contains "price" usd w = (Ret true, w)
    /\ contains "percent_change_24h" usd w = (Ret true, w).
Proof.
  unfold validate_crypto_response, try_except, bind, contains, subscript,
    ret, raise.
  destruct data as [| | | | s | l | d]; simpl; try discriminate.
  - destruct (PyStr.occurs "quotes" s); simpl; discriminate.
  - destruct (existsb _ l); simpl; discriminate.
  - destruct (assoc "quotes" d) as [q|]; simpl; [|discriminate].
    destruct q as [| | | | s | l | q]; simpl; try discriminate.
    + destruct (PyStr.occurs "USD" s); simpl; discriminate.
    + destruct (existsb _ l); simpl; discriminate.
    + destruct (assoc "USD" q) as [u|] eqn:Hu; simpl; [|discriminate].
      intros H. exists (PDict q), u. simpl. rewrite Hu.
      split; [reflexivity | split; [reflexivity|]].
      destruct u as [| | | | s | l | u]; simpl in *; try discriminate.
      * destruct (PyStr.occurs "price" s); simpl in *; [|discriminate].
        destruct (PyStr.occurs "percent_change_24h" s); simpl in *;
          [done | discriminate].
      * destruct (existsb (fun v => match v with
                                    | PStr s => String.eqb s "price"
                                    | _ => false
                                    end) l); simpl in *; [|discriminate].
        destruct (existsb (fun v => match v with
                                    | PStr s =>
                                        String.eqb s "percent_change_24h"
                                    | _ => false
                                    end) l); simpl in *;
          [done | discriminate].
      * destruct (assoc "price" u); simpl in *; [|discriminate].
        destruct (assoc "percent_change_24h" u); simpl in *;
          [done | discriminate].
Qed.

(** X6.  When the verdict is [(True, None)], the access
    [data["quotes"]["USD"]] that [fetch_crypto_safely] makes next succeeds,
    and both required fields test as present in what it gives. *)
Theorem validate_crypto_response_sound data w :
  fst (validate_crypto_response data w) = Ret (true, None) ->
  exists usd,
    (quotes <- subscript data "quotes" ;; subscript quotes "USD") w
      = (Ret usd, w)
    /\ contains "price" usd w = (Ret true, w)
    /\ contains "percent_change_24h" usd w = (Ret true, w).
Proof.
  intros H.
  destruct (validate_crypto_response data w) as [r w'] eqn:Hrun.
  simpl in H; subst r.
  destruct (validated_reads _ _ _ Hrun) as (quotes & usd & Hq & Hu & Hp & Hc).
  exists usd. unfold bind. rewrite Hq. auto.
Qed.

End Validation.

(** ** The demos of part 4 *)

Section Returns.

Lemma returns_bind {A C} (m : M A) (k : A -> M C) :
  returns m -> (forall a, returns (k a)) -> returns (bind m k).
Proof.
  intros Hm Hk w. unfold bind. destruct (Hm w) as [a Ha].
  destruct (m w) as [[a'|e] w']; simpl in *; [|discriminate].
  apply Hk.
Qed.

(** A [try] whose handlers deal with every exception ends normally. *)
Lemma returns_try_except {A} (m : M A) (h : Exn -> M A) :
  (forall e, returns (h e)) -> returns (try_except m h).
Proof.
  intros Hh w. unfold try_except.
  destruct (m w) as [[a|e] w']; simpl; [by eexists | apply Hh].
Qed.

Lemma returns_emit ev : returns (emit ev).
Proof. intros w. by eexists. Qed.

Lemma returns_ret {A} (a : A) : returns (ret a).
Proof. intros w. by eexists. Qed.

End Returns.

Section Demos.
Import Part4 Part4Demos.
Variable env : Env.

(** The first attempt meets a response with a JSON body and no error
    status. *)
Lemma safe_api_request_first_success url timeout retries w st v :
  1 <= retries ->
  net env (calls w) = Responds st (Json v) ->
  is_error_status st = false ->
  safe_api_request env url timeout retries w =
    (Ret (ApiSuccess v),
     advance w 1
       [EvLog INFO ("Request started: " +:+ url);
        EvLog INFO ("Attempt " +:+ pretty 1 +:+ " for " +:+ url);
        EvGet url [] (Some timeout);
        EvLog INFO ("Request successful (" +:+ pretty st +:+
                    ") for " +:+ url)]).
Proof.
  intros Hr Hnet Hst.
  unfold safe_api_request, bind, logging. rewrite emit_advance.
  destruct (Z.to_nat retries) as [|n] eqn:Hn; [lia|].
  rewrite attempts_S, (attempt_body_success _ _ _ _ _ _ st v);
    [| simpl; rewrite Nat.add_0_r; exact Hnet | exact Hst].
  rewrite advance_advance. reflexivity.
Qed.

(** X7.  [validate_json_response] never raises: its last handler is
    [except Exception].  Whatever the reply to its one request (an
    exception of any class, any status, any body, a document of any shape),
    it ends normally, having issued exactly that one request. *)
Theorem validate_json_response_never_raises :
  returns (validate_json_response env)
  /\ exactly 1 (validate_json_response env).
Proof.
  unfold validate_json_response, print, requests_get. split.
  - apply returns_bind; [apply returns_emit|]. intros _.
    apply returns_try_except. intros e.
    destruct (exn_class e); apply returns_emit.
  - apply exactly_emit_bind.
    apply exactly_try_keeps;
      [apply exactly_bind_keeps; [apply exactly_http_call|] |].
    + assert (forall names data, keeps calls (missing_fields names data))
        as Hmissing.
      { induction names as [|f names IH]; intros data; simpl; keeps_tac. }
      keeps_tac.
    + keeps_tac.
Qed.

Lemma demo_one_returns desc url :
  (forall k, requests_reply (net env k)) ->
  returns (demo_one env desc url).
Proof.
  intros Hall w. unfold demo_one. rewrite bind_print. cbv zeta.
  set (w1 := after_input w _ _ _).
  set (timeout := if PyStr.occurs "Timeout" desc then 1 else 5).
  unfold bind at 1.
  assert (exists res w',
             safe_api_request env url timeout 3 w1 = (Ret res, w')
             /\ res <> ApiNone) as (res & w' & Hrun & Hres).
  { unfold safe_api_request, bind, logging. rewrite emit_advance.
    apply attempts_return; [simpl; lia | simpl; lia | exact Hall]. }
  rewrite Hrun. destruct res; [by eexists | by eexists | done].
Qed.

Lemma demo_one_at_most desc url : at_most 3 (demo_one env desc url).
Proof.
  unfold demo_one, print. cbv zeta.
  apply (at_most_bind 0 3); [apply keeps_at_most; keeps_tac|]. intros _.
  apply (at_most_bind 3 0).
  { unfold safe_api_request, logging.
    apply (at_most_bind 0 3); [apply keeps_at_most; keeps_tac|]. intros _.
    apply (attempts_at_most env url _ 3 3). }
  intros res. apply keeps_at_most. keeps_tac.
Qed.

Lemma demo_each_returns ts :
  (forall k, requests_reply (net env k)) -> returns (demo_each env ts).
Proof.
  intros Hall. induction ts as [|[desc url] ts IH]; simpl.
  - apply returns_ret.
  - apply returns_bind; [by apply demo_one_returns | intros _; exact IH].
Qed.

Lemma demo_each_at_most ts : at_most (3 * length ts) (demo_each env ts).
Proof.
  induction ts as [|[desc url] ts IH]; simpl length.
  - apply keeps_at_most. simpl. keeps_tac.
  - simpl demo_each.
    replace (3 * S (length ts))%nat with (3 + 3 * length ts)%nat by lia.
    apply at_most_bind; [apply demo_one_at_most | intros _; exact IH].
Qed.


End Demos.

Section FetchCryptoSafely.
Import Part4 Part4Demos.
Variable env : Env.

(** X9.  A blank answer to the prompt of [fetch_crypto_safely] is refused
    before any request is made. *)
Theorem fetch_crypto_safely_blank w line rest :
  stdin w = line :: rest ->
  PyStr.strip line = "" ->
  fetch_crypto_safely env w =
    (Ret tt,
     after_input w rest 0
       [EvPrint (nl +:+ "=== Safe Crypto Price Checker ===" +:+ nl);
        EvPrompt "Enter coin (btc-bitcoin, eth-ethereum): ";
        EvPrint "Error: Please enter a coin name."]).
Proof.
  intros Hin Hblank. unfold fetch_crypto_safely.
  rewrite bind_print.
  erewrite bind_input by exact Hin.
  cbv zeta. rewrite Hblank.
  change (PyStr.is_empty (PyStr.lower "")) with true. cbv iota.
  rewrite print_run, !after_after. reflexivity.
Qed.

Lemma fetch_crypto_safely_fetched w line rest st data :
  stdin w = line :: rest ->
  PyStr.is_empty (PyStr.lower (PyStr.strip line)) = false ->
  net env (calls w) = Responds st (Json data) ->
  is_error_status st = false ->
  fetch_crypto_safely env w =
    bind (validate_crypto_response data)
      (fun verdict =>
         let '(is_valid, error) := verdict in
         if negb is_valid
         then print (nl +:+ "Invalid crypto data: " +:+ default "None" error)
         else
           quotes <- subscript data "quotes" ;;
           usd <- subscript quotes "USD" ;;
           name <- subscript data "name" ;;
           symbol <- subscript data "symbol" ;;
           print (nl +:+ py_str env name +:+ " (" +:+
                  py_str env symbol +:+ ")") ;;;
           price <- subscript usd "price" ;;
           f1 <- format env price ",.2f" ;;
           print ("Price: $" +:+ f1) ;;;
           change <- subscript usd "percent_change_24h" ;;
           f2 <- format env change "+.2f" ;;
           print ("24h Change: " +:+ f2 +:+ "%"))
      (fetched w rest (PyStr.lower (PyStr.strip line)) st).
Proof.
  intros Hin Hcoin Hnet Hst. unfold fetch_crypto_safely.
  rewrite bind_print.
  erewrite bind_input by exact Hin.
  cbv zeta. rewrite Hcoin.
  unfold bind at 1.
  rewrite (safe_api_request_first_success env _ _ _ _ st data);
    [| lia | simpl; rewrite !Nat.add_0_r; exact Hnet | exact Hst].
  rewrite advance_after, !after_after. reflexivity.
Qed.

(** X10.  A document that [validate_crypto_response] rejects is reported
    with the reason and nothing of it is read: [fetch_crypto_safely] prints
    "Invalid crypto data: <reason>" and ends normally. *)
Theorem fetch_crypto_safely_invalid_document w line rest st data reason :
  stdin w = line :: rest ->
  PyStr.is_empty (PyStr.lower (PyStr.strip line)) = false ->
  net env (calls w) = Responds st (Json data) ->
  is_error_status st = false ->
  (forall w0,
     validate_crypto_response data w0 = (Ret (false, Some reason), w0)) ->
  fetch_crypto_safely env w =
    (Ret tt,
     advance (fetched w rest (PyStr.lower (PyStr.strip line)) st) 0
       [EvPrint (nl +:+ "Invalid crypto data: " +:+ reason)]).
Proof.
  intros Hin Hcoin Hnet Hst Hbad.
  rewrite (fetch_crypto_safely_fetched _ _ _ _ _ Hin Hcoin Hnet Hst).
  unfold bind at 1. rewrite Hbad.
  change (negb false) with true. cbv iota.
  unfold print. rewrite emit_advance. reflexivity.
Qed.

(** X11.  The validation looks at ["quotes"]["USD"] only.  A document that
    passes it but has no ["name"] makes [fetch_crypto_safely] raise
    [KeyError] at the first line it prints from the document. *)
Theorem fetch_crypto_safely_unvalidated_name w line rest st d :
  stdin w = line :: rest ->
  PyStr.is_empty (PyStr.lower (PyStr.strip line)) = false ->
  net env (calls w) = Responds st (Json (PDict d)) ->
  is_error_status st = false ->
  (forall w0,
     validate_crypto_response (PDict d) w0 = (Ret (true, None), w0)) ->
  assoc "name" d = None ->
  fetch_crypto_safely env w =
    (Raise (mkExn KeyError "'name'" None),
     fetched w rest (PyStr.lower (PyStr.strip line)) st).
Proof.
  intros Hin Hcoin Hnet Hst Hok Hname.
  rewrite (fetch_crypto_safely_fetched _ _ _ _ _ Hin Hcoin Hnet Hst).
  unfold bind at 1. rewrite Hok.
  change (negb true) with false. cbv iota.
  destruct (validated_reads _ _ _
              (Hok (fetched w rest (PyStr.lower (PyStr.strip line)) st)))
    as (quotes & usd & Hq & Hu & _).
  unfold bind at 1. rewrite Hq.
  unfold bind at 1. rewrite Hu.
  unfold bind at 1. unfold subscript at 1. rewrite Hname. reflexivity.
Qed.

End FetchCryptoSafely.

(** ** The actions of part 3 *)

Section Part3Actions.
Import Part3.
Variable env : Env.

(** A request that fails, inside the [try] the actions share: the handler
    runs on a request exception, after the one request. *)
Lemma failed_request {A} url params timeout (k : pyval -> M A) h w :
  request_fails env (calls w) ->
  exists e,
    is_RequestException (exn_class e) = true
    /\ try_except
         (response <- requests_get env url params timeout ;;
          raise_for_status env response ;;;
          data <- response_json response ;;
          k data) h w
       = h e (advance w 1 [EvGet url params timeout]).
Proof.
  unfold request_fails, try_except, bind, requests_get, http_call,
    raise_for_status, response_json, advance.
  destruct (net env (calls w)) as [e|st body]; simpl.
  - intros He. exists e. split; [exact He|].
    by rewrite Nat.add_1_r.
  - destruct (is_error_status st) eqn:Hst; simpl.
    + intros _. eexists. split; [|by rewrite Nat.add_1_r]. reflexivity.
    + intros [|[msg ->]]; [discriminate|]. simpl.
      eexists. split; [|by rewrite Nat.add_1_r]. reflexivity.
Qed.

(** X12.  When its request fails (the call raises a request exception, the
    status is an error, the body is not JSON), part 3's [get_crypto_price]
    prints "Coin '<id>' not found! ..." with the id as it was sent, lower
    case and stripped, and ends normally. *)
Theorem get_crypto_price_not_found w line rest :
  stdin w = line :: rest ->
  request_fails env (calls w) ->
  get_crypto_price env w =
    (Ret tt,
     after_input w rest 1
       [EvPrint (nl +:+ "=== Cryptocurrency Price Checker ===" +:+ nl);
        EvPrint "Available coins: btc-bitcoin, eth-ethereum, doge-dogecoin";
        EvPrompt "Enter coin ID (e.g., btc-bitcoin): ";
        EvGet ("https://api.coinpaprika.com/v1/tickers/" +:+
               PyStr.strip (PyStr.lower line)) [] None;
        EvPrint (nl +:+ "Coin '" +:+ PyStr.strip (PyStr.lower line) +:+
                 "' not found! Try: btc-bitcoin, eth-ethereum, doge-dogecoin")]).
Proof.
  intros Hin Hfail. unfold get_crypto_price.
  rewrite !bind_print.
  erewrite bind_input by exact Hin.
  cbv zeta. rewrite !after_after.
  match goal with
  | |- try_except _ ?h ?w0 = _ =>
      destruct (failed_request
                  ("https://api.coinpaprika.com/v1/tickers/" +:+
                   PyStr.strip (PyStr.lower line)) [] None
                  (fun data =>
                     quotes <- subscript data "quotes" ;;
                     usd <- subscript quotes "USD" ;;
                     price_usd <- subscript usd "price" ;;
                     quotes' <- subscript data "quotes" ;;
                     usd' <- subscript quotes' "USD" ;;
                     change_24h <- subscript usd' "percent_change_24h" ;;
                     name <- subscript data "name" ;;
                     symbol <- subscript data "symbol" ;;
                     print (nl +:+ "--- " +:+ py_str env name +:+ " (" +:+
                            py_str env symbol +:+ ") ---") ;;;
                     f1 <- format env price_usd ",.2f" ;;
                     print ("Price: $" +:+ f1) ;;;
                     f2 <- format env change_24h "+.2f" ;;
                     print ("24h Change: " +:+ f2 +:+ "%")) h w0)
        as (e & He & Hrun)
  end.
  { simpl. by rewrite !Nat.add_0_r. }
  rewrite Hrun, He, advance_after, print_run, !after_after. reflexivity.
Qed.


Lemma subscript_field item key t w :
  field key item = Some t -> subscript item key w = (Ret t, w).
Proof.
  destruct item; simpl; try discriminate. by intros ->.
Qed.

Lemma print_todos_lines items titles w :
  fields "title" items = Some titles ->
  print_todos env items w = (Ret tt, advance w 0 (todo_lines env titles)).
Proof.
  revert titles w. induction items as [|item items IH]; intros titles w; simpl.
  - intros [= <-]. by rewrite advance_0_nil.
  - destruct (field "title" item) as [t|] eqn:Ht; [|discriminate].
    destruct (fields "title" items) as [ts|]; [|discriminate].
    intros [= <-]. unfold bind at 1.
    rewrite (subscript_field _ _ _ _ Ht), bind_print, <- advance_after.
    rewrite (IH ts _ eq_refl), advance_advance. reflexivity.
Qed.

Lemma print_titles_lines items titles i w :
  fields "title" items = Some titles ->
  print_titles env i items w = (Ret tt, advance w 0 (post_lines env i titles)).
Proof.
  revert titles i w.
  induction items as [|item items IH]; intros titles i w; simpl.
  - intros [= <-]. by rewrite advance_0_nil.
  - destruct (field "title" item) as [t|] eqn:Ht; [|discriminate].
    destruct (fields "title" items) as [ts|]; [|discriminate].
    intros [= <-]. unfold bind at 1.
    rewrite (subscript_field _ _ _ _ Ht), bind_print, <- advance_after.
    rewrite (IH ts _ _ eq_refl), advance_advance. reflexivity.
Qed.

(** The [try] the actions share, when the document arrives. *)
Lemma answered_request {A} url params timeout (k : pyval -> M A) h w st v :
  net env (calls w) = Responds st (Json v) ->
  is_error_status st = false ->
  try_except
    (response <- requests_get env url params timeout ;;
     raise_for_status env response ;;;
     data <- response_json response ;;
     k data) h w
  = try_except (k v) h (advance w 1 [EvGet url params timeout]).
Proof.
  intros Hnet Hst.
  unfold try_except, bind, requests_get, http_call, raise_for_status,
    response_json, advance.
  rewrite Hnet. simpl. rewrite Hst. simpl. by rewrite Nat.add_1_r.
Qed.

(** X13.  [search_todos] counts every todo of the answer but reads only
    the first five: with a list of any length whose first five items have
    a title, it prints the total and one line per title, five at most, and
    ends normally after its one request. *)
Theorem search_todos_first_five w line rest st items titles :
  stdin w = line :: rest ->
  PyStr.strip (PyStr.lower line) = "true"
  \/ PyStr.strip (PyStr.lower line) = "false" ->
  net env (calls w) = Responds st (Json (PList items)) ->
  is_error_status st = false ->
  fields "title" (firstn 5 items) = Some titles ->
  search_todos env w =
    (Ret tt,
     after_input w rest 1
       ([EvPrint (nl +:+ "=== Todo Search ===" +:+ nl);
         EvPrompt "Enter status (true/false): ";
         EvGet "https://jsonplaceholder.typicode.com/todos"
               [("completed", PStr (PyStr.strip (PyStr.lower line)))] None;
         EvPrint (nl +:+ "Total todos found: " +:+
                  pretty (Z.of_nat (length items)))]
        ++ todo_lines env titles))
  /\ (length titles <= 5)%nat.
Proof.
  intros Hin Hstatus Hnet Hst Htitles. split.
  - unfold search_todos.
    rewrite bind_print.
    erewrite bind_input by exact Hin.
    cbv zeta. rewrite !after_after.
    replace (negb ((PyStr.strip (PyStr.lower line) =? "true")%string
                   || (PyStr.strip (PyStr.lower line) =? "false")%string))
      with false by (by destruct Hstatus as [-> | ->]).
    erewrite answered_request;
      [| simpl; rewrite !Nat.add_0_r; exact Hnet | exact Hst].
    unfold try_except.
    unfold bind at 1, len, ret at 1.
    rewrite bind_print.
    unfold bind at 1, slice_to, ret at 1.
    unfold bind at 1, iterate, ret at 1.
    rewrite (print_todos_lines _ _ _ Htitles).
    rewrite advance_after, <- !advance_after, !advance_advance.
    unfold advance, after_input. simpl.
    f_equal. f_equal; [lia | by rewrite <- !app_assoc].
  - assert (forall l ts, fields "title" l = Some ts -> length ts = length l)
      as Hlen.
    { induction l as [|x l IH]; intros ts; simpl; [by intros [= <-]|].
      destruct (field "title" x); [|discriminate].
      destruct (fields "title" l) as [ts'|]; [|discriminate].
      intros [= <-]. simpl. f_equal. by apply IH. }
    rewrite (Hlen _ _ Htitles), length_take. lia.
Qed.


(** X14.  [search_posts] lists every post of a non-empty answer, numbered
    from 1 in the order of the answer, under a header naming the user id as
    typed (stripped). *)
Theorem search_posts_numbered w line rest st items titles :
  stdin w = line :: rest ->
  (forall w0, invalid_user_id env (PyStr.strip line) w0 = (Ret false, w0)) ->
  net env (calls w) = Responds st (Json (PList items)) ->
  is_error_status st = false ->
  items <> [] ->
  fields "title" items = Some titles ->
  search_posts env w =
    (Ret tt,
     after_input w rest 1
       ([EvPrint (nl +:+ "=== Post Search ===" +:+ nl);
         EvPrompt "Enter user ID to see their posts (1-10): ";
         EvGet "https://jsonplaceholder.typicode.com/posts"
               [("userId", PStr (PyStr.strip line))] None;
         EvPrint (nl +:+ "--- Posts by User #" +:+ PyStr.strip line +:+
                  " ---")]
        ++ post_lines env 1 titles)).
Proof.
  intros Hin Hvalid Hnet Hst Hne Htitles.
  unfold search_posts.
  rewrite bind_print.
  erewrite bind_input by exact Hin.
  cbv zeta. rewrite !after_after.
  unfold bind at 1. rewrite Hvalid. cbv iota.
  erewrite answered_request;
    [| simpl; rewrite !Nat.add_0_r; exact Hnet | exact Hst].
  unfold try_except.
  replace (truthy (PList items)) with true by (by destruct items).
  rewrite bind_print.
  unfold bind at 1, iterate, ret at 1.
  rewrite (print_titles_lines _ _ _ _ Htitles).
  rewrite advance_after, <- !advance_after, !advance_advance.
  unfold advance, after_input. simpl.
  f_equal. f_equal; [lia | by rewrite <- !app_assoc].
Qed.

(** X15.  A city outside the table of part 3's [get_weather] is refused
    before any request is made. *)
Theorem get_weather_unknown_city w line rest :
  stdin w = line :: rest ->
  assoc (PyStr.strip (PyStr.lower line)) city_coords = None ->
  get_weather env w =
    (Ret tt,
     after_input w rest 0
       [EvPrint (nl +:+ "=== Weather Checker ===" +:+ nl);
        EvPrompt "Enter city name: ";
        EvPrint "City not available!"]).
Proof.
  intros Hin Hcity. unfold get_weather.
  rewrite bind_print.
  erewrite bind_input by exact Hin.
  cbv zeta. rewrite Hcity, print_run, !after_after. reflexivity.
Qed.

(** X16.  On a user id written with the digits 0 to 9 the check of
    [get_user_info] and [search_posts] is exact and raises nothing: the id
    is refused precisely when its value lies outside 1..10. *)
Theorem invalid_user_id_decimal user_id w :
  user_id <> "" ->
  PyStr.all_chars PyStr.is_decimal user_id = true ->
  (int_max_str_digits env = 0
   \/ N.of_nat (String.length user_id) <= int_max_str_digits env)%N ->
  exists n,
    PyStr.int (int_max_str_digits env) user_id = Some n
    /\ invalid_user_id env user_id w
       = (Ret (negb ((1 <=? n) && (n <=? 10))), w).
Proof.
  intros Hne Hdec Hlim.
  destruct (int_decimal (int_max_str_digits env) user_id Hne Hdec Hlim)
    as [n Hn].
  exists n. split; [exact Hn|].
  apply invalid_user_id_out_of_range; [|exact Hn].
  destruct user_id as [|c s]; [done|]. unfold PyStr.isdigit.
  clear -Hdec. revert Hdec. generalize (String c s). clear.
  induction s as [|c s IH]; [done|]. cbn.
  intros [Hc Hs]%andb_true_iff. unfold PyStr.is_digit. rewrite Hc. simpl.
  by apply IH.
Qed.

End Part3Actions.

(** ** The menu of part 3 *)

Section Reads.

Lemma reads_pure {A} (m : M A) : pure m -> reads m.
Proof. intros [r H] w. by rewrite H. Qed.

Lemma reads_keeps {A} (m : M A) : keeps stdin m -> reads m.
Proof. intros H w. by rewrite H. Qed.

Lemma reads_bind {A C} (m : M A) (k : A -> M C) :
  reads m -> (forall a, reads (k a)) -> reads (bind m k).
Proof.
  intros Hm Hk w. unfold bind. specialize (Hm w).
  destruct (m w) as [[a|e] w']; simpl in *; [|done].
  specialize (Hk a w'). lia.
Qed.

Lemma reads_try_except {A} (m : M A) (h : Exn -> M A) :
  reads m -> (forall e, reads (h e)) -> reads (try_except m h).
Proof.
  intros Hm Hh w. unfold try_except. specialize (Hm w).
  destruct (m w) as [[a|e] w']; simpl in *; [done|].
  specialize (Hh e w'). lia.
Qed.

Lemma reads_input prompt : reads (input prompt).
Proof. intros w. unfold input. destruct (stdin w); simpl; lia. Qed.

End Reads.

Ltac reads_tac :=
  repeat first
    [ progress intros
    | match goal with H : _ |- reads _ => solve [simple apply H] end
    | simple apply @reads_bind
    | simple apply @reads_try_except
    | match goal with
      | |- reads (if ?c then _ else _) => destruct c
      | |- reads (match ?x with _ => _ end) => destruct x
      | |- reads (let _ := _ in _) => cbv zeta
      end
    | solve [simple apply reads_input]
    | solve [simple apply @reads_keeps; keeps_prim]
    | solve [simple apply @reads_pure; pure_tac2] ].

(** Splits off, from a computation, the steps before its one request. *)
Ltac at_most_one :=
  repeat first
    [ progress intros
    | match goal with H : _ |- at_most _ _ => solve [simple apply H] end
    | solve [apply (at_most_weaken 0); [lia | apply keeps_at_most; keeps_tac]]
    | solve [apply exactly_at_most, exactly_try_keeps;
             [apply exactly_bind_keeps; [apply exactly_http_call | keeps_tac]
             | keeps_tac]]
    | apply (at_most_bind 0 1); [solve [apply keeps_at_most; keeps_tac] |]
    | match goal with
      | |- at_most _ (if ?c then _ else _) => destruct c
      | |- at_most _ (match ?x with _ => _ end) => destruct x
      | |- at_most _ (let _ := _ in _) => cbv zeta
      end ].

Section Part3Menu.
Import Part3.
Variable env : Env.

Lemma pure_invalid_user_id user_id : pure (invalid_user_id env user_id).
Proof. unfold invalid_user_id. pure_tac2. Qed.

Lemma keeps_calls_print_titles i posts :
  keeps calls (print_titles env i posts).
Proof.
  revert i. induction posts as [|post posts IH]; intros i; simpl; keeps_tac.
Qed.

Lemma keeps_stdin_print_titles i posts :
  keeps stdin (print_titles env i posts).
Proof.
  revert i. induction posts as [|post posts IH]; intros i; simpl; keeps_tac.
Qed.

Lemma keeps_calls_print_todos todos : keeps calls (print_todos env todos).
Proof. induction todos as [|todo todos IH]; simpl; keeps_tac. Qed.

Lemma keeps_stdin_print_todos todos : keeps stdin (print_todos env todos).
Proof. induction todos as [|todo todos IH]; simpl; keeps_tac. Qed.

Lemma at_most_get_user_info : at_most 1 (get_user_info env).
Proof.
  unfold get_user_info, requests_get.
  pose proof (fun u => keeps_pure calls _ (pure_invalid_user_id u)).
  at_most_one.
Qed.

Lemma at_most_search_posts : at_most 1 (search_posts env).
Proof.
  unfold search_posts, requests_get.
  pose proof (fun u => keeps_pure calls _ (pure_invalid_user_id u)).
  pose proof keeps_calls_print_titles.
  at_most_one.
Qed.

Lemma at_most_get_crypto_price : at_most 1 (get_crypto_price env).
Proof. unfold get_crypto_price, requests_get. at_most_one. Qed.

Lemma at_most_search_todos : at_most 1 (search_todos env).
Proof.
  unfold search_todos, requests_get.
  pose proof keeps_calls_print_todos.
  at_most_one.
Qed.

Lemma at_most_get_weather : at_most 1 (get_weather env).
Proof. unfold get_weather, requests_get. at_most_one. Qed.

(** X17.  A pass through the menu of part 3 issues at most one HTTP
    request, whatever is typed and whatever the server answers. *)
Theorem main_iteration_at_most_one : at_most 1 (main_iteration env).
Proof.
  unfold main_iteration, main_dispatch.
  pose proof at_most_get_user_info.
  pose proof at_most_search_posts.
  pose proof at_most_get_crypto_price.
  pose proof at_most_search_todos.
  pose proof at_most_get_weather.
  assert (forall (m : M unit), at_most 1 m ->
            at_most 1 (m ;;; ret true)) as Hthen.
  { intros m Hm. apply (at_most_bind 1 0); [exact Hm|].
    intros _. apply keeps_at_most. keeps_tac. }
  repeat (apply (at_most_bind 0 1); [apply keeps_at_most; keeps_tac|];
          intros ?).
  repeat match goal with
         | |- at_most _ (if ?c then _ else _) => destruct c
         end;
    first [ apply Hthen; assumption
          | apply (at_most_weaken 0); [lia|]; apply keeps_at_most; keeps_tac ].
Qed.


Lemma reads_main_dispatch choice : reads (main_dispatch env choice).
Proof.
  unfold main_dispatch, get_user_info, search_posts, get_crypto_price,
    search_todos, get_weather.
  pose proof (fun u => reads_pure _ (pure_invalid_user_id u)).
  pose proof (fun i p => reads_keeps _ (keeps_stdin_print_titles i p)).
  pose proof (fun t => reads_keeps _ (keeps_stdin_print_todos t)).
  reads_tac.
Qed.

(** A pass that ends normally has taken a line off the input; one that
    raises has put none back. *)
Lemma main_iteration_consumes w :
  match main_iteration env w with
  | (Ret _, w') => (length (stdin w') < length (stdin w))%nat
  | (Raise _, w') => (length (stdin w') <= length (stdin w))%nat
  end.
Proof.
  unfold main_iteration. rewrite !bind_print, !after_after.
  destruct (stdin w) as [|line rest] eqn:Hin.
  - rewrite bind_input_eof by reflexivity. simpl. lia.
  - erewrite bind_input by reflexivity.
    match goal with
    | |- context [main_dispatch env ?c ?w0] =>
        pose proof (reads_main_dispatch c w0) as Hd;
        destruct (main_dispatch env c w0) as [[again|e] w']
    end; simpl in Hd |- *; lia.
Qed.

(** X18.  Every pass of the loop of [main] that completes has read at
    least one line, and no step puts a line back: when [fuel] passes have
    completed and the loop is to go on ([None]), at least [fuel] lines of
    the input are gone; however the loop ends, the input has only shrunk.
    So the loop cannot go on beyond its input.  (Nothing is said of a
    request that never returns: the calls of part 3 carry no timeout.) *)
Theorem main_loop_reads_a_line_per_pass fuel w :
  match main_loop env fuel w with
  | (Ret None, w') => (fuel + length (stdin w') <= length (stdin w))%nat
  | (_, w') => (length (stdin w') <= length (stdin w))%nat
  end.
Proof.
  revert w. induction fuel as [|fuel IH]; intros w; simpl; [lia|].
  unfold bind. pose proof (main_iteration_consumes w) as Hc.
  destruct (main_iteration env w) as [[again|e] w1]; [|exact Hc].
  destruct again; [|simpl; lia].
  specialize (IH w1).
  destruct (main_loop env fuel w1) as [[[[]|]|e] w2]; lia.
Qed.

End Part3Menu.

(** ** Comparing coins *)

Section Compare.
Import Part5.
Variable env : Env.

Lemma exactly_compare_one coin : exactly 1 (compare_one env coin).
Proof.
  unfold compare_one, get_crypto_price, requests_get.
  apply exactly_bind_keeps; [apply exactly_fetch_json|].
  keeps_tac.
Qed.

(** The document arrives: [fetch_json] hands it over as it is. *)
Lemma fetch_json_answered ev label w st v :
  net env (calls w) = Responds st (Json v) ->
  is_error_status st = false ->
  fetch_json env (http_call env ev) label w = (Ret v, advance w 1 [ev]).
Proof.
  intros Hnet Hst.
  unfold fetch_json, try_except, bind, http_call, raise_for_status,
    response_json, advance.
  rewrite Hnet. simpl. rewrite Hst. simpl. by rewrite Nat.add_1_r.
Qed.

(** X19.  [compare_cryptos] asks for each coin once, in the order given:
    when its loop ends normally it has issued exactly one request per coin,
    and when an exception ends it early, at most that many. *)
Theorem compare_each_one_request_per_coin coins w :
  match compare_each env coins w with
  | (Ret _, w') => calls w' = (calls w + length coins)%nat
  | (Raise _, w') => (calls w' <= calls w + length coins)%nat
  end.
Proof.
  revert w. induction coins as [|coin coins IH]; intros w; simpl.
  - unfold ret. lia.
  - unfold bind. pose proof (exactly_compare_one coin w) as H1.
    destruct (compare_one env coin w) as [[[]|e] w1]; simpl in H1; [|lia].
    specialize (IH w1).
    destruct (compare_each env coins w1) as [[[]|e] w2]; lia.
Qed.

(** X20.  A ticker document without ["quotes"] does not stop the
    comparison: the [KeyError] is caught, the row of the coin shows
    "Error" twice, and [compare_one] ends normally. *)
Theorem compare_one_missing_quotes coin w st d :
  net env (calls w) = Responds st (Json (PDict d)) ->
  is_error_status st = false ->
  assoc "quotes" d = None ->
  compare_one env coin w =
    (Ret tt,
     advance w 1
       [EvGet ("https://api.coinpaprika.com/v1/tickers/" +:+ coin_id coin)
              [] (Some 10);
        EvPrint (PyStr.ljust 15 coin +:+ PyStr.rjust 15 "Error" +:+
                 PyStr.rjust 15 "Error")]).
Proof.
  intros Hnet Hst Hq.
  unfold compare_one, get_crypto_price, requests_get, coin_id.
  unfold bind at 1.
  rewrite (fetch_json_answered _ _ _ st (PDict d) Hnet Hst).
  unfold try_except, bind at 1, subscript at 1. rewrite Hq.
  unfold raise. cbn [exn_class]. cbv iota.
  rewrite print_run. unfold advance, after_input.
  cbn [stdin calls trace fs OPENWEATHER_API_KEY last_post_data].
  f_equal. f_equal; [lia | by rewrite <- app_assoc].
Qed.

End Compare.

(** ** The list of coins typed at choice 5 *)

Section ParseCoins.
Import Part5.

Lemma rstrip_rstrip s : PyStr.rstrip (PyStr.rstrip s) = PyStr.rstrip s.
Proof.
  induction s as [|c s IH]; [done|]. cbn [PyStr.rstrip].
  destruct (PyStr.rstrip s) as [|c' r'] eqn:Hr.
  - destruct (PyStr.is_space c) eqn:Hc; [done|].
    cbn [PyStr.rstrip]. by rewrite Hc.
  - cbn [PyStr.rstrip]. cbn [PyStr.rstrip] in IH.
    destruct (PyStr.rstrip r') as [|c2 r2] eqn:Hr2.
    + destruct (PyStr.is_space c'); [discriminate|]. by inversion IH.
    + by inversion IH.
Qed.

(** What [lstrip] leaves does not begin with white space. *)
Lemma lstrip_head s :
  match PyStr.lstrip s with
  | EmptyString => True
  | String c _ => PyStr.is_space c = false
  end.
Proof.
  induction s as [|c s IH]; [done|]. cbn [PyStr.lstrip].
  destruct (PyStr.is_space c) eqn:Hc; [exact IH | exact Hc].
Qed.

Lemma rstrip_head c s :
  PyStr.is_space c = false ->
  exists r, PyStr.rstrip (String c s) = String c r.
Proof.
  intros Hc. cbn [PyStr.rstrip].
  destruct (PyStr.rstrip s); [rewrite Hc|]; by eexists.
Qed.

Lemma strip_strip s : PyStr.strip (PyStr.strip s) = PyStr.strip s.
Proof.
  unfold PyStr.strip. pose proof (lstrip_head s) as Hh.
  destruct (PyStr.lstrip s) as [|c t]; [done|].
  destruct (rstrip_head c t Hh) as [r Hr]. rewrite Hr.
  cbn [PyStr.lstrip]. rewrite Hh, <- Hr. apply rstrip_rstrip.
Qed.

(** X21.  Every name that choice 5 hands to [compare_cryptos] is non-empty
    and carries no white space at either end, however the line was
    typed. *)
Theorem parse_coins_clean coins_input :
  Forall (fun c => c <> "" /\ PyStr.strip c = c) (parse_coins coins_input).
Proof.
  unfold parse_coins. apply List.Forall_forall. intros c Hc.
  apply filter_In in Hc as [Hin Hne].
  apply in_map_iff in Hin as (raw & <- & _).
  split; [|apply strip_strip].
  by destruct (PyStr.strip raw).
Qed.

End ParseCoins.

(** ** Creating a post *)

Section CreatePost.
Import Part5.
Variable env : Env.

(** X22.  [create_post] sends nothing when the title or the body is blank:
    it says so and returns, and [last_post_data] stays what it was. *)
Theorem create_post_blank w title body rest :
  stdin w = title :: body :: rest ->
  PyStr.strip title = "" \/ PyStr.strip body = "" ->
  create_post env w =
    (Ret tt,
     after_input w rest 0
       [EvPrint (nl +:+ "=== Create a New Post ===");
        EvPrompt "Enter post title: ";
        EvPrompt "Enter post body: ";
        EvPrint "Title and body cannot be empty."]).
Proof.
  intros Hin Hblank. unfold create_post.
  rewrite bind_print.
  erewrite bind_input by exact Hin.
  erewrite bind_input by reflexivity.
  cbv zeta.
  replace (PyStr.is_empty (PyStr.strip title)
           || PyStr.is_empty (PyStr.strip body)) with true
    by (destruct Hblank as [-> | ->]; simpl;
        [done | by rewrite orb_true_r]).
  rewrite print_run, !after_after. reflexivity.
Qed.

(** X23.  [create_post] never retries: whatever is typed and whatever the
    server answers, it issues at most one request. *)
Theorem create_post_at_most_one : at_most 1 (create_post env).
Proof. unfold create_post, requests_post. at_most_one. Qed.

End CreatePost.

(** ** Files *)

Section Files.
Import Part5.
Variable env : Env.

(** X25.  [save_to_json] never raises.  When the file cannot be opened, the
    error is printed after "Failed to save data: " and no file changes. *)
Theorem save_to_json_reports_failure data filename msg w :
  truthy data = true ->
  open_error env filename = Some msg ->
  save_to_json env data filename w =
    (Ret tt, advance w 0 [EvPrint ("Failed to save data: " +:+ msg)])
  /\ fs (snd (save_to_json env data filename w)) = fs w.
Proof.
  intros Ht Ho. rewrite (save_to_json_open_fails env data filename msg w Ht Ho).
  split; reflexivity.
Qed.

End Files.

(** ** Which choice writes files *)

Section FilesFrame.
Import Part5.
Variable env : Env.

Lemma keeps_fs_fetch_json ev label :
  keeps fs (fetch_json env (http_call env ev) label).
Proof. unfold fetch_json. keeps_tac. Qed.

Lemma keeps_fs_display_weather city : keeps fs (display_weather env city).
Proof.
  unfold display_weather, get_weather, requests_get.
  pose proof keeps_fs_fetch_json. keeps_tac.
Qed.

Lemma keeps_fs_display_crypto coin : keeps fs (display_crypto env coin).
Proof.
  unfold display_crypto, get_crypto_price, requests_get.
  pose proof keeps_fs_fetch_json. keeps_tac.
Qed.

Lemma keeps_fs_display_rows coins : keeps fs (display_rows env coins).
Proof. induction coins as [|coin rest IH]; simpl; keeps_tac. Qed.

Lemma keeps_fs_display_top_cryptos : keeps fs (display_top_cryptos env).
Proof.
  unfold display_top_cryptos, get_top_cryptos, requests_get.
  pose proof keeps_fs_fetch_json. pose proof keeps_fs_display_rows.
  keeps_tac.
Qed.

Lemma keeps_fs_compare_each coins : keeps fs (compare_each env coins).
Proof.
  induction coins as [|coin rest IH]; simpl; [keeps_tac|].
  apply keeps_bind; [|intros; exact IH].
  unfold compare_one, get_crypto_price, requests_get.
  pose proof keeps_fs_fetch_json. keeps_tac.
Qed.

Lemma keeps_fs_compare_cryptos coins : keeps fs (compare_cryptos env coins).
Proof.
  unfold compare_cryptos. pose proof keeps_fs_compare_each. keeps_tac.
Qed.

Lemma keeps_fs_create_post : keeps fs (create_post env).
Proof. unfold create_post. keeps_tac. Qed.

Lemma keeps_fs_display_openweather city :
  keeps fs (display_openweather env city).
Proof.
  unfold display_openweather, get_openweather, requests_get.
  pose proof keeps_fs_fetch_json. keeps_tac.
Qed.

Lemma keeps_fs_dispatch choice :
  choice <> "7" -> keeps fs (dispatch env choice).
Proof.
  intros Hne. unfold dispatch.
  pose proof keeps_fs_display_weather.
  pose proof keeps_fs_display_crypto.
  pose proof keeps_fs_display_top_cryptos.
  pose proof keeps_fs_compare_cryptos.
  pose proof keeps_fs_create_post.
  pose proof keeps_fs_display_openweather.
  destruct (String.eqb choice "7") eqn:E7;
    [by apply String.eqb_eq in E7|].
  keeps_tac.
Qed.

(** X26.  Only choice 7 writes files: a pass of the dashboard whose line is
    anything else (or that finds the input at its end) leaves every file as
    it was, whatever the servers answer. *)
Theorem files_written_only_by_choice_7 w :
  (forall line rest, stdin w = line :: rest -> PyStr.strip line <> "7") ->
  fs (snd (iteration env w)) = fs w.
Proof.
  intros Hne. destruct (stdin w) as [|line rest] eqn:Hin.
  - by rewrite (iteration_eof env w Hin).
  - rewrite (iteration_input env w line rest Hin).
    by rewrite (keeps_fs_dispatch _ (Hne line rest eq_refl)).
Qed.

End FilesFrame.

(** ** Lines that are no option *)

Section NoOption.
Import Part5.
Variable env : Env.

Lemma dispatch_no_option choice w :
  no_option choice ->
  dispatch env choice w =
    (Ret true, advance w 0 [EvPrint "Invalid option. Try again."]).
Proof.
  intros Hno. unfold dispatch.
  repeat match goal with
         | |- context [String.eqb choice ?s] =>
             destruct (String.eqb_spec choice s) as [->|_];
               [exfalso; apply Hno; simpl; tauto|]
         end.
  by rewrite bind_print.
Qed.

Lemma dispatch_exit w :
  dispatch env "9" w =
    (Ret false, advance w 0 [EvPrint (nl +:+ "Goodbye! Happy coding!")]).
Proof. unfold dispatch. cbn [String.eqb Ascii.eqb Bool.eqb]. by rewrite bind_print. Qed.

(** Lines that are no option only move the loop forward. *)
Lemma loop_no_option lines fuel w rest :
  Forall (fun l => no_option (PyStr.strip l)) lines ->
  stdin w = lines ++ rest ->
  loop env (length lines + fuel) w =
    loop env fuel
      (after_input w rest 0 (passes (length lines) invalid_pass)).
Proof.
  revert w. induction lines as [|line lines IH]; intros w Hall Hin.
  - simpl in *. f_equal. unfold after_input. destruct w; simpl in *.
    subst. f_equal; [lia | by rewrite app_nil_r].
  - inversion Hall as [|? ? Hline Hrest]; subst.
    cbn [length Nat.add loop]. unfold bind at 1.
    rewrite (iteration_input env w line (lines ++ rest) Hin).
    rewrite (dispatch_no_option _ _ Hline), advance_after, after_after.
    cbn [stdin after_input].
    rewrite IH by first [exact Hrest | reflexivity].
    rewrite after_after.
    reflexivity.
Qed.

(** X27.  Lines that are none of the options 1 to 9 are answered with
    "Invalid option. Try again." and the menu again, one pass per line;
    when [9] follows, the dashboard says goodbye and returns, leaving the
    lines after it unread and having issued no request. *)
Theorem dashboard_invalid_then_exit w lines quit more :
  Forall (fun l => no_option (PyStr.strip l)) lines ->
  PyStr.strip quit = "9" ->
  stdin w = lines ++ quit :: more ->
  dashboard env w =
    (Ret (Some tt),
     after_input w more 0
       (banner env ++ passes (length lines) invalid_pass ++ menu_events
        ++ [EvPrint (nl +:+ "Goodbye! Happy coding!")])).
Proof.
  intros Hall Hquit Hin. unfold dashboard.
  rewrite !bind_print, !after_after.
  unfold bind at 1, pending_lines.
  simpl (stdin (after_input _ _ _ _)).
  rewrite Hin, length_app. cbn [length].
  replace (S (length lines + S (length more)))
    with (length lines + S (S (length more)))%nat by lia.
  rewrite (loop_no_option lines _ _ (quit :: more) Hall) by reflexivity.
  rewrite after_after. cbn [loop]. unfold bind at 1.
  erewrite iteration_input by reflexivity.
  rewrite Hquit, dispatch_exit, advance_after, !after_after.
  reflexivity.
Qed.

(** X28.  When the input ends before [9] was chosen, the [input] of the
    next pass raises [EOFError] and nothing catches it: after lines that are
    no option, the dashboard shows the menu once more and the exception
    leaves [dashboard]. *)
Theorem dashboard_end_of_input w lines :
  Forall (fun l => no_option (PyStr.strip l)) lines ->
  stdin w = lines ->
  dashboard env w =
    (Raise (mkExn EOFError "EOF when reading a line" None),
     after_input w [] 0
       (banner env ++ passes (length lines) invalid_pass ++ menu_events)).
Proof.
  intros Hall Hin. unfold dashboard.
  rewrite !bind_print, !after_after.
  unfold bind at 1, pending_lines.
  simpl (stdin (after_input _ _ _ _)).
  rewrite Hin.
  replace (S (length lines)) with (length lines + 1)%nat by lia.
  rewrite (loop_no_option lines _ _ [] Hall)
    by (simpl; by rewrite app_nil_r).
  rewrite after_after. cbn [loop]. unfold bind at 1.
  rewrite iteration_eof by reflexivity.
  rewrite !after_after. reflexivity.
Qed.

End NoOption.

(** ** Sample runs of the further properties *)

Lemma validate_crypto_response_fields_witness :
  Part4Demos.validate_crypto_response sample_ticker (start []) =
    (Ret (verdict_on [("price", PInt 100); ("percent_change_24h", PInt 1)]),
     start []).
Proof.
  apply (validate_crypto_response_fields _
           [("USD", PDict [("price", PInt 100);
                           ("percent_change_24h", PInt 1)])]);
    reflexivity.
Defined.

Lemma validate_crypto_response_sound_witness :
  exists usd,
    (quotes <- subscript sample_ticker "quotes" ;; subscript quotes "USD")
      (start []) = (Ret usd, start [])
    /\ contains "price" usd (start []) = (Ret true, start [])
    /\ contains "percent_change_24h" usd (start []) = (Ret true, start []).
Proof.
  apply validate_crypto_response_sound. reflexivity.
Defined.


Lemma fetch_crypto_safely_blank_witness :
  Part4Demos.fetch_crypto_safely (env_of net_down None) (start ["   "]) =
    (Ret tt,
     after_input (start ["   "]) [] 0
       [EvPrint (nl +:+ "=== Safe Crypto Price Checker ===" +:+ nl);
        EvPrompt "Enter coin (btc-bitcoin, eth-ethereum): ";
        EvPrint "Error: Please enter a coin name."]).
Proof.
  apply (fetch_crypto_safely_blank _ (start ["   "]) "   " []);
    reflexivity.
Defined.

Lemma fetch_crypto_safely_invalid_document_witness :
  Part4Demos.fetch_crypto_safely
    (env_of (net_const 200 (Json (PDict []))) None) (start ["BTC-Bitcoin "]) =
    (Ret tt,
     advance (fetched (start ["BTC-Bitcoin "]) []
                (PyStr.lower (PyStr.strip "BTC-Bitcoin ")) 200) 0
       [EvPrint (nl +:+ "Invalid crypto data: " +:+
                 "Missing quotes/USD data")]).
Proof.
  apply (fetch_crypto_safely_invalid_document _ (start ["BTC-Bitcoin "])
           "BTC-Bitcoin " [] 200 (PDict []) "Missing quotes/USD data");
    reflexivity.
Defined.

Lemma fetch_crypto_safely_unvalidated_name_witness :
  Part4Demos.fetch_crypto_safely
    (env_of (net_const 200 (Json nameless_ticker)) None)
    (start ["btc-bitcoin"]) =
    (Raise (mkExn KeyError "'name'" None),
     fetched (start ["btc-bitcoin"]) []
       (PyStr.lower (PyStr.strip "btc-bitcoin")) 200).
Proof.
  apply (fetch_crypto_safely_unvalidated_name _ (start ["btc-bitcoin"])
           "btc-bitcoin" [] 200
           [("quotes",
             PDict [("USD", PDict [("price", PInt 100);
                                   ("percent_change_24h", PInt 1)])])]);
    reflexivity.
Defined.

Lemma get_crypto_price_not_found_witness :
  Part3.get_crypto_price (env_of net_down None) (start ["BTC-Bitcoin "]) =
    (Ret tt,
     after_input (start ["BTC-Bitcoin "]) [] 1
       [EvPrint (nl +:+ "=== Cryptocurrency Price Checker ===" +:+ nl);
        EvPrint "Available coins: btc-bitcoin, eth-ethereum, doge-dogecoin";
        EvPrompt "Enter coin ID (e.g., btc-bitcoin): ";
        EvGet ("https://api.coinpaprika.com/v1/tickers/" +:+
               PyStr.strip (PyStr.lower "BTC-Bitcoin ")) [] None;
        EvPrint (nl +:+ "Coin '" +:+ PyStr.strip (PyStr.lower "BTC-Bitcoin ")
                 +:+
                 "' not found! Try: btc-bitcoin, eth-ethereum, doge-dogecoin")]).
Proof.
  apply (get_crypto_price_not_found _ (start ["BTC-Bitcoin "])
           "BTC-Bitcoin " []); reflexivity.
Defined.

Lemma search_todos_first_five_witness :
  Part3.search_todos (env_of (net_const 200 (Json (PList six_todos))) None)
                     (start ["TRUE "]) =
    (Ret tt,
     after_input (start ["TRUE "]) [] 1
       ([EvPrint (nl +:+ "=== Todo Search ===" +:+ nl);
         EvPrompt "Enter status (true/false): ";
         EvGet "https://jsonplaceholder.typicode.com/todos"
               [("completed", PStr (PyStr.strip (PyStr.lower "TRUE ")))] None;
         EvPrint (nl +:+ "Total todos found: " +:+
                  pretty (Z.of_nat (length six_todos)))]
        ++ todo_lines (env_of (net_const 200 (Json (PList six_todos))) None)
             [PStr "a"; PStr "b"; PStr "c"; PStr "d"; PStr "e"]))
  /\ (length [PStr "a"; PStr "b"; PStr "c"; PStr "d"; PStr "e"] <= 5)%nat.
Proof.
  apply (search_todos_first_five _ (start ["TRUE "]) "TRUE " [] 200);
    try reflexivity.
  left. reflexivity.
Defined.

Lemma search_posts_numbered_witness :
  Part3.search_posts
    (env_of (net_const 200
               (Json (PList [PDict [("title", PStr "first")];
                             PDict [("title", PStr "second")]]))) None)
    (start [" 3 "]) =
    (Ret tt,
     after_input (start [" 3 "]) [] 1
       ([EvPrint (nl +:+ "=== Post Search ===" +:+ nl);
         EvPrompt "Enter user ID to see their posts (1-10): ";
         EvGet "https://jsonplaceholder.typicode.com/posts"
               [("userId", PStr (PyStr.strip " 3 "))] None;
         EvPrint (nl +:+ "--- Posts by User #" +:+ PyStr.strip " 3 " +:+
                  " ---")]
        ++ post_lines
             (env_of (net_const 200
                        (Json (PList [PDict [("title", PStr "first")];
                                      PDict [("title", PStr "second")]])))
                     None)
             1 [PStr "first"; PStr "second"])).
Proof.
  apply (search_posts_numbered _ (start [" 3 "]) " 3 " [] 200
           [PDict [("title", PStr "first")]; PDict [("title", PStr "second")]]
           [PStr "first"; PStr "second"]);
    first [reflexivity | discriminate].
Defined.

Lemma get_weather_unknown_city_witness :
  Part3.get_weather (env_of net_down None) (start ["Atlantis"]) =
    (Ret tt,
     after_input (start ["Atlantis"]) [] 0
       [EvPrint (nl +:+ "=== Weather Checker ===" +:+ nl);
        EvPrompt "Enter city name: ";
        EvPrint "City not available!"]).
Proof.
  apply (get_weather_unknown_city _ (start ["Atlantis"]) "Atlantis" []);
    reflexivity.
Defined.

Lemma invalid_user_id_decimal_witness :
  exists n,
    PyStr.int (int_max_str_digits (env_of net_down None)) "011" = Some n
    /\ Part3.invalid_user_id (env_of net_down None) "011" (start [])
       = (Ret (negb ((1 <=? n) && (n <=? 10))), start []).
Proof.
  apply invalid_user_id_decimal; [discriminate | reflexivity |].
  right. simpl. lia.
Defined.

Lemma compare_one_missing_quotes_witness :
  Part5.compare_one
    (env_of (net_const 200 (Json (PDict [("error", PStr "id not found")])))
            None)
    "bitcoin" (start []) =
    (Ret tt,
     advance (start []) 1
       [EvGet ("https://api.coinpaprika.com/v1/tickers/" +:+
               coin_id "bitcoin") [] (Some 10);
        EvPrint (PyStr.ljust 15 "bitcoin" +:+ PyStr.rjust 15 "Error" +:+
                 PyStr.rjust 15 "Error")]).
Proof.
  apply (compare_one_missing_quotes _ "bitcoin" (start []) 200
           [("error", PStr "id not found")]); reflexivity.
Defined.

Lemma create_post_blank_witness :
  Part5.create_post (env_of net_down None) (start ["  "; "text"]) =
    (Ret tt,
     after_input (start ["  "; "text"]) [] 0
       [EvPrint (nl +:+ "=== Create a New Post ===");
        EvPrompt "Enter post title: ";
        EvPrompt "Enter post body: ";
        EvPrint "Title and body cannot be empty."]).
Proof.
  apply (create_post_blank _ (start ["  "; "text"]) "  " "text" []);
    [reflexivity | left; reflexivity].
Defined.

Lemma save_to_json_reports_failure_witness :
  Part5.save_to_json (disk_full (env_of net_down None)) sample_ticker
                     "bitcoin_data.json" (start []) =
    (Ret tt,
     advance (start []) 0
       [EvPrint ("Failed to save data: " +:+ "No space left on device")])
  /\ fs (snd (Part5.save_to_json (disk_full (env_of net_down None))
                sample_ticker "bitcoin_data.json" (start [])))
     = fs (start []).
Proof.
  apply save_to_json_reports_failure; reflexivity.
Defined.

Lemma files_written_only_by_choice_7_witness :
  fs (snd (Part5.iteration (env_of net_down None) (start ["3"])))
  = fs (start ["3"]).
Proof.
  apply files_written_only_by_choice_7.
  intros line rest [= <- _]. vm_compute. discriminate.
Defined.

Lemma dashboard_invalid_then_exit_witness :
  Part5.dashboard (env_of net_down None) (start ["x"; "0"; " 9"; "1"]) =
    (Ret (Some tt),
     after_input (start ["x"; "0"; " 9"; "1"]) ["1"] 0
       (banner (env_of net_down None)
        ++ passes (length ["x"; "0"]) invalid_pass ++ menu_events
        ++ [EvPrint (nl +:+ "Goodbye! Happy coding!")])).
Proof.
  apply (dashboard_invalid_then_exit _ (start ["x"; "0"; " 9"; "1"])
           ["x"; "0"] " 9" ["1"]); [|reflexivity | reflexivity].
  repeat constructor; vm_compute;
    intros H; repeat destruct H as [H|H]; discriminate || done.
Defined.

Lemma dashboard_end_of_input_witness :
  Part5.dashboard (env_of net_down None) (start ["x"]) =
    (Raise (mkExn EOFError "EOF when reading a line" None),
     after_input (start ["x"]) [] 0
       (banner (env_of net_down None)
        ++ passes (length ["x"]) invalid_pass ++ menu_events)).
Proof.
  apply (dashboard_end_of_input _ (start ["x"]) ["x"]); [|reflexivity].
  repeat constructor; vm_compute;
    intros H; repeat destruct H as [H|H]; discriminate || done.
Defined.
